(** * duckli: setup flow and chat session of the terminal assistant

    A shallow embedding of [source/cli.tsx] (the command-line entry point
    followed by the [App] component) and the properties of the setup state
    machine, the model catalogue and the chat session.

    Conventions of the embedding.

    - A JavaScript string is a [string] holding its UTF-8 bytes; an optional
      string ([string | undefined]) is an [option string].  The values of
      the untyped response of the completion call are [jsval]s.
    - React state is the record [State], one field per [useState].  A
      handler, or an [async] function from one [await] to the next, is a
      function on [State] that also returns the outside actions it starts
      (file and network operations).  The state updates issued by one
      handler are applied together.  The two effects ([useEffect]) with
      dependencies then run against the snapshot of the render they belong
      to, each only when one of its dependencies changed since the render
      before, round after round until no effect fires ([settle], [Settles]).
    - The program as a whole is a [System]: the state, the actions started
      so far, the operations whose result is awaited.  An [Event] is a key
      press, an edit or a submission in the text input on screen, or the
      result of an awaited operation; an event is handled once the effects
      of the event before it have settled ([step], [run]).
    - [prompts.js] is not among the sources: the personality catalogue
      ([getPersonalityOptions], [getPersonalityById]) is a parameter, and so
      is the locale-dependent [localeCompare] ([Host]).
    - What [MessageRenderer] draws is a list of [Rendered] elements, boxes
      of code and lines of text; [String.prototype.toLowerCase] is a
      parameter of it.  A content that is no string makes it throw, which
      ends the program; [step] follows the state of the component and
      leaves the drawing of the views to [textual] and [renderTranscript]. *)

From Stdlib Require Import String Ascii List ZArith Bool Lia.
From Stdlib Require Import DecimalString Sorted Permutation OrderedTypeEx.
Import ListNotations.

Local Open Scope string_scope.
Local Open Scope Z_scope.

(** ** JavaScript strings *)

Module JsString.

(** Truthiness of a string: every string but the empty one. *)
Definition truthy (s : string) : bool := negb (s =? "")%string.

(** Truthiness of [string | undefined]. *)
Definition otruthy (o : option string) : bool :=
  match o with
  | Some s => truthy s
  | None => false
  end.

(** [o || d] for an optional string [o] and a string [d]. *)
Definition or_default (o : option string) (d : string) : string :=
  match o with
  | Some s => if truthy s then s else d
  | None => d
  end.

(** [a || b] for two optional strings. *)
Definition or_else (a b : option string) : option string :=
  if otruthy a then a else b.

Fixpoint strip_prefix (p s : string) : option string :=
  match p, s with
  | EmptyString, _ => Some s
  | String a p', String b s' =>
      if Ascii.eqb a b then strip_prefix p' s' else None
  | String _ _, EmptyString => None
  end.

(** [s.includes(sub)] *)
Fixpoint includes (s sub : string) : bool :=
  match strip_prefix sub s with
  | Some _ => true
  | None =>
      match s with
      | EmptyString => false
      | String _ s' => includes s' sub
      end
  end.

Definition bytes (l : list nat) : string :=
  string_of_list_ascii (map ascii_of_nat l).

Definition rev_string (s : string) : string :=
  string_of_list_ascii (rev (list_ascii_of_string s)).

(** The characters [String.prototype.trim] removes (WhiteSpace and
    LineTerminator of ECMAScript), as UTF-8 byte sequences: U+0009 to
    U+000D, U+0020, U+00A0, U+1680, U+2000 to U+200A, U+2028, U+2029,
    U+202F, U+205F, U+3000 and U+FEFF. *)
Definition white_space : list string :=
  map bytes
    (List.app
       [ [9]; [10]; [11]; [12]; [13]; [32]; [194; 160]; [225; 154; 128] ]
       (List.app
          (map (fun b => [226; 128; b]) (seq 128 11))
          [ [226; 128; 168]; [226; 128; 169]; [226; 128; 175];
            [226; 129; 159]; [227; 128; 128]; [239; 187; 191] ]))%nat.

Fixpoint strip_any (ws : list string) (s : string) : option string :=
  match ws with
  | [] => None
  | w :: ws' =>
      match strip_prefix w s with
      | Some rest => Some rest
      | None => strip_any ws' s
      end
  end.

Fixpoint strip_all (fuel : nat) (ws : list string) (s : string) : string :=
  match fuel with
  | O => s
  | S fuel' =>
      match strip_any ws s with
      | Some rest => strip_all fuel' ws rest
      | None => s
      end
  end.

Definition trimStart (s : string) : string :=
  strip_all (String.length s) white_space s.

Definition trimEnd (s : string) : string :=
  rev_string
    (strip_all (String.length s) (map rev_string white_space) (rev_string s)).

(** [s.trim()] *)
Definition trim (s : string) : string := trimEnd (trimStart s).

(** Decimal text of an integer, as a template literal prints it. *)
Definition of_Z (z : Z) : string := NilZero.string_of_int (Z.to_int z).

Definition of_nat (n : nat) : string := NilZero.string_of_uint (Nat.to_uint n).

End JsString.
Import JsString.

(** ** Exceptions and JavaScript values *)

(** What a [catch] clause receives: an [Error] object with its [message],
    or some other value. *)
Inductive Thrown : Type :=
| ErrorObject (message : string)
| OtherValue.

(** A computation that returns or throws. *)
Definition Try (A : Type) : Type := (Thrown + A)%type.

Definition ret {A : Type} (a : A) : Try A := inr a.
Definition throw {A : Type} (e : Thrown) : Try A := inl e.
Definition bind {A B : Type} (m : Try A) (k : A -> Try B) : Try B :=
  match m with
  | inl e => inl e
  | inr a => k a
  end.

Notation "x <- m ;; k" := (bind m (fun x => k))
  (at level 61, m at next level, right associativity).

(** The values [response.json()] produces, and [undefined], which reading
    an absent property produces.  A number keeps its literal text. *)
#[local] Set Warnings "-register-all".
Inductive jsval : Type :=
| JUndefined
| JNull
| JBool (b : bool)
| JNumber (literal : string)
| JString (s : string)
| JArray (items : list jsval)
| JObject (fields : list (string * jsval)).

Fixpoint lookup (key : string) (fields : list (string * jsval)) : option jsval :=
  match fields with
  | [] => None
  | (k, v) :: rest => if (k =? key)%string then Some v else lookup key rest
  end.

(** The message of the TypeError that V8 raises when a property of
    [undefined] or [null] is read. *)
Definition cannot_read (what key : string) : Thrown :=
  ErrorObject ("Cannot read properties of " ++ what ++ " (reading '" ++ key ++ "')").

(** [v.key] for a property name that no prototype defines ([choices],
    [message], [content]): own properties of an object, [undefined] on the
    other values, a TypeError on [undefined] and [null]. *)
Definition get_prop (v : jsval) (key : string) : Try jsval :=
  match v with
  | JUndefined => throw (cannot_read "undefined" key)
  | JNull => throw (cannot_read "null" key)
  | JObject fields =>
      ret (match lookup key fields with Some x => x | None => JUndefined end)
  | _ => ret JUndefined
  end.

(** [v[i]]: an element of an array, a character of a string, the own
    property named by the index of an object. *)
Definition get_index (v : jsval) (i : nat) : Try jsval :=
  match v with
  | JUndefined => throw (cannot_read "undefined" (of_nat i))
  | JNull => throw (cannot_read "null" (of_nat i))
  | JArray items =>
      ret (match nth_error items i with Some x => x | None => JUndefined end)
  | JString s =>
      ret (match String.get i s with
           | Some c => JString (String c "")
           | None => JUndefined
           end)
  | JObject fields =>
      ret (match lookup (of_nat i) fields with Some x => x | None => JUndefined end)
  | _ => ret JUndefined
  end.

(** ** Responses of [fetch] *)

(** What [response.json()] makes of the body: a SyntaxError, or the value. *)
Inductive Body (A : Type) : Type :=
| Unparsable (message : string)
| Parsed (a : A).
Arguments Unparsable {A} message.
Arguments Parsed {A} a.

(** The outcome of a [fetch]: the promise is rejected (transport error), or
    a response arrives. *)
Inductive Fetched (A : Type) : Type :=
| TransportError (message : string)
| Response (status : Z) (statusText : string) (body : Body A).
Arguments TransportError {A} message.
Arguments Response {A} status statusText body.

(** [response.ok] *)
Definition ok (status : Z) : bool := (200 <=? status) && (status <=? 299).

Definition json {A : Type} (b : Body A) : Try A :=
  match b with
  | Unparsable message => throw (ErrorObject message)
  | Parsed a => ret a
  end.

(** ** Data model *)

Inductive Role : Type := system | user | assistant.

(** [interface Message]; the transcript holds the roles [user] and
    [assistant], the request adds a [system] entry.  [content] is declared
    a string but is filled from the untyped response. *)
Record Message : Type := { role : Role; content : jsval }.

Record Pricing : Type := { prompt : Z; completion : Z }.

(** [interface Model] *)
Record Model : Type :=
  { id : string; name : string; context_length : Z; pricing : option Pricing }.

(** An entry of the listing as the backend sends it: [name] may be absent. *)
Record RawModel : Type :=
  { raw_id : string;
    raw_name : option string;
    raw_context_length : Z;
    raw_pricing : option Pricing }.

(** The body of the listing response, [{ data: [...] }]. *)
Record Listing : Type := { data : option (list RawModel) }.

(** [interface Config] *)
Record Config : Type :=
  { apiKey : string; model : string; personality : string }.

(** The record read back from the configuration file: any field may be
    absent. *)
Record SavedConfig : Type :=
  { saved_apiKey : option string;
    saved_model : option string;
    saved_personality : option string }.

Inductive SetupStep : Type :=
| api_key
| personality_selection
| model_selection
| complete.

Definition SetupStep_eqb (a b : SetupStep) : bool :=
  match a, b with
  | api_key, api_key => true
  | personality_selection, personality_selection => true
  | model_selection, model_selection => true
  | complete, complete => true
  | _, _ => false
  end.

(** [type Props] of [App] *)
Record Props : Type :=
  { initialApiKey : option string;
    initialModel : option string;
    initialPersonality : option string;
    reconfigure : bool }.

(** The flags [meow] parses, and the environment. *)
Record Flags : Type :=
  { flag_apiKey : option string;
    flag_model : option string;
    flag_personality : option string;
    flag_reconfigure : bool }.

(** The body of a completion request. *)
Record Request : Type := { req_model : string; req_messages : list Message }.

(** What the program asks of the outside world. *)
Inductive Action : Type :=
| SaveConfig (c : Config)
| ClearConfig
| ReadConfig
| GetModels (bearer : string)
| PostCompletion (bearer : string) (body : Request)
| Exit (code : Z).

(** An entry of the personality menu and a personality definition, as
    [prompts.js] exports them. *)
Record PersonalityOption : Type :=
  { value : string; label : string; description : string }.

Record Personality : Type :=
  { systemPrompt : string; welcomeMessage : string }.

(** The keys [useInput] reports. *)
Record Key : Type :=
  { escape : bool; ctrl : bool; upArrow : bool; downArrow : bool; return_ : bool }.

(** The state of [App], one field per [useState]. *)
Record State : Type :=
  { messages : list Message;
    input : string;
    isLoading : bool;
    isInputMode : bool;
    setupStep : SetupStep;
    tempApiKey : string;
    selectedPersonalityIndex : Z;
    availableModels : list Model;
    selectedModel : string;
    finalApiKey : string;
    finalModel : string;
    finalPersonality : string;
    configLoaded : bool }.

(** The state setters, [setX(v)]. *)
Definition setMessages (v : list Message) (s : State) : State :=
  {| messages := v;
     input := input s;
     isLoading := isLoading s;
     isInputMode := isInputMode s;
     setupStep := setupStep s;
     tempApiKey := tempApiKey s;
     selectedPersonalityIndex := selectedPersonalityIndex s;
     availableModels := availableModels s;
     selectedModel := selectedModel s;
     finalApiKey := finalApiKey s;
     finalModel := finalModel s;
     finalPersonality := finalPersonality s;
     configLoaded := configLoaded s |}.

Definition setInput (v : string) (s : State) : State :=
  {| messages := messages s;
     input := v;
     isLoading := isLoading s;
     isInputMode := isInputMode s;
     setupStep := setupStep s;
     tempApiKey := tempApiKey s;
     selectedPersonalityIndex := selectedPersonalityIndex s;
     availableModels := availableModels s;
     selectedModel := selectedModel s;
     finalApiKey := finalApiKey s;
     finalModel := finalModel s;
     finalPersonality := finalPersonality s;
     configLoaded := configLoaded s |}.

Definition setIsLoading (v : bool) (s : State) : State :=
  {| messages := messages s;
     input := input s;
     isLoading := v;
     isInputMode := isInputMode s;
     setupStep := setupStep s;
     tempApiKey := tempApiKey s;
     selectedPersonalityIndex := selectedPersonalityIndex s;
     availableModels := availableModels s;
     selectedModel := selectedModel s;
     finalApiKey := finalApiKey s;
     finalModel := finalModel s;
     finalPersonality := finalPersonality s;
     configLoaded := configLoaded s |}.

Definition setIsInputMode (v : bool) (s : State) : State :=
  {| messages := messages s;
     input := input s;
     isLoading := isLoading s;
     isInputMode := v;
     setupStep := setupStep s;
     tempApiKey := tempApiKey s;
     selectedPersonalityIndex := selectedPersonalityIndex s;
     availableModels := availableModels s;
     selectedModel := selectedModel s;
     finalApiKey := finalApiKey s;
     finalModel := finalModel s;
     finalPersonality := finalPersonality s;
     configLoaded := configLoaded s |}.

Definition setSetupStep (v : SetupStep) (s : State) : State :=
  {| messages := messages s;
     input := input s;
     isLoading := isLoading s;
     isInputMode := isInputMode s;
     setupStep := v;
     tempApiKey := tempApiKey s;
     selectedPersonalityIndex := selectedPersonalityIndex s;
     availableModels := availableModels s;
     selectedModel := selectedModel s;
     finalApiKey := finalApiKey s;
     finalModel := finalModel s;
     finalPersonality := finalPersonality s;
     configLoaded := configLoaded s |}.

Definition setTempApiKey (v : string) (s : State) : State :=
  {| messages := messages s;
     input := input s;
     isLoading := isLoading s;
     isInputMode := isInputMode s;
     setupStep := setupStep s;
     tempApiKey := v;
     selectedPersonalityIndex := selectedPersonalityIndex s;
     availableModels := availableModels s;
     selectedModel := selectedModel s;
     finalApiKey := finalApiKey s;
     finalModel := finalModel s;
     finalPersonality := finalPersonality s;
     configLoaded := configLoaded s |}.

Definition setSelectedPersonalityIndex (v : Z) (s : State) : State :=
  {| messages := messages s;
     input := input s;
     isLoading := isLoading s;
     isInputMode := isInputMode s;
     setupStep := setupStep s;
     tempApiKey := tempApiKey s;
     selectedPersonalityIndex := v;
     availableModels := availableModels s;
     selectedModel := selectedModel s;
     finalApiKey := finalApiKey s;
     finalModel := finalModel s;
     finalPersonality := finalPersonality s;
     configLoaded := configLoaded s |}.

Definition setAvailableModels (v : list Model) (s : State) : State :=
  {| messages := messages s;
     input := input s;
     isLoading := isLoading s;
     isInputMode := isInputMode s;
     setupStep := setupStep s;
     tempApiKey := tempApiKey s;
     selectedPersonalityIndex := selectedPersonalityIndex s;
     availableModels := v;
     selectedModel := selectedModel s;
     finalApiKey := finalApiKey s;
     finalModel := finalModel s;
     finalPersonality := finalPersonality s;
     configLoaded := configLoaded s |}.

Definition setSelectedModel (v : string) (s : State) : State :=
  {| messages := messages s;
     input := input s;
     isLoading := isLoading s;
     isInputMode := isInputMode s;
     setupStep := setupStep s;
     tempApiKey := tempApiKey s;
     selectedPersonalityIndex := selectedPersonalityIndex s;
     availableModels := availableModels s;
     selectedModel := v;
     finalApiKey := finalApiKey s;
     finalModel := finalModel s;
     finalPersonality := finalPersonality s;
     configLoaded := configLoaded s |}.

Definition setFinalApiKey (v : string) (s : State) : State :=
  {| messages := messages s;
     input := input s;
     isLoading := isLoading s;
     isInputMode := isInputMode s;
     setupStep := setupStep s;
     tempApiKey := tempApiKey s;
     selectedPersonalityIndex := selectedPersonalityIndex s;
     availableModels := availableModels s;
     selectedModel := selectedModel s;
     finalApiKey := v;
     finalModel := finalModel s;
     finalPersonality := finalPersonality s;
     configLoaded := configLoaded s |}.

Definition setFinalModel (v : string) (s : State) : State :=
  {| messages := messages s;
     input := input s;
     isLoading := isLoading s;
     isInputMode := isInputMode s;
     setupStep := setupStep s;
     tempApiKey := tempApiKey s;
     selectedPersonalityIndex := selectedPersonalityIndex s;
     availableModels := availableModels s;
     selectedModel := selectedModel s;
     finalApiKey := finalApiKey s;
     finalModel := v;
     finalPersonality := finalPersonality s;
     configLoaded := configLoaded s |}.

Definition setFinalPersonality (v : string) (s : State) : State :=
  {| messages := messages s;
     input := input s;
     isLoading := isLoading s;
     isInputMode := isInputMode s;
     setupStep := setupStep s;
     tempApiKey := tempApiKey s;
     selectedPersonalityIndex := selectedPersonalityIndex s;
     availableModels := availableModels s;
     selectedModel := selectedModel s;
     finalApiKey := finalApiKey s;
     finalModel := finalModel s;
     finalPersonality := v;
     configLoaded := configLoaded s |}.

Definition setConfigLoaded (v : bool) (s : State) : State :=
  {| messages := messages s;
     input := input s;
     isLoading := isLoading s;
     isInputMode := isInputMode s;
     setupStep := setupStep s;
     tempApiKey := tempApiKey s;
     selectedPersonalityIndex := selectedPersonalityIndex s;
     availableModels := availableModels s;
     selectedModel := selectedModel s;
     finalApiKey := finalApiKey s;
     finalModel := finalModel s;
     finalPersonality := finalPersonality s;
     configLoaded := v |}.

(** ** Command-line entry point *)

(** [cli.tsx]: the credential is the flag or else the environment
    variable, and is withheld from [App] when reconfiguring. *)
Definition cli_props (flags : Flags) (env : option string) : Props :=
  let apiKey := or_else (flag_apiKey flags) env in
  let finalApiKey := if flag_reconfigure flags then None else apiKey in
  {| initialApiKey := finalApiKey;
     initialModel := flag_model flags;
     initialPersonality := flag_personality flags;
     reconfigure := flag_reconfigure flags |}.

(** ** Sorting *)

(** [Array.prototype.sort] is stable; for a consistent comparator its
    result is the stable sort, here by insertion. *)
Fixpoint insert {A : Type} (cmp : A -> A -> Z) (x : A) (l : list A) : list A :=
  match l with
  | [] => [x]
  | y :: l' => if cmp x y <=? 0 then x :: l else y :: insert cmp x l'
  end.

Definition sort {A : Type} (cmp : A -> A -> Z) (l : list A) : list A :=
  fold_right (insert cmp) [] l.

(** [arr.indexOf(x)], from position [i] on. *)
Fixpoint indexOf_from (i : Z) (l : list string) (x : string) : Z :=
  match l with
  | [] => -1
  | y :: l' => if (y =? x)%string then i else indexOf_from (i + 1) l' x
  end.

Definition indexOf (l : list string) (x : string) : Z := indexOf_from 0 l x.

(** [s || d] for two strings. *)
Definition sor (s d : string) : string := if truthy s then s else d.

(** The arrow keys and the return key, pressed alone. *)
Definition noKey : Key :=
  {| escape := false; ctrl := false; upArrow := false; downArrow := false;
     return_ := false |}.


Definition downKey : Key :=
  {| escape := false; ctrl := false; upArrow := false; downArrow := true;
     return_ := false |}.

Definition returnKey : Key :=
  {| escape := false; ctrl := false; upArrow := false; downArrow := false;
     return_ := true |}.

(** ** What the program imports

    [prompts.js] is not among the sources at hand, and the result of
    [String.prototype.localeCompare] depends on the locale of the host: the
    program is modelled over both. *)
Class Host : Type :=
  { localeCompare : string -> string -> Z;
    getPersonalityOptions : list PersonalityOption;
    getPersonalityById : string -> Personality }.

(** ** A sample catalogue

    Stand-ins for the parameters, used to run the program on concrete
    inputs: the first personalities that the help text of [cli.tsx] lists,
    and the comparison of strings byte by byte for [localeCompare]. *)
Module Sample.

Definition options : list PersonalityOption :=
  [ {| value := "cheerful"; label := "Cheerful";
       description := "Upbeat, enthusiastic, and always positive" |};
    {| value := "sarcastic"; label := "Sarcastic";
       description := "Witty, sharp-tongued, but ultimately helpful" |};
    {| value := "apathetic"; label := "Apathetic";
       description := "Indifferent but competent, gets the job done" |} ].

Definition byId (personalityId : string) : Personality :=
  {| systemPrompt := "You are a " ++ personalityId ++ " rubber duck.";
     welcomeMessage := "Quack! (" ++ personalityId ++ ")" |}.

Definition byteCompare (a b : string) : Z :=
  match String.compare a b with
  | Lt => -1
  | Eq => 0
  | Gt => 1
  end.

Definition host : Host :=
  {| localeCompare := byteCompare;
     getPersonalityOptions := options;
     getPersonalityById := byId |}.

Definition noFlags : Flags :=
  {| flag_apiKey := None;
     flag_model := None;
     flag_personality := None;
     flag_reconfigure := false |}.

End Sample.

Section App.

Context {host : Host}.

(** *** Model catalogue: [fetchAvailableModels] *)

Definition popularModels : list string :=
  [ "anthropic/claude-3.5-sonnet";
    "openai/gpt-4";
    "anthropic/claude-3-haiku";
    "openai/gpt-3.5-turbo" ].

Definition keepModel (m : RawModel) : bool :=
  negb (includes (raw_id m) "free") && (4000 <=? raw_context_length m).

Definition toModel (m : RawModel) : Model :=
  {| id := raw_id m;
     name := or_default (raw_name m) (raw_id m);
     context_length := raw_context_length m;
     pricing := raw_pricing m |}.

Definition compareModels (a b : Model) : Z :=
  let aIndex := indexOf popularModels (id a) in
  let bIndex := indexOf popularModels (id b) in
  if negb (aIndex =? -1) && negb (bIndex =? -1) then aIndex - bIndex
  else if negb (aIndex =? -1) then -1
  else if negb (bIndex =? -1) then 1
  else localeCompare (name a) (name b).

Definition rankModels (l : list RawModel) : list Model :=
  firstn 15 (sort compareModels (map toModel (filter keepModel l))).

(** The [try] block of [fetchAvailableModels], up to the list of models. *)
Definition listModels (r : Fetched Listing) : Try (list Model) :=
  match r with
  | TransportError message => throw (ErrorObject message)
  | Response status _ body =>
      if negb (ok status)
      then throw (ErrorObject ("Failed to fetch models: " ++ of_Z status))
      else
        d <- json body ;;
        ret (rankModels (match data d with Some l => l | None => [] end))
  end.

Definition fetchAvailableModels_begin (apiKey : string) (s : State)
  : State * list Action :=
  (setIsLoading true s, [GetModels apiKey]).

Definition fetchAvailableModels_resume (r : Fetched Listing) (s : State) : State :=
  setIsLoading false
    match listModels r with
    | inr models =>
        setSetupStep model_selection
          (setSelectedModel "meta-llama/llama-3.3-8b-instruct:free"
             (setAvailableModels models s))
    | inl _ =>
        setSetupStep personality_selection
          (setFinalModel "anthropic/claude-3.5-sonnet"
             (setAvailableModels [] s))
    end.

(** *** Component state and effects *)

Definition initialState (p : Props) : State :=
  {| messages := [];
     input := "";
     isLoading := false;
     isInputMode := false;
     setupStep := api_key;
     tempApiKey := "";
     selectedPersonalityIndex := 0;
     availableModels := [];
     selectedModel := "";
     finalApiKey := or_default (initialApiKey p) "";
     finalModel := or_default (initialModel p) "";
     finalPersonality := or_default (initialPersonality p) "cheerful";
     configLoaded := false |}.

Definition needsSetup (p : Props) (s : State) : bool :=
  (negb (otruthy (initialApiKey p)) && negb (truthy (finalApiKey s)))
  || reconfigure p.

(** First effect: the personality cursor starts on the first entry. *)
Definition personalityIndexEffect (cur : State) : State :=
  match getPersonalityOptions with
  | _ :: _ => setSelectedPersonalityIndex 0 cur
  | [] => cur
  end.

(** [loadSavedConfig], up to its first [await]. *)
Definition loadSavedConfig_begin (p : Props) (cur : State) : State * list Action :=
  if otruthy (initialApiKey p) then (setConfigLoaded true cur, [])
  else if reconfigure p then (cur, [ClearConfig])
  else (cur, [ReadConfig]).

(** [loadSavedConfig] after [clearConfig()] has finished. *)
Definition loadSavedConfig_cleared (cur : State) : State :=
  setConfigLoaded true cur.

(** [loadSavedConfig] after [loadConfig()] has returned [r]. *)
Definition loadSavedConfig_read (r : option SavedConfig) (cur : State) : State :=
  setConfigLoaded true
    match r with
    | Some savedConfig =>
        if otruthy (saved_apiKey savedConfig) then
          setSetupStep complete
            (setFinalPersonality (or_default (saved_personality savedConfig) "cheerful")
               (setFinalModel
                  (or_default (saved_model savedConfig)
                     "meta-llama/llama-3.3-8b-instruct:free")
                  (setFinalApiKey (or_default (saved_apiKey savedConfig) "") cur)))
        else cur
    | None => cur
    end.

(** The effect that skips setup or picks the step of the first missing
    piece.  It reads the snapshot [snap] of the render it belongs to and
    updates [cur]. *)
Definition setupStepEffect (p : Props) (snap cur : State) : State :=
  if negb (needsSetup p snap) && configLoaded snap && truthy (finalApiKey snap)
     && truthy (finalModel snap) && truthy (finalPersonality snap)
  then
    setFinalPersonality (or_default (initialPersonality p) (finalPersonality snap))
      (setFinalModel (or_default (initialModel p) (finalModel snap))
         (setFinalApiKey (or_default (initialApiKey p) (finalApiKey snap))
            (setSetupStep complete cur)))
  else if configLoaded snap && negb (needsSetup p snap) then
    if negb (truthy (finalApiKey snap)) && negb (otruthy (initialApiKey p))
    then setSetupStep api_key cur
    else if negb (truthy (finalModel snap)) && negb (otruthy (initialModel p))
    then setSetupStep model_selection cur
    else if negb (truthy (finalPersonality snap))
            && negb (otruthy (initialPersonality p))
    then setSetupStep personality_selection cur
    else setSetupStep complete cur
  else cur.

Definition welcome (personalityId : string) : Message :=
  {| role := assistant;
     content := JString (welcomeMessage (getPersonalityById personalityId)) |}.

(** The effect that saves the configuration and shows the welcome message
    once setup is complete. *)
Definition completeEffect (p : Props) (snap cur : State) : State * list Action :=
  if SetupStep_eqb (setupStep snap) complete && truthy (finalApiKey snap)
     && configLoaded snap
  then
    (setIsInputMode true
       (setMessages [welcome (sor (finalPersonality snap) "cheerful")] cur),
     if negb (otruthy (initialApiKey p))
     then [SaveConfig {| apiKey := finalApiKey snap;
                         model := finalModel snap;
                         personality := finalPersonality snap |}]
     else [])
  else (cur, []).

(** The dependency lists of the two effects; the props never change
    during the life of the component, the remaining dependencies are
    compared between two renders. *)
Definition setupStepDeps_same (p : Props) (a b : State) : bool :=
  Bool.eqb (needsSetup p a) (needsSetup p b)
  && Bool.eqb (configLoaded a) (configLoaded b)
  && (finalApiKey a =? finalApiKey b)%string
  && (finalModel a =? finalModel b)%string
  && (finalPersonality a =? finalPersonality b)%string.

Definition completeDeps_same (a b : State) : bool :=
  SetupStep_eqb (setupStep a) (setupStep b)
  && (finalApiKey a =? finalApiKey b)%string
  && (finalModel a =? finalModel b)%string
  && (finalPersonality a =? finalPersonality b)%string
  && Bool.eqb (configLoaded a) (configLoaded b).

(** The effects have nothing more to do: no dependency changed. *)
Definition quiet (p : Props) (prev cur : State) : bool :=
  setupStepDeps_same p prev cur && completeDeps_same prev cur.

(** One round of the two effects of the render [snap], each run only when
    its dependencies changed: the updated state and the actions started. *)
Definition runEffects (p : Props) (fire1 fire2 : bool) (snap cur : State)
  : State * list Action :=
  let s1 := if fire1 then setupStepEffect p snap cur else cur in
  if fire2 then completeEffect p snap s1 else (s1, []).

(** Renders and effects after the state went from [prev] to [cur], until
    no dependency changes any more: the final state, the actions started
    and the setup step of every render on the way. *)
Fixpoint settle (fuel : nat) (p : Props) (prev cur : State)
  : State * list Action * list SetupStep :=
  match fuel with
  | O => (cur, [], [])
  | S fuel' =>
      if quiet p prev cur then (cur, [], [])
      else
        let next :=
          runEffects p (negb (setupStepDeps_same p prev cur))
            (negb (completeDeps_same prev cur)) cur cur in
        let rest := settle fuel' p cur (fst next) in
        (fst (fst rest),
         List.app (snd next) (snd (fst rest)),
         setupStep (fst next) :: snd rest)
  end.

(** Three rounds are enough, see [settle_fuel]. *)
Definition react (p : Props) (prev cur : State)
  : State * list Action * list SetupStep :=
  settle 3 p prev cur.

(** The first render and its effects, all of which run. *)
Definition mount (p : Props) : State * list Action * list SetupStep :=
  let s0 := initialState p in
  let s1 := personalityIndexEffect s0 in
  let load := loadSavedConfig_begin p s1 in
  let next := runEffects p true true s0 (fst load) in
  let rest := react p s0 (fst next) in
  (fst (fst rest),
   List.app (snd load) (List.app (snd next) (snd (fst rest))),
   api_key :: setupStep (fst next) :: snd rest).

(** *** Handlers *)

(** [personalityOptions[i]] for a number [i]. *)
Definition optionAt (i : Z) : option PersonalityOption :=
  if i <? 0 then None else nth_error getPersonalityOptions (Z.to_nat i).

Definition optionsLength : Z := Z.of_nat (length getPersonalityOptions).

(** The [useInput] handler. *)
Definition onKey (input : string) (key : Key) (s : State) : State * list Action :=
  if escape key then (s, [Exit 0])
  else if ctrl key && (input =? "c")%string then (s, [Exit 0])
  else
    match setupStep s with
    | personality_selection =>
        if upArrow key then
          let newIndex :=
            if 0 <? selectedPersonalityIndex s
            then selectedPersonalityIndex s - 1
            else optionsLength - 1 in
          (setSelectedPersonalityIndex newIndex s, [])
        else if downArrow key then
          let newIndex :=
            if selectedPersonalityIndex s <? optionsLength - 1
            then selectedPersonalityIndex s + 1
            else 0 in
          (setSelectedPersonalityIndex newIndex s, [])
        else if return_ key then
          match optionAt (selectedPersonalityIndex s) with
          | Some selectedOption =>
              (setSetupStep complete (setFinalPersonality (value selectedOption) s), [])
          | None => (s, [])
          end
        else (s, [])
    | _ => (s, [])
    end.

Definition handleApiKeySubmit (s : State) : State * list Action :=
  if negb (truthy (trim (tempApiKey s))) then (s, [])
  else
    let apiKey := trim (tempApiKey s) in
    fetchAvailableModels_begin apiKey (setFinalApiKey apiKey s).

Definition handleModelSubmit (s : State) : State :=
  if negb (truthy (trim (selectedModel s))) then s
  else
    let modelExists :=
      existsb (fun m => (id m =? trim (selectedModel s))%string) (availableModels s) in
    if modelExists || (trim (selectedModel s) =? "anthropic/claude-3.5-sonnet")%string
    then setSetupStep personality_selection (setFinalModel (trim (selectedModel s)) s)
    else setSetupStep personality_selection (setFinalModel (trim (selectedModel s)) s).

(** *** Chat session: [sendMessage] *)

Definition userMessage (s : State) : Message :=
  {| role := user; content := JString (trim (input s)) |}.

(** The body of the completion request. *)
Definition requestBody (s : State) : Request :=
  let selectedPersonalityConfig :=
    getPersonalityById (sor (finalPersonality s) "cheerful") in
  {| req_model := finalModel s;
     req_messages :=
       {| role := system;
          content := JString (systemPrompt selectedPersonalityConfig) |}
       :: List.app (messages s) [userMessage s] |}.

(** [sendMessage] up to the [await] of the request. *)
Definition sendMessage_begin (s : State) : State * list Action :=
  if negb (truthy (trim (input s))) || isLoading s || negb (truthy (finalApiKey s))
  then (s, [])
  else
    (setIsLoading true (setInput "" (setMessages (List.app (messages s) [userMessage s]) s)),
     [PostCompletion (finalApiKey s) (requestBody s)]).

(** The rest of the [try] block: the content of the reply, or what is
    thrown. *)
Definition replyContent (r : Fetched jsval) : Try jsval :=
  match r with
  | TransportError message => throw (ErrorObject message)
  | Response status statusText body =>
      if negb (ok status)
      then throw (ErrorObject
                    ("OpenRouter API error: " ++ of_Z status ++ " " ++ statusText))
      else
        d <- json body ;;
        choices <- get_prop d "choices" ;;
        choice <- get_index choices 0 ;;
        message <- get_prop choice "message" ;;
        get_prop message "content"
  end.

(** The message of the [catch] clause.  The literal opens with the four
    bytes that the source file holds before " Sorry". *)
Definition errorMessage (error : Thrown) : Message :=
  {| role := assistant;
     content :=
       JString (bytes [195; 162; 197; 146]%nat ++ " Sorry, I encountered an error: "
                ++ match error with
                   | ErrorObject message => message
                   | OtherValue => "Unknown error"
                   end
                ++ ". Please check your API key and try again.") |}.

(** [sendMessage] once the request has settled. *)
Definition sendMessage_resume (r : Fetched jsval) (s : State) : State :=
  setIsLoading false
    match replyContent r with
    | inr c =>
        setMessages (List.app (messages s) [{| role := assistant; content := c |}]) s
    | inl error => setMessages (List.app (messages s) [errorMessage error]) s
    end.

(** *** The running program *)

(** What happens to the program: key presses, typing and submitting in
    the text input on screen, and the results of the operations it
    awaits. *)
Inductive Event : Type :=
| KeyPress (input : string) (key : Key)
| ApiKeyTyped (v : string)
| ApiKeySubmitted
| ModelTyped (v : string)
| ModelSubmitted
| InputTyped (v : string)
| InputSubmitted
| ConfigCleared
| ConfigRead (r : option SavedConfig)
| ModelsFetched (r : Fetched Listing)
| CompletionFetched (r : Fetched jsval).

(** The program between two events: the component state, the actions
    started so far, the setup step of every render so far, the operations
    whose result is awaited, and whether the process has exited. *)
Record System : Type :=
  { state : State;
    log : list Action;
    visited : list SetupStep;
    pending : list Action;
    exited : bool }.

Definition awaited (a : Action) : bool :=
  match a with
  | ClearConfig | ReadConfig | GetModels _ | PostCompletion _ _ => true
  | SaveConfig _ | Exit _ => false
  end.

Definition isExit (a : Action) : bool :=
  match a with
  | Exit _ => true
  | _ => false
  end.

(** Whether the event [ev] is the result of the operation [a]. *)
Definition answers (ev : Event) (a : Action) : bool :=
  match ev, a with
  | ConfigCleared, ClearConfig => true
  | ConfigRead _, ReadConfig => true
  | ModelsFetched _, GetModels _ => true
  | CompletionFetched _, PostCompletion _ _ => true
  | _, _ => false
  end.

Fixpoint take (f : Action -> bool) (l : list Action) : option (list Action) :=
  match l with
  | [] => None
  | a :: l' =>
      if f a then Some l'
      else match take f l' with
           | Some rest => Some (a :: rest)
           | None => None
           end
  end.

(** The text inputs of the views: the credential prompt once the
    configuration is loaded, the model prompt unless loading, the chat
    prompt in input mode unless loading. *)
Definition apiKeyInputShown (s : State) : bool :=
  SetupStep_eqb (setupStep s) api_key && configLoaded s.

Definition modelInputShown (s : State) : bool :=
  SetupStep_eqb (setupStep s) model_selection && negb (isLoading s).

Definition chatInputShown (s : State) : bool :=
  SetupStep_eqb (setupStep s) complete && isInputMode s && negb (isLoading s).

(** The handler of an event, when the event can occur: the updated state,
    the actions started, the operations still awaited.  The key handler of
    the component is active during setup only ([isActive]); Ctrl+C ends the
    program in the chat as well, since [render] is called without options
    and so leaves Ink's own handling of Ctrl+C on: the outcome is that of
    the first lines of [onKey]. *)
Definition handle (ev : Event) (sys : System)
  : option (State * list Action * list Action) :=
  let s := state sys in
  let on (shown : bool) (r : State * list Action) :=
    if shown then Some (r, pending sys) else None in
  let resume (next : State) :=
    match take (answers ev) (pending sys) with
    | Some rest => Some (next, [], rest)
    | None => None
    end in
  match ev with
  | KeyPress i key =>
      on (negb (SetupStep_eqb (setupStep s) complete) || (ctrl key && (i =? "c")%string))
        (onKey i key s)
  | ApiKeyTyped v => on (apiKeyInputShown s) (setTempApiKey v s, [])
  | ApiKeySubmitted => on (apiKeyInputShown s) (handleApiKeySubmit s)
  | ModelTyped v => on (modelInputShown s) (setSelectedModel v s, [])
  | ModelSubmitted => on (modelInputShown s) (handleModelSubmit s, [])
  | InputTyped v => on (chatInputShown s) (setInput v s, [])
  | InputSubmitted => on (chatInputShown s) (sendMessage_begin s)
  | ConfigCleared => resume (loadSavedConfig_cleared s)
  | ConfigRead r => resume (loadSavedConfig_read r s)
  | ModelsFetched r => resume (fetchAvailableModels_resume r s)
  | CompletionFetched r => resume (sendMessage_resume r s)
  end.

(** One event: its handler, then the effects until they settle.  [step]
    follows the state of the component; it takes every view to be drawn.
    The chat view is drawn only when every message of the transcript has a
    string for content ([MessageRenderer] throws otherwise, which ends the
    program): what is said of a state in its [complete] step is said of
    the program for transcripts that are [textual]. *)
Definition step (p : Props) (sys : System) (ev : Event) : System :=
  if exited sys then sys
  else
    match handle ev sys with
    | None => sys
    | Some (s', acts, waiting) =>
        if existsb isExit acts then
          {| state := state sys;
             log := List.app (log sys) acts;
             visited := visited sys;
             pending := waiting;
             exited := true |}
        else
          let r := react p (state sys) s' in
          {| state := fst (fst r);
             log := List.app (log sys) (List.app acts (snd (fst r)));
             visited := List.app (visited sys) (setupStep s' :: snd r);
             pending := List.app waiting (filter awaited (List.app acts (snd (fst r))));
             exited := false |}
    end.

(** The program after its first render and the effects that follow. *)
Definition boot (p : Props) : System :=
  let m := mount p in
  {| state := fst (fst m);
     log := snd (fst m);
     visited := snd m;
     pending := filter awaited (snd (fst m));
     exited := false |}.

Definition run (p : Props) (evs : list Event) : System :=
  fold_left (step p) evs (boot p).

(** *** Vocabulary of the statements *)

(** The configuration the state holds. *)
Definition resolvedConfig (s : State) : Config :=
  {| apiKey := finalApiKey s;
     model := finalModel s;
     personality := finalPersonality s |}.

(** Setup is complete, a credential is there and the configuration file
    has been dealt with: the condition of the last effect. *)
Definition ready (s : State) : bool :=
  SetupStep_eqb (setupStep s) complete && truthy (finalApiKey s) && configLoaded s.

(** All pieces are there and no setup is needed: the first branch of the
    setup-step effect. *)
Definition allPieces (p : Props) (s : State) : bool :=
  negb (needsSetup p s) && configLoaded s && truthy (finalApiKey s)
  && truthy (finalModel s) && truthy (finalPersonality s).

(** The events of the setup flow, as opposed to those of the chat. *)
Definition setupEvent (ev : Event) : bool :=
  match ev with
  | InputSubmitted | CompletionFetched _ => false
  | _ => true
  end.

(** The order the catalogue promises between an earlier entry [a] and a
    later entry [b]: a popular entry is only preceded by popular entries
    that come no later in [popularModels], and two entries that are not
    popular are in alphabetical order of their names. *)
Definition inCatalogueOrder (a b : Model) : Prop :=
  (indexOf popularModels (id b) <> -1 ->
   indexOf popularModels (id a) <> -1
   /\ indexOf popularModels (id a) <= indexOf popularModels (id b))
  /\ (indexOf popularModels (id a) = -1 ->
      indexOf popularModels (id b) = -1 ->
      localeCompare (name a) (name b) <= 0).

(** The rounds of effects, as a relation: they end when no dependency
    changed. *)
Inductive Settles (p : Props) :
  State -> State -> State * list Action * list SetupStep -> Prop :=
| Settles_quiet prev cur :
    quiet p prev cur = true ->
    Settles p prev cur (cur, [], [])
| Settles_round prev cur r :
    quiet p prev cur = false ->
    let next :=
      runEffects p (negb (setupStepDeps_same p prev cur))
        (negb (completeDeps_same prev cur)) cur cur in
    Settles p cur (fst next) r ->
    Settles p prev cur
      (fst (fst r), List.app (snd next) (snd (fst r)), setupStep (fst next) :: snd r).

(** What holds of a state that is [ready], given the actions started so
    far: input mode is on, the transcript starts with the welcome message
    of the resolved personality (and is just that message as long as no
    chat turn was submitted), and the configuration has been saved unless
    [App] was handed a credential. *)
Definition Greeted (p : Props) (s : State) (done : list Action) (chatted : bool)
  : Prop :=
  ready s = true ->
  isInputMode s = true
  /\ (exists turns,
        messages s = welcome (sor (finalPersonality s) "cheerful") :: turns
        /\ (chatted = false -> turns = []))
  /\ (otruthy (initialApiKey p) = false -> In (SaveConfig (resolvedConfig s)) done).

Definition isGetModels (a : Action) : bool :=
  match a with
  | GetModels _ => true
  | _ => false
  end.

(** A credential given to [App] stays in the state, and the setup flow
    only leaves its first step with a credential in the state and the
    configuration file dealt with; the same holds while the listing of
    models is awaited. *)
Definition Sound (p : Props) (s : State) : Prop :=
  (otruthy (initialApiKey p) = true -> truthy (finalApiKey s) = true)
  /\ (setupStep s <> api_key ->
      truthy (finalApiKey s) = true /\ configLoaded s = true).

Definition Waiting (waiting : list Action) (s : State) : Prop :=
  existsb isGetModels waiting = true ->
  truthy (finalApiKey s) = true /\ configLoaded s = true.

Definition isSave (a : Action) : bool :=
  match a with
  | SaveConfig _ => true
  | _ => false
  end.

End App.

(** ** Rendering a message: [MessageRenderer] *)

(** The delimiter of a code block. *)
Definition fence : string := "```".

(** [s] cut at the first occurrence of [sub]: what stands before the
    occurrence and what stands after it. *)
Fixpoint cut (sub s : string) : option (string * string) :=
  match strip_prefix sub s with
  | Some rest => Some ("", rest)
  | None =>
      match s with
      | EmptyString => None
      | String c s' =>
          match cut sub s' with
          | Some (before, after) => Some (String c before, after)
          | None => None
          end
      end
  end.

(** [content.split(/(```[\s\S]*?```)/g)]: the pieces of text between the
    code blocks and the code blocks themselves, in turn.  A block runs from
    the leftmost fence to the nearest fence after it; when no fence closes
    it, no block starts further right either.  Every round takes a whole
    block off the content, so the fuel of [splitFences] never runs out, see
    [splitFences_from_fuel]. *)
Fixpoint splitFences_from (fuel : nat) (content : string) : list string :=
  match fuel with
  | O => []
  | S fuel' =>
      match cut fence content with
      | None => [content]
      | Some (before, after) =>
          match cut fence after with
          | None => [content]
          | Some (body, rest) =>
              before :: (fence ++ body ++ fence) :: splitFences_from fuel' rest
          end
      end
  end.

Definition splitFences (content : string) : list string :=
  splitFences_from (S (String.length content)) content.

(** [s.split('\n')] *)
Fixpoint splitLines (s : string) : list string :=
  match s with
  | EmptyString => [""]
  | String c s' =>
      if Ascii.eqb c (ascii_of_nat 10) then "" :: splitLines s'
      else
        match splitLines s' with
        | line :: lines => String c line :: lines
        | [] => [String c ""]
        end
  end.

(** [lines.join('\n')] *)
Definition joinLines (lines : list string) : string :=
  String.concat (String (ascii_of_nat 10) "") lines.

Definition startsWith (s sub : string) : bool :=
  match strip_prefix sub s with
  | Some _ => true
  | None => false
  end.

Definition endsWith (s sub : string) : bool :=
  startsWith (rev_string s) (rev_string sub).

(** [part.slice(3, -3)] of a part that starts with a fence. *)
Definition slice3 (part : string) : string :=
  substring 3 (String.length part - 6) part.

(** What [MessageRenderer] draws for a part: a bordered box with a label and
    the highlighted code, or one line of text per line of the part. *)
Inductive Rendered : Type :=
| CodeBox (label : string) (highlightAs : string) (code : string)
| TextLines (lines : list string).

(** The body of the [parts.map] of [MessageRenderer]; [toLowerCase] stands
    for [String.prototype.toLowerCase]. *)
Definition renderPart (toLowerCase : string -> string) (part : string) : Rendered :=
  if startsWith part fence && endsWith part fence then
    let lines := splitLines (slice3 part) in
    let language := toLowerCase (trim (hd "" lines)) in
    let code := joinLines (tl lines) in
    CodeBox (if truthy language then "Language: " ++ language else "Code")
      (sor language "text") code
  else TextLines (splitLines part).

(** [MessageRenderer]: [content] is declared a string; reading [split] off
    [undefined] or [null] and calling what is no function both throw a
    TypeError. *)
Definition MessageRenderer (toLowerCase : string -> string) (content : jsval)
  : Try (list Rendered) :=
  match content with
  | JString s => ret (map (renderPart toLowerCase) (splitFences s))
  | JUndefined => throw (cannot_read "undefined" "split")
  | JNull => throw (cannot_read "null" "split")
  | _ => throw (ErrorObject "content.split is not a function")
  end.

(** The chat view maps [MessageRenderer] over the transcript; the first
    message that throws ends the rendering. *)
Fixpoint renderTranscript (toLowerCase : string -> string) (l : list Message)
  : Try (list (list Rendered)) :=
  match l with
  | [] => ret []
  | m :: l' =>
      r <- MessageRenderer toLowerCase (content m) ;;
      rest <- renderTranscript toLowerCase l' ;;
      ret (r :: rest)
  end.

(** A message that the chat view can draw: its content is a string. *)
Definition textual (m : Message) : bool :=
  match content m with
  | JString _ => true
  | _ => false
  end.

(** ** The configuration file *)

(** The record that [loadConfig] returns when the file holds what a call
    [saveConfig(c)] wrote: the three strings, through [JSON.stringify] and
    [JSON.parse]. *)
Definition asSaved (c : Config) : SavedConfig :=
  {| saved_apiKey := Some (apiKey c);
     saved_model := Some (model c);
     saved_personality := Some (personality c) |}.

(** The configurations handed to [saveConfig], in the order of the calls. *)
Fixpoint saves (done : list Action) : list Config :=
  match done with
  | [] => []
  | SaveConfig c :: rest => c :: saves rest
  | _ :: rest => saves rest
  end.

(** The configuration handed to the call of [saveConfig] that was started
    last, if any.  [saveConfig] is [async] and no caller awaits it: when a
    run starts several saves, their writes race, and this is not what the
    file holds in the end. *)
Fixpoint lastSaveStarted (done : list Action) : option Config :=
  match done with
  | [] => None
  | a :: rest =>
      match lastSaveStarted rest with
      | Some c => Some c
      | None => match a with SaveConfig c => Some c | _ => None end
      end
  end.

(** Once the state is [ready] and [App] was handed no credential, the save
    started last carries the configuration that the state holds. *)
Definition SaveStarted (p : Props) (s : State) (done : list Action) : Prop :=
  ready s = true -> otruthy (initialApiKey p) = false ->
  lastSaveStarted done = Some (resolvedConfig s).

(** ** Requests *)

(** A model handed to [App] stays in the state, and the setup flow reaches
    the personality step and the chat only with a model in the state. *)
Definition Chosen (p : Props) (s : State) : Prop :=
  (otruthy (initialModel p) = true -> truthy (finalModel s) = true)
  /\ (setupStep s = personality_selection \/ setupStep s = complete ->
      truthy (finalModel s) = true).

(** A request carries a credential; a completion request moreover names a
    model and starts with a [system] message, the only one it holds. *)
Definition wellFormed (a : Action) : Prop :=
  match a with
  | GetModels bearer => bearer <> ""
  | PostCompletion bearer body =>
      bearer <> "" /\ req_model body <> ""
      /\ exists prompt turns,
          req_messages body = {| role := system; content := JString prompt |} :: turns
          /\ Forall (fun m => role m <> system) turns
  | _ => True
  end.

(** The bullets of the model prompt: the ids of the first eight models. *)
Definition modelBullets (s : State) : list string :=
  map id (firstn 8 (availableModels s)).

(** A request to the backend, as opposed to an operation on the
    configuration file. *)
Definition isRequest (a : Action) : bool :=
  match a with
  | GetModels _ | PostCompletion _ _ => true
  | _ => false
  end.

(** The busy flag is up only while a request is in flight. *)
Definition Busy (sys : System) : Prop :=
  isLoading (state sys) = true -> existsb isRequest (pending sys) = true.

(** What holds of the state of every run: a model is there when it must
    be, and the transcript holds no [system] message. *)
Definition Inv (p : Props) (s : State) : Prop :=
  Chosen p s /\ Forall (fun m => role m <> system) (messages s).

(** ** Stand-ins for the examples *)

(** The escape key, pressed alone. *)
Definition escapeKey : Key :=
  {| escape := true; ctrl := false; upArrow := false; downArrow := false;
     return_ := false |}.

(** The control key, held down with a letter. *)
Definition ctrlKey : Key :=
  {| escape := false; ctrl := true; upArrow := false; downArrow := false;
     return_ := false |}.

(** [String.prototype.toLowerCase] on the letters of ASCII. *)
Definition lowerLetter (c : ascii) : ascii :=
  let n := nat_of_ascii c in
  if (65 <=? n)%nat && (n <=? 90)%nat then ascii_of_nat (n + 32) else c.

Fixpoint lowerCase (s : string) : string :=
  match s with
  | EmptyString => EmptyString
  | String c s' => String (lowerLetter c) (lowerCase s')
  end.

(** The line feed. *)
Definition LF : string := String (ascii_of_nat 10) "".

(** ** The sample catalogue at work *)

Module Run.

Import Sample.

Definition run := run (host := host).
Definition step := step (host := host).

(** The listing of the end-to-end scenario. *)
Definition gpt4 : RawModel :=
  {| raw_id := "openai/gpt-4";
     raw_name := None;
     raw_context_length := 8000;
     raw_pricing := None |}.

Definition listingOk : Fetched Listing :=
  Response 200 "OK" (Parsed {| data := Some [gpt4] |}).

(** A longer listing: a free model, a small one, two popular ones and
    two others. *)
Definition listingMixed : Fetched Listing :=
  let raw i n c :=
    {| raw_id := i; raw_name := n; raw_context_length := c; raw_pricing := None |} in
  Response 200 "OK"
    (Parsed
       {| data :=
            Some [ raw "mistralai/mistral-large" (Some "Mistral Large") 32000;
                   raw "meta-llama/llama-3.3-8b-instruct:free" None 8000;
                   raw "openai/gpt-4" (Some "GPT-4") 8000;
                   raw "tiny/model" (Some "Tiny") 2048;
                   raw "google/gemini-pro" (Some "Gemini Pro") 32000;
                   raw "anthropic/claude-3.5-sonnet" (Some "Claude 3.5 Sonnet") 200000 ] |}).

Definition reconfigureFlags : Flags :=
  {| flag_apiKey := Some "sk-flag";
     flag_model := None;
     flag_personality := None;
     flag_reconfigure := true |}.

(** A setup by hand, up to the personality menu. *)
Definition untilPersonality : list Event :=
  [ ConfigCleared; ApiKeyTyped "k1"; ApiKeySubmitted; ModelsFetched listingOk;
    ModelTyped "openai/gpt-4"; ModelSubmitted ].

Definition savedConfig : SavedConfig :=
  {| saved_apiKey := Some "k1";
     saved_model := Some "openai/gpt-4";
     saved_personality := Some "sarcastic" |}.

(** The chat of a user with a saved configuration, who has typed a turn. *)
Definition typing (text : string) : System :=
  run (cli_props noFlags None) [ConfigRead (Some savedConfig); InputTyped text].

End Run.

(** ** Proof steps *)

Ltac split_ifs :=
  repeat match goal with
         | |- context [if ?c then _ else _] => destruct c
         | |- context [match ?c with Some _ => _ | None => _ end] => destruct c
         | |- context [match ?c with inl _ => _ | inr _ => _ end] => destruct c
         | |- context [match setupStep ?s with api_key => _ | _ => _ end] =>
             destruct (setupStep s)
         end.

Ltac split_ifs_eqn :=
  repeat match goal with
         | |- context [if ?c then _ else _] => destruct c eqn:?
         | |- context [match ?c with Some _ => _ | None => _ end] => destruct c eqn:?
         | |- context [match ?c with inl _ => _ | inr _ => _ end] => destruct c eqn:?
         | |- context [match setupStep ?s with api_key => _ | _ => _ end] =>
             destruct (setupStep s) eqn:?
         end.

(** ** Facts *)

Section Facts.

Context {host : Host}.

(** *** Basic facts *)

Lemma truthy_true (s : string) : truthy s = true <-> s <> "".
Proof.
  unfold truthy. destruct (String.eqb_spec s ""); simpl; split; congruence.
Qed.

Lemma truthy_false (s : string) : truthy s = false <-> s = "".
Proof.
  unfold truthy. destruct (String.eqb_spec s ""); simpl; split; congruence.
Qed.

Lemma truthy_or_default (o : option string) (d : string) :
  truthy (or_default o d) = otruthy o || truthy d.
Proof.
  destruct o as [x|]; simpl; [|reflexivity].
  destruct (truthy x) eqn:E; simpl; [exact E | reflexivity].
Qed.

Lemma or_default_idem (o : option string) (d : string) :
  or_default o (or_default o d) = or_default o d.
Proof.
  destruct o as [x|]; simpl; [|reflexivity].
  destruct (truthy x); reflexivity.
Qed.

Lemma or_default_truthy (o : option string) (d : string) :
  otruthy o = false -> or_default o d = d.
Proof.
  destruct o as [x|]; simpl; [|reflexivity].
  intros ->. reflexivity.
Qed.

Lemma SetupStep_eqb_eq (a b : SetupStep) : SetupStep_eqb a b = true <-> a = b.
Proof. destruct a, b; simpl; split; congruence. Qed.

Lemma SetupStep_eqb_refl (a : SetupStep) : SetupStep_eqb a a = true.
Proof. destruct a; reflexivity. Qed.

Lemma setupStepDeps_same_refl (p : Props) (s : State) :
  setupStepDeps_same p s s = true.
Proof.
  unfold setupStepDeps_same.
  now rewrite !Bool.eqb_reflx, !String.eqb_refl.
Qed.

Lemma completeDeps_same_refl (s : State) : completeDeps_same s s = true.
Proof.
  unfold completeDeps_same.
  now rewrite SetupStep_eqb_refl, Bool.eqb_reflx, !String.eqb_refl.
Qed.

Lemma settle_same (n : nat) (p : Props) (s : State) :
  settle n p s s = (s, [], []).
Proof.
  destruct n; simpl; [reflexivity|].
  unfold quiet. now rewrite setupStepDeps_same_refl, completeDeps_same_refl.
Qed.

(** **** One round of effects, field by field *)

Lemma completeEffect_frame (p : Props) (snap cur : State) :
  let s := fst (completeEffect p snap cur) in
  setupStep s = setupStep cur /\ finalApiKey s = finalApiKey cur
  /\ finalModel s = finalModel cur /\ finalPersonality s = finalPersonality cur
  /\ configLoaded s = configLoaded cur /\ isLoading s = isLoading cur.
Proof.
  unfold completeEffect.
  destruct (SetupStep_eqb (setupStep snap) complete && truthy (finalApiKey snap)
            && configLoaded snap); simpl; repeat split.
Qed.

Lemma setupStepEffect_fields (p : Props) (snap cur : State) :
  let s := setupStepEffect p snap cur in
  configLoaded s = configLoaded cur
  /\ finalApiKey s =
     (if allPieces p snap then or_default (initialApiKey p) (finalApiKey snap)
      else finalApiKey cur)
  /\ finalModel s =
     (if allPieces p snap then or_default (initialModel p) (finalModel snap)
      else finalModel cur)
  /\ finalPersonality s =
     (if allPieces p snap
      then or_default (initialPersonality p) (finalPersonality snap)
      else finalPersonality cur)
  /\ (allPieces p snap = true -> setupStep s = complete).
Proof.
  unfold setupStepEffect, allPieces.
  destruct (negb (needsSetup p snap) && configLoaded snap && truthy (finalApiKey snap)
            && truthy (finalModel snap) && truthy (finalPersonality snap)).
  - simpl. repeat split.
  - repeat match goal with
           | |- context [if ?c then _ else _] => destruct c
           end; simpl; repeat split; discriminate.
Qed.

Lemma runEffects_fields (p : Props) (f1 f2 : bool) (snap cur : State) :
  let s := fst (runEffects p f1 f2 snap cur) in
  configLoaded s = configLoaded cur
  /\ finalApiKey s =
     (if f1 && allPieces p snap then or_default (initialApiKey p) (finalApiKey snap)
      else finalApiKey cur)
  /\ finalModel s =
     (if f1 && allPieces p snap then or_default (initialModel p) (finalModel snap)
      else finalModel cur)
  /\ finalPersonality s =
     (if f1 && allPieces p snap
      then or_default (initialPersonality p) (finalPersonality snap)
      else finalPersonality cur)
  /\ (f1 && allPieces p snap = true -> setupStep s = complete)
  /\ (f1 = false -> setupStep s = setupStep cur).
Proof.
  unfold runEffects.
  set (s1 := if f1 then setupStepEffect p snap cur else cur).
  assert (H1 : configLoaded s1 = configLoaded cur
               /\ finalApiKey s1 =
                  (if f1 && allPieces p snap
                   then or_default (initialApiKey p) (finalApiKey snap)
                   else finalApiKey cur)
               /\ finalModel s1 =
                  (if f1 && allPieces p snap
                   then or_default (initialModel p) (finalModel snap)
                   else finalModel cur)
               /\ finalPersonality s1 =
                  (if f1 && allPieces p snap
                   then or_default (initialPersonality p) (finalPersonality snap)
                   else finalPersonality cur)
               /\ (f1 && allPieces p snap = true -> setupStep s1 = complete)
               /\ (f1 = false -> setupStep s1 = setupStep cur)).
  { subst s1. destruct f1; simpl.
    - destruct (setupStepEffect_fields p snap cur) as (a & b & c & d & e).
      repeat split; try assumption. discriminate.
    - repeat split. discriminate. }
  destruct f2; simpl; [|exact H1].
  destruct (completeEffect_frame p snap s1) as (a & b & c & d & e & _).
  destruct H1 as (a1 & b1 & c1 & d1 & e1 & g1).
  rewrite a, b, c, d, e. repeat split; assumption.
Qed.

Lemma allPieces_after (p : Props) (s t : State) :
  allPieces p s = true ->
  configLoaded t = configLoaded s ->
  finalApiKey t = or_default (initialApiKey p) (finalApiKey s) ->
  finalModel t = or_default (initialModel p) (finalModel s) ->
  finalPersonality t = or_default (initialPersonality p) (finalPersonality s) ->
  allPieces p t = true /\ needsSetup p t = needsSetup p s.
Proof.
  unfold allPieces, needsSetup. intros H Hc Ha Hm Hp.
  rewrite Hc, Ha, Hm, Hp, !truthy_or_default.
  destruct (otruthy (initialApiKey p)), (truthy (finalApiKey s)),
    (reconfigure p), (configLoaded s), (truthy (finalModel s)),
    (truthy (finalPersonality s)), (otruthy (initialModel p)),
    (otruthy (initialPersonality p)); simpl in *; split; congruence.
Qed.

(** After a round of effects, a second round leaves every dependency as
    it is. *)
Lemma second_round_quiet (p : Props) (f1 f2 : bool) (cur : State) :
  let s2 := fst (runEffects p f1 f2 cur cur) in
  let s3 :=
    fst (runEffects p (negb (setupStepDeps_same p cur s2))
           (negb (completeDeps_same cur s2)) s2 s2) in
  quiet p s2 s3 = true.
Proof.
  intros s2 s3.
  destruct (runEffects_fields p f1 f2 cur cur) as (c2 & a2 & m2 & p2 & st2 & _).
  fold s2 in c2, a2, m2, p2, st2.
  destruct (runEffects_fields p (negb (setupStepDeps_same p cur s2))
              (negb (completeDeps_same cur s2)) s2 s2) as (c3 & a3 & m3 & p3 & st3 & k3).
  fold s3 in c3, a3, m3, p3, st3, k3.
  assert (E : finalApiKey s3 = finalApiKey s2 /\ finalModel s3 = finalModel s2
              /\ finalPersonality s3 = finalPersonality s2
              /\ setupStep s3 = setupStep s2).
  { destruct (f1 && allPieces p cur) eqn:F.
    - destruct (allPieces_after p cur s2 (proj2 (andb_prop _ _ F)) c2 a2 m2 p2)
        as [A2 _].
      rewrite A2, andb_true_r in a3, m3, p3, st3.
      rewrite a3, m3, p3.
      destruct (negb (setupStepDeps_same p cur s2)) eqn:G.
      + rewrite a2, m2, p2, !or_default_idem.
        rewrite st3, st2; auto.
      + rewrite k3; auto.
    - assert (Q : setupStepDeps_same p cur s2 = true).
      { unfold setupStepDeps_same, needsSetup.
        rewrite c2, a2, m2, p2.
        now rewrite !Bool.eqb_reflx, !String.eqb_refl. }
      rewrite Q in *. simpl in *. rewrite a3, m3, p3, k3; auto. }
  destruct E as (Ea & Em & Ep & Es).
  unfold quiet, setupStepDeps_same, completeDeps_same, needsSetup.
  rewrite c3, Ea, Em, Ep, Es.
  now rewrite SetupStep_eqb_refl, !Bool.eqb_reflx, !String.eqb_refl.
Qed.

(** The rounds of effects end, and [react] computes their outcome. *)
Lemma react_Settles (p : Props) (prev cur : State) :
  Settles p prev cur (react p prev cur).
Proof.
  unfold react. cbn [settle].
  destruct (quiet p prev cur) eqn:Q1; [now apply Settles_quiet|].
  apply Settles_round; [exact Q1|].
  set (s2 := fst (runEffects p _ _ cur cur)).
  destruct (quiet p cur s2) eqn:Q2; [now apply Settles_quiet|].
  apply Settles_round; [exact Q2|].
  set (s3 := fst (runEffects p _ _ s2 s2)).
  assert (Q3 : quiet p s2 s3 = true) by apply second_round_quiet.
  rewrite Q3. now apply Settles_quiet.
Qed.

(** More fuel changes nothing. *)
Lemma settle_fuel (n : nat) (p : Props) (prev cur : State) :
  settle (3 + n) p prev cur = react p prev cur.
Proof.
  unfold react. cbn [settle Nat.add].
  destruct (quiet p prev cur) eqn:Q1; [reflexivity|].
  set (s2 := fst (runEffects p _ _ cur cur)).
  destruct (quiet p cur s2) eqn:Q2; [reflexivity|].
  set (s3 := fst (runEffects p _ _ s2 s2)).
  assert (Q3 : quiet p s2 s3 = true) by apply second_round_quiet.
  rewrite Q3. destruct n; reflexivity.
Qed.

(** **** The state once setup is complete *)

Lemma completeDeps_same_eq (a b : State) :
  completeDeps_same a b = true ->
  setupStep a = setupStep b /\ finalApiKey a = finalApiKey b
  /\ finalModel a = finalModel b /\ finalPersonality a = finalPersonality b
  /\ configLoaded a = configLoaded b.
Proof.
  unfold completeDeps_same. rewrite !andb_true_iff.
  intros ((((Hs & Ha) & Hm) & Hp) & Hc).
  apply SetupStep_eqb_eq in Hs. apply String.eqb_eq in Ha, Hm, Hp.
  apply Bool.eqb_prop in Hc. auto.
Qed.

Lemma Greeted_transfer (p : Props) (s t : State) (done done' : list Action)
      (chatted chatted' : bool) (more : list Message) :
  completeDeps_same s t = true ->
  isInputMode t = isInputMode s ->
  messages t = List.app (messages s) more ->
  (chatted' = false -> chatted = false /\ more = []) ->
  incl done done' ->
  Greeted p s done chatted -> Greeted p t done' chatted'.
Proof.
  intros D Hi Hm Hc Hd G R.
  apply completeDeps_same_eq in D. destruct D as (Ds & Da & Dm & Dp & Dc).
  assert (Rs : ready s = true).
  { unfold ready in *. now rewrite Ds, Da, Dc. }
  destruct (G Rs) as (G1 & (turns & G2 & G3) & G4).
  split; [congruence|]. split.
  - exists (List.app turns more). split.
    + rewrite Hm, G2, <- Dp. reflexivity.
    + intros C. destruct (Hc C) as [C1 ->]. rewrite (G3 C1). reflexivity.
  - intros N. apply Hd. specialize (G4 N).
    unfold resolvedConfig in *. now rewrite <- Da, <- Dm, <- Dp.
Qed.

Lemma setupStepEffect_frame (p : Props) (snap cur : State) :
  messages (setupStepEffect p snap cur) = messages cur
  /\ isInputMode (setupStepEffect p snap cur) = isInputMode cur
  /\ isLoading (setupStepEffect p snap cur) = isLoading cur.
Proof.
  unfold setupStepEffect.
  repeat match goal with
         | |- context [if ?c then _ else _] => destruct c
         end; simpl; auto.
Qed.

Lemma Settles_Greeted (p : Props) (prev cur : State) r (chatted : bool) :
  Settles p prev cur r ->
  forall done,
    (completeDeps_same prev cur = true -> Greeted p cur done chatted) ->
    Greeted p (fst (fst r)) (List.app done (snd (fst r))) chatted.
Proof.
  induction 1 as [prev cur Q | prev cur r Q next H IH]; intros done G; simpl.
  - rewrite app_nil_r. apply G.
    unfold quiet in Q. now apply andb_prop in Q.
  - rewrite app_assoc. apply IH. intros D.
    subst next. unfold runEffects in *.
    set (s1 := if negb (setupStepDeps_same p prev cur)
               then setupStepEffect p cur cur else cur) in *.
    assert (F1 : messages s1 = messages cur /\ isInputMode s1 = isInputMode cur).
    { subst s1. destruct (negb (setupStepDeps_same p prev cur)); [|auto].
      destruct (setupStepEffect_frame p cur cur) as (a & b & _). auto. }
    destruct F1 as [F1 F2].
    destruct (completeDeps_same prev cur) eqn:C; cbn [negb] in *.
    + apply (Greeted_transfer p cur s1 done _ chatted chatted []); auto.
      * now rewrite app_nil_r.
      * intros x Hx. apply in_or_app. now left.
    + intros R.
      apply completeDeps_same_eq in D. destruct D as (Ds & Da & Dm & Dp & Dc).
      assert (Rc : ready cur = true).
      { unfold ready in *. now rewrite Ds, Da, Dc. }
      clear R. unfold completeEffect in *. unfold ready in Rc.
      rewrite Rc in *. cbn [fst snd] in *.
      split; [reflexivity|]. split.
      * exists []. cbn [messages setIsInputMode setMessages].
        rewrite <- Dp. auto.
      * intros N. rewrite N. cbn [negb]. apply in_or_app. right. left.
        unfold resolvedConfig. now rewrite <- Da, <- Dm, <- Dp.
Qed.

(** No handler touches the input mode, and the transcript only grows, by
    chat turns. *)
Lemma handle_frame (ev : Event) (sys : System) r :
  handle ev sys = Some r ->
  isInputMode (fst (fst r)) = isInputMode (state sys)
  /\ exists more,
      messages (fst (fst r)) = List.app (messages (state sys)) more
      /\ (setupEvent ev = true -> more = []).
Proof.
  unfold handle. intros H.
  destruct ev; simpl in H;
    repeat match type of H with
           | (if ?c then _ else _) = _ => destruct c; [|discriminate]
           | match ?c with Some _ => _ | None => _ end = _ =>
               destruct c; [|discriminate]
           end;
    inversion H; subst; clear H; cbn [fst snd].
  - (* key press *)
    unfold onKey. split_ifs; simpl; split; try reflexivity;
      exists []; now rewrite app_nil_r.
  - simpl. split; [reflexivity|]. exists []. now rewrite app_nil_r.
  - unfold handleApiKeySubmit, fetchAvailableModels_begin.
    split_ifs; simpl; split; try reflexivity; exists []; now rewrite app_nil_r.
  - simpl. split; [reflexivity|]. exists []. now rewrite app_nil_r.
  - unfold handleModelSubmit.
    split_ifs; simpl; split; try reflexivity; exists []; now rewrite app_nil_r.
  - simpl. split; [reflexivity|]. exists []. now rewrite app_nil_r.
  - (* a chat turn is submitted *)
    unfold sendMessage_begin. split_ifs; simpl; split; try reflexivity.
    + exists []. split; [now rewrite app_nil_r | discriminate].
    + exists [userMessage (state sys)]. split; [reflexivity | discriminate].
  - simpl. split; [reflexivity|]. exists []. now rewrite app_nil_r.
  - unfold loadSavedConfig_read.
    split_ifs; simpl; split; try reflexivity; exists []; now rewrite app_nil_r.
  - unfold fetchAvailableModels_resume.
    split_ifs; simpl; split; try reflexivity; exists []; now rewrite app_nil_r.
  - (* the reply to a chat turn *)
    unfold sendMessage_resume. split_ifs; simpl; split; try reflexivity;
      eexists; (split; [reflexivity | discriminate]).
Qed.

Lemma Greeted_weaken (p : Props) (s : State) (done done' : list Action)
      (chatted chatted' : bool) :
  (chatted' = false -> chatted = false) ->
  incl done done' ->
  Greeted p s done chatted -> Greeted p s done' chatted'.
Proof.
  intros Hc Hd G.
  apply (Greeted_transfer p s s done done' chatted chatted' []); auto.
  - apply completeDeps_same_refl.
  - now rewrite app_nil_r.
Qed.

Lemma step_Greeted (p : Props) (sys : System) (ev : Event) (chatted : bool) :
  Greeted p (state sys) (log sys) chatted ->
  Greeted p (state (step p sys ev)) (log (step p sys ev))
    (chatted || negb (setupEvent ev)).
Proof.
  intros G. unfold step.
  assert (W : Greeted p (state sys) (log sys) (chatted || negb (setupEvent ev))).
  { apply (Greeted_weaken p _ (log sys) _ chatted); [|apply incl_refl|exact G].
    intros C. now apply orb_false_elim in C. }
  destruct (exited sys); [exact W|].
  destruct (handle ev sys) as [[[s' acts] waiting]|] eqn:H; [|exact W].
  destruct (existsb isExit acts); simpl.
  - apply (Greeted_weaken p _ (log sys) _ chatted); [| |exact G].
    + intros C. now apply orb_false_elim in C.
    + intros x Hx. apply in_or_app. now left.
  - rewrite app_assoc.
    apply (Settles_Greeted p (state sys) s' _ _ (react_Settles p (state sys) s')).
    intros D. destruct (handle_frame ev sys _ H) as (Hi & more & Hm & Hs).
    cbn [fst] in Hi, Hm.
    apply (Greeted_transfer p (state sys) s' (log sys) _ chatted _ more); auto.
    + intros C. apply orb_false_elim in C. destruct C as [C1 C2].
      apply negb_false_iff in C2. auto.
    + intros x Hx. apply in_or_app. now left.
Qed.

Lemma boot_Greeted (p : Props) :
  Greeted p (state (boot p)) (log (boot p)) false.
Proof.
  unfold boot, mount. cbn [state log fst snd].
  rewrite app_assoc.
  apply (Settles_Greeted p _ _ _ _ (react_Settles p _ _)).
  intros D R. exfalso.
  apply completeDeps_same_eq in D. destruct D as (Ds & _).
  unfold ready in R. rewrite <- Ds in R. discriminate R.
Qed.

(** Whatever happens, a state that is [ready] has been greeted and
    saved. *)
Lemma run_Greeted (p : Props) (evs : list Event) :
  Greeted p (state (run p evs)) (log (run p evs)) (negb (forallb setupEvent evs)).
Proof.
  unfold run.
  assert (A : forall sys chatted,
             Greeted p (state sys) (log sys) chatted ->
             Greeted p (state (fold_left (step p) evs sys))
               (log (fold_left (step p) evs sys))
               (chatted || negb (forallb setupEvent evs))).
  { induction evs as [|ev evs IH]; intros sys chatted G; simpl.
    - now rewrite orb_false_r.
    - apply (step_Greeted p sys ev) in G. apply IH in G.
      rewrite negb_andb, orb_assoc. exact G. }
  apply (A (boot p) false). apply boot_Greeted.
Qed.

(** **** The credential and the setup steps *)

Lemma setupStepEffect_step (p : Props) (snap cur : State) :
  setupStep (setupStepEffect p snap cur) = setupStep cur
  \/ (configLoaded snap = true /\ needsSetup p snap = false).
Proof.
  unfold setupStepEffect.
  destruct (configLoaded snap), (needsSetup p snap); simpl; auto.
Qed.

Lemma runEffects_Sound (p : Props) (f1 f2 : bool) (cur : State) (waiting : list Action) :
  Sound p cur -> Waiting waiting cur ->
  Sound p (fst (runEffects p f1 f2 cur cur))
  /\ Waiting waiting (fst (runEffects p f1 f2 cur cur))
  /\ existsb isGetModels (snd (runEffects p f1 f2 cur cur)) = false.
Proof.
  intros [A B] W.
  assert (S1 : forall s1,
             s1 = (if f1 then setupStepEffect p cur cur else cur) ->
             Sound p s1 /\ Waiting waiting s1).
  { intros s1 ->. destruct f1; [|now split].
    destruct (setupStepEffect_fields p cur cur) as (c & a & _ & _ & _).
    destruct (setupStepEffect_step p cur cur) as [St|[Sc Sn]].
    - assert (T : truthy (finalApiKey cur) = true ->
                  truthy (finalApiKey (setupStepEffect p cur cur)) = true).
      { intros T. rewrite a. destruct (allPieces p cur); [|exact T].
        rewrite truthy_or_default, T. apply orb_true_r. }
      unfold Sound, Waiting in *. rewrite c, St. intuition.
    - assert (T : truthy (finalApiKey cur) = true).
      { unfold needsSetup in Sn. apply orb_false_elim in Sn.
        destruct Sn as [Sn _].
        destruct (otruthy (initialApiKey p)); [now apply A|].
        destruct (truthy (finalApiKey cur)); [reflexivity | discriminate]. }
      assert (T' : truthy (finalApiKey (setupStepEffect p cur cur)) = true).
      { rewrite a. destruct (allPieces p cur); [|exact T].
        rewrite truthy_or_default, T. apply orb_true_r. }
      unfold Sound, Waiting in *. rewrite c. intuition. }
  specialize (S1 _ eq_refl). destruct S1 as [[A1 B1] W1].
  unfold runEffects.
  set (s1 := if f1 then setupStepEffect p cur cur else cur) in *.
  destruct f2; [|split; [split; assumption | split; [assumption | reflexivity]]].
  destruct (completeEffect_frame p cur s1) as (a & b & c & d & e & _).
  unfold Sound, Waiting in *. rewrite a, b, e.
  repeat split; try tauto.
  unfold completeEffect. split_ifs; reflexivity.
Qed.

Lemma settle_Sound (n : nat) (p : Props) (waiting : list Action) :
  forall prev cur,
    Sound p cur -> Waiting waiting cur ->
    Sound p (fst (fst (settle n p prev cur)))
    /\ Waiting waiting (fst (fst (settle n p prev cur)))
    /\ existsb isGetModels (snd (fst (settle n p prev cur))) = false.
Proof.
  induction n as [|n IH]; intros prev cur S W; cbn [settle].
  - cbn. auto.
  - destruct (quiet p prev cur); [cbn; auto|].
    cbn [fst snd].
    destruct (runEffects_Sound p (negb (setupStepDeps_same p prev cur))
                (negb (completeDeps_same prev cur)) cur waiting S W) as (S1 & W1 & E1).
    destruct (IH cur _ S1 W1) as (S2 & W2 & E2).
    split; [exact S2|]. split; [exact W2|].
    rewrite existsb_app, E1, E2. reflexivity.
Qed.

Lemma take_answers (ev : Event) (l rest : list Action) :
  take (answers ev) l = Some rest ->
  (forall f, existsb f rest = true -> existsb f l = true)
  /\ (forall r, ev = ModelsFetched r -> existsb isGetModels l = true).
Proof.
  revert rest. induction l as [|a l IH]; intros rest H; simpl in H; [discriminate|].
  destruct (answers ev a) eqn:E.
  - inversion H; subst. split.
    + intros f Hf. simpl. rewrite Hf. apply orb_true_r.
    + intros r ->. destruct a; try discriminate E. reflexivity.
  - destruct (take (answers ev) l) as [rest'|]; [|discriminate].
    inversion H; subst. destruct (IH rest' eq_refl) as [I1 I2]. split.
    + intros f Hf. simpl in *. apply orb_true_iff in Hf.
      destruct Hf as [Hf|Hf]; [now rewrite Hf|].
      rewrite (I1 f Hf). apply orb_true_r.
    + intros r Hr. simpl. rewrite (I2 r Hr). apply orb_true_r.
Qed.

Lemma handle_Sound (p : Props) (ev : Event) (sys : System) r :
  Sound p (state sys) -> Waiting (pending sys) (state sys) ->
  handle ev sys = Some r ->
  Sound p (fst (fst r))
  /\ Waiting (List.app (snd r) (filter awaited (snd (fst r)))) (fst (fst r)).
Proof.
  intros [A B] W H. unfold handle in H.
  destruct ev; simpl in H.
  1-7: match type of H with
       | (if ?c then _ else _) = _ => destruct c eqn:Shown; [|discriminate]
       end; inversion H; subst; clear H; cbn [fst snd].
  8-11: destruct (take _ (pending sys)) as [rest|] eqn:T; [|discriminate];
    inversion H; subst; clear H; cbn [fst snd filter];
    destruct (take_answers _ _ _ T) as [T1 T2];
    rewrite app_nil_r;
    assert (W' : Waiting rest (state sys))
      by (intros Hr; apply W; now apply T1).
  - unfold Sound, Waiting, onKey in *.
    split_ifs_eqn; cbn; rewrite ?existsb_app, ?orb_false_r;
      cbn; intuition congruence.
  - unfold Sound, Waiting in *. cbn. rewrite ?existsb_app, ?orb_false_r.
    cbn. intuition congruence.
  - unfold Sound, Waiting, handleApiKeySubmit, fetchAvailableModels_begin,
      apiKeyInputShown in *.
    apply andb_prop in Shown. destruct Shown as [Sa Sc].
    apply SetupStep_eqb_eq in Sa.
    destruct (truthy (trim (tempApiKey (state sys)))) eqn:Et; cbn;
      rewrite ?existsb_app, ?orb_false_r, ?Et; cbn; intuition congruence.
  - unfold Sound, Waiting in *. cbn. rewrite ?existsb_app, ?orb_false_r.
    cbn. intuition congruence.
  - unfold Sound, Waiting, handleModelSubmit, modelInputShown in *.
    apply andb_prop in Shown. destruct Shown as [Sa Sc].
    apply SetupStep_eqb_eq in Sa.
    assert (Ne : setupStep (state sys) <> api_key) by congruence.
    split_ifs_eqn; cbn; rewrite ?existsb_app, ?orb_false_r; cbn; intuition congruence.
  - unfold Sound, Waiting in *. cbn. rewrite ?existsb_app, ?orb_false_r.
    cbn. intuition congruence.
  - unfold Sound, Waiting, sendMessage_begin in *.
    split_ifs_eqn; cbn; rewrite ?existsb_app, ?orb_false_r; cbn; intuition congruence.
  - unfold Sound, Waiting, loadSavedConfig_cleared in *. cbn. intuition congruence.
  - unfold Sound, Waiting, loadSavedConfig_read in *.
    destruct r0 as [saved|]; [destruct (otruthy (saved_apiKey saved)) eqn:Es|];
      cbn; rewrite ?truthy_or_default, ?Es; cbn; intuition congruence.
  - specialize (T2 _ eq_refl). destruct (W T2) as [Wa Wc].
    unfold Sound, Waiting, fetchAvailableModels_resume in *.
    split_ifs_eqn; cbn; intuition congruence.
  - unfold Sound, Waiting, sendMessage_resume in *.
    split_ifs_eqn; cbn; intuition congruence.
Qed.

Lemma existsb_filter_false {A : Type} (f g : A -> bool) (l : list A) :
  existsb f l = false -> existsb f (filter g l) = false.
Proof.
  induction l as [|a l IH]; simpl; [reflexivity|].
  intros H. apply orb_false_elim in H. destruct H as [Ha Hl].
  destruct (g a); simpl; [rewrite Ha|]; auto.
Qed.

Lemma step_Sound (p : Props) (sys : System) (ev : Event) :
  Sound p (state sys) -> Waiting (pending sys) (state sys) ->
  Sound p (state (step p sys ev))
  /\ Waiting (pending (step p sys ev)) (state (step p sys ev)).
Proof.
  intros S W. unfold step.
  destruct (exited sys); [now split|].
  destruct (handle ev sys) as [[[s' acts] waiting]|] eqn:H; [|now split].
  destruct (handle_Sound p ev sys _ S W H) as [S' W']. cbn [fst snd] in S', W'.
  destruct (existsb isExit acts); cbn [state pending].
  - split; [exact S|].
    intros G. apply W.
    (* only a key press exits, and it leaves the awaited operations alone *)
    unfold handle in H. destruct ev; simpl in H;
      repeat match type of H with
             | (if ?c then _ else _) = _ => destruct c; [|discriminate]
             | match ?c with Some _ => _ | None => _ end = _ =>
                 destruct c eqn:T; [|discriminate]
             end;
      inversion H; subst; try exact G;
      destruct (take_answers _ _ _ T) as [T1 _]; now apply T1.
  - unfold react.
    destruct (settle_Sound 3 p _ (state sys) s' S' W') as (S2 & W2 & E2).
    split; [exact S2|].
    intros G. apply W2.
    rewrite filter_app, app_assoc, existsb_app in G.
    rewrite (existsb_filter_false _ awaited _ E2), orb_false_r in G.
    exact G.
Qed.

Lemma mount_effects (p : Props) (cur : State) :
  runEffects p true true (initialState p) cur = (cur, []).
Proof.
  unfold runEffects, setupStepEffect, completeEffect.
  cbn [initialState configLoaded setupStep SetupStep_eqb andb].
  destruct (negb (needsSetup p (initialState p))); reflexivity.
Qed.

Lemma boot_Sound (p : Props) :
  Sound p (state (boot p)) /\ Waiting (pending (boot p)) (state (boot p)).
Proof.
  unfold boot, mount. rewrite mount_effects. cbn [fst snd state pending app].
  set (s1 := fst (loadSavedConfig_begin p (personalityIndexEffect (initialState p)))).
  assert (S1 : Sound p s1).
  { subst s1. unfold Sound, loadSavedConfig_begin, personalityIndexEffect.
    split_ifs_eqn; cbn; rewrite ?truthy_or_default; split;
      intros H; try congruence; try reflexivity;
      match goal with E : otruthy _ = true |- _ => rewrite E; reflexivity end. }
  assert (W1 : Waiting
                 (filter awaited
                    (snd (loadSavedConfig_begin p
                            (personalityIndexEffect (initialState p))))) s1).
  { unfold Waiting, loadSavedConfig_begin. split_ifs; cbn; discriminate. }
  unfold react.
  destruct (settle_Sound 3 p _ (initialState p) s1 S1 W1) as (S2 & W2 & E2).
  split; [exact S2|].
  intros G. apply W2.
  rewrite filter_app, existsb_app in G.
  rewrite (existsb_filter_false _ awaited _ E2), orb_false_r in G.
  exact G.
Qed.

Lemma run_Sound (p : Props) (evs : list Event) : Sound p (state (run p evs)).
Proof.
  unfold run.
  assert (A : forall sys,
             Sound p (state sys) -> Waiting (pending sys) (state sys) ->
             Sound p (state (fold_left (step p) evs sys))).
  { induction evs as [|ev evs IH]; intros sys S W; simpl; [exact S|].
    destruct (step_Sound p sys ev S W) as [S' W']. now apply IH. }
  destruct (boot_Sound p) as [S W]. now apply A.
Qed.

(** The setup flow only reaches its last step [ready]. *)
Lemma complete_ready (p : Props) (evs : list Event) :
  setupStep (state (run p evs)) = complete -> ready (state (run p evs)) = true.
Proof.
  intros C. destruct (run_Sound p evs) as [_ B].
  unfold ready. rewrite C in *.
  destruct B as [Ha Hc]; [discriminate|].
  now rewrite Ha, Hc.
Qed.

(** **** Saving *)

Lemma existsb_isSave (l : list Action) :
  existsb isSave l = false -> forall c, ~ In (SaveConfig c) l.
Proof.
  intros H c Hin.
  assert (E : existsb isSave l = true).
  { apply existsb_exists. exists (SaveConfig c). split; [exact Hin | reflexivity]. }
  congruence.
Qed.

Lemma settle_no_save (n : nat) (p : Props) :
  otruthy (initialApiKey p) = true ->
  forall prev cur, existsb isSave (snd (fst (settle n p prev cur))) = false.
Proof.
  intros I. induction n as [|n IH]; intros prev cur; cbn [settle]; [reflexivity|].
  destruct (quiet p prev cur); [reflexivity|].
  cbn [fst snd]. rewrite existsb_app, IH, orb_false_r.
  unfold runEffects, completeEffect. rewrite I. cbn [negb].
  split_ifs; reflexivity.
Qed.

Lemma handle_no_save (ev : Event) (sys : System) r :
  handle ev sys = Some r -> existsb isSave (snd (fst r)) = false.
Proof.
  unfold handle. intros H.
  destruct ev; simpl in H;
    repeat match type of H with
           | (if ?c then _ else _) = _ => destruct c; [|discriminate]
           | match ?c with Some _ => _ | None => _ end = _ =>
               destruct c; [|discriminate]
           end;
    inversion H; subst; clear H; cbn [fst snd]; try reflexivity.
  - unfold onKey. split_ifs; reflexivity.
  - unfold handleApiKeySubmit, fetchAvailableModels_begin. split_ifs; reflexivity.
  - unfold sendMessage_begin. split_ifs; reflexivity.
Qed.

Lemma run_no_save (p : Props) (evs : list Event) :
  otruthy (initialApiKey p) = true -> existsb isSave (log (run p evs)) = false.
Proof.
  intros I. unfold run.
  assert (A : forall sys,
             existsb isSave (log sys) = false ->
             existsb isSave (log (fold_left (step p) evs sys)) = false).
  { induction evs as [|ev evs IH]; intros sys L; simpl; [exact L|].
    apply IH. unfold step.
    destruct (exited sys); [exact L|].
    destruct (handle ev sys) as [[[s' acts] waiting]|] eqn:H; [|exact L].
    pose proof (handle_no_save ev sys _ H) as Ha. cbn [fst snd] in Ha.
    destruct (existsb isExit acts); cbn [log];
      rewrite ?existsb_app, L, Ha; [reflexivity|].
    unfold react. now rewrite settle_no_save. }
  apply A. unfold boot, mount. rewrite mount_effects. cbn [log fst snd app].
  rewrite existsb_app. unfold react. rewrite settle_no_save, orb_false_r by exact I.
  unfold loadSavedConfig_begin. split_ifs; reflexivity.
Qed.

(** **** Effects on a state that has all its pieces *)

Lemma quiet_frame (p : Props) (a b : State) :
  setupStep a = setupStep b -> finalApiKey a = finalApiKey b ->
  finalModel a = finalModel b -> finalPersonality a = finalPersonality b ->
  configLoaded a = configLoaded b ->
  quiet p a b = true.
Proof.
  intros Hs Ha Hm Hp Hc.
  unfold quiet, setupStepDeps_same, completeDeps_same, needsSetup.
  rewrite Hs, Ha, Hm, Hp, Hc.
  now rewrite SetupStep_eqb_refl, !Bool.eqb_reflx, !String.eqb_refl.
Qed.

(** Once the configuration is resolved and the step is [complete], the
    effects leave both as they are. *)
Lemma settle_resolved (n : nat) (p : Props) :
  forall prev cur,
    allPieces p cur = true ->
    setupStep cur = complete ->
    finalApiKey cur = or_default (initialApiKey p) (finalApiKey cur) ->
    finalModel cur = or_default (initialModel p) (finalModel cur) ->
    finalPersonality cur = or_default (initialPersonality p) (finalPersonality cur) ->
    let r := settle n p prev cur in
    setupStep (fst (fst r)) = complete
    /\ finalApiKey (fst (fst r)) = finalApiKey cur
    /\ finalModel (fst (fst r)) = finalModel cur
    /\ finalPersonality (fst (fst r)) = finalPersonality cur
    /\ Forall (fun st => st = complete) (snd r).
Proof.
  induction n as [|n IH]; intros prev cur A C Fa Fm Fp; cbn [settle].
  - cbn. auto.
  - destruct (quiet p prev cur); [cbn; auto|].
    cbn [fst snd].
    set (f1 := negb (setupStepDeps_same p prev cur)).
    set (f2 := negb (completeDeps_same prev cur)).
    destruct (runEffects_fields p f1 f2 cur cur) as (c2 & a2 & m2 & p2 & st2 & k2).
    set (s2 := fst (runEffects p f1 f2 cur cur)) in *.
    rewrite A, andb_true_r in a2, m2, p2, st2.
    assert (Ea : finalApiKey s2 = finalApiKey cur) by (destruct f1; congruence).
    assert (Em : finalModel s2 = finalModel cur) by (destruct f1; congruence).
    assert (Ep : finalPersonality s2 = finalPersonality cur)
      by (destruct f1; congruence).
    assert (Es : setupStep s2 = complete).
    { destruct f1; [now apply st2 | rewrite k2; auto]. }
    assert (A2 : allPieces p s2 = true).
    { unfold allPieces, needsSetup in *. now rewrite c2, Ea, Em, Ep. }
    destruct (IH cur s2 A2 Es) as (R1 & R2 & R3 & R4 & R5); try congruence.
    repeat split; try congruence. constructor; assumption.
Qed.

(** The first round of effects on a state that has all its pieces. *)
Lemma settle_allPieces (n : nat) (p : Props) (prev cur : State) :
  allPieces p cur = true ->
  setupStepDeps_same p prev cur = false ->
  let r := settle (S n) p prev cur in
  setupStep (fst (fst r)) = complete
  /\ finalApiKey (fst (fst r)) = or_default (initialApiKey p) (finalApiKey cur)
  /\ finalModel (fst (fst r)) = or_default (initialModel p) (finalModel cur)
  /\ finalPersonality (fst (fst r))
     = or_default (initialPersonality p) (finalPersonality cur)
  /\ Forall (fun st => st = complete) (snd r).
Proof.
  intros A D. cbn [settle]. unfold quiet. rewrite D. cbn [andb negb fst snd].
  destruct (runEffects_fields p true (negb (completeDeps_same prev cur)) cur cur)
    as (c2 & a2 & m2 & p2 & st2 & _).
  set (s2 := fst (runEffects p true (negb (completeDeps_same prev cur)) cur cur)) in *.
  rewrite A in a2, m2, p2, st2. cbn [andb] in *.
  destruct (allPieces_after p cur s2 A c2 a2 m2 p2) as [A2 _].
  destruct (settle_resolved n p cur s2 A2 (st2 eq_refl)) as (R1 & R2 & R3 & R4 & R5).
  - now rewrite a2, or_default_idem.
  - now rewrite m2, or_default_idem.
  - now rewrite p2, or_default_idem.
  - repeat split; try congruence. constructor; [now apply st2 | assumption].
Qed.

(** **** Sorting *)

Section Sorting.

Context {A : Type} (cmp : A -> A -> Z).
Hypothesis cmp_total : forall a b, cmp a b <= 0 \/ cmp b a <= 0.
Hypothesis cmp_trans : forall a b c, cmp a b <= 0 -> cmp b c <= 0 -> cmp a c <= 0.

Lemma insert_perm (x : A) (l : list A) : Permutation (insert cmp x l) (x :: l).
Proof.
  induction l as [|y l IH]; simpl; [reflexivity|].
  destruct (cmp x y <=? 0); [reflexivity|].
  rewrite IH. apply perm_swap.
Qed.

Lemma sort_perm (l : list A) : Permutation (sort cmp l) l.
Proof.
  induction l as [|x l IH]; simpl; [reflexivity|].
  rewrite insert_perm. now constructor.
Qed.

Lemma insert_sorted (x : A) (l : list A) :
  StronglySorted (fun a b => cmp a b <= 0) l ->
  StronglySorted (fun a b => cmp a b <= 0) (insert cmp x l).
Proof.
  induction 1 as [|y l S IH F]; simpl.
  - constructor; constructor.
  - destruct (Z.leb_spec (cmp x y) 0) as [L|G].
    + constructor; [now constructor|].
      constructor; [exact L|].
      eapply Forall_impl; [|exact F]. intros z Hz. now apply (cmp_trans x y z).
    + constructor; [exact IH|].
      apply (Permutation_Forall (Permutation_sym (insert_perm x l))).
      constructor; [|exact F].
      destruct (cmp_total x y); [lia | assumption].
Qed.

Lemma sort_sorted (l : list A) :
  StronglySorted (fun a b => cmp a b <= 0) (sort cmp l).
Proof.
  induction l as [|x l IH]; simpl; [constructor|].
  now apply insert_sorted.
Qed.

End Sorting.

Lemma StronglySorted_firstn {A : Type} (R : A -> A -> Prop) (n : nat) (l : list A) :
  StronglySorted R l -> StronglySorted R (firstn n l).
Proof.
  intros S. revert n. induction S as [|x l S IH F]; intros [|n]; simpl;
    try constructor.
  - apply IH.
  - apply Forall_forall. intros y Hy.
    rewrite Forall_forall in F. apply F.
    rewrite <- (firstn_skipn n l). apply in_or_app. now left.
Qed.

Lemma Forall_firstn_of {A : Type} (P : A -> Prop) (n : nat) (l : list A) :
  Forall P l -> Forall P (firstn n l).
Proof.
  rewrite !Forall_forall. intros F y Hy. apply F.
  rewrite <- (firstn_skipn n l). apply in_or_app. now left.
Qed.

(** **** The order of the catalogue *)

Lemma compareModels_le (a b : Model) :
  compareModels a b <= 0 <->
  (indexOf popularModels (id a) <> -1 /\ indexOf popularModels (id b) <> -1
   /\ indexOf popularModels (id a) <= indexOf popularModels (id b))
  \/ (indexOf popularModels (id a) <> -1 /\ indexOf popularModels (id b) = -1)
  \/ (indexOf popularModels (id a) = -1 /\ indexOf popularModels (id b) = -1
      /\ localeCompare (name a) (name b) <= 0).
Proof.
  unfold compareModels.
  destruct (Z.eqb_spec (indexOf popularModels (id a)) (-1)) as [Ea|Ea],
    (Z.eqb_spec (indexOf popularModels (id b)) (-1)) as [Eb|Eb]; simpl; lia.
Qed.

Lemma keepModel_spec (m : RawModel) :
  keepModel m = true ->
  includes (id (toModel m)) "free" = false /\ 4000 <= context_length (toModel m).
Proof.
  unfold keepModel. intros H. apply andb_prop in H. destruct H as [H1 H2].
  apply negb_true_iff in H1. apply Z.leb_le in H2. now split.
Qed.

Section Ranking.

(** [localeCompare] is a consistent comparison: it orders its arguments
    the other way round when they are swapped, and "no later than" is
    transitive. *)
Hypothesis localeCompare_antisym :
  forall a b, Z.sgn (localeCompare b a) = - Z.sgn (localeCompare a b).
Hypothesis localeCompare_trans :
  forall a b c,
    localeCompare a b <= 0 -> localeCompare b c <= 0 -> localeCompare a c <= 0.

Lemma compareModels_total (a b : Model) :
  compareModels a b <= 0 \/ compareModels b a <= 0.
Proof.
  rewrite !compareModels_le.
  pose proof (localeCompare_antisym (name a) (name b)) as H.
  pose proof (Z.sgn_spec (localeCompare (name a) (name b))).
  pose proof (Z.sgn_spec (localeCompare (name b) (name a))).
  lia.
Qed.

Lemma compareModels_trans (a b c : Model) :
  compareModels a b <= 0 -> compareModels b c <= 0 -> compareModels a c <= 0.
Proof.
  rewrite !compareModels_le.
  pose proof (localeCompare_trans (name a) (name b) (name c)).
  lia.
Qed.

Lemma rankModels_spec (l : list RawModel) :
  Forall (fun m => includes (id m) "free" = false /\ 4000 <= context_length m)
    (rankModels l)
  /\ StronglySorted inCatalogueOrder (rankModels l)
  /\ (length (rankModels l) <= 15)%nat
  /\ exists sorted,
      Permutation sorted (map toModel (filter keepModel l))
      /\ rankModels l = firstn 15 sorted.
Proof.
  unfold rankModels.
  set (kept := map toModel (filter keepModel l)).
  split; [|split; [|split]].
  - apply Forall_firstn_of.
    apply (Permutation_Forall (Permutation_sym (sort_perm compareModels kept))).
    subst kept. apply Forall_forall. intros m Hm.
    apply in_map_iff in Hm. destruct Hm as (raw & <- & Hraw).
    apply filter_In in Hraw. now apply keepModel_spec.
  - apply StronglySorted_firstn.
    pose proof (sort_sorted compareModels compareModels_total
                  compareModels_trans kept) as S.
    induction S as [|x xs S IH F]; constructor; [exact IH|].
    eapply Forall_impl; [|exact F]. intros y Hy.
    apply compareModels_le in Hy. unfold inCatalogueOrder. lia.
  - apply firstn_le_length.
  - exists (sort compareModels kept). split; [apply sort_perm | reflexivity].
Qed.

Lemma listModels_inr (r : Fetched Listing) (models : list Model) :
  listModels r = inr models -> exists l, models = rankModels l.
Proof.
  destruct r as [message|status statusText [message|d]]; simpl;
    try discriminate.
  - destruct (ok status); simpl; discriminate.
  - destruct (ok status); simpl; [|discriminate].
    intros H. inversion H. eauto.
Qed.

End Ranking.

(** **** The program after its first render *)

Lemma personalityIndexEffect_frame (s : State) :
  setupStep (personalityIndexEffect s) = setupStep s
  /\ finalApiKey (personalityIndexEffect s) = finalApiKey s
  /\ finalModel (personalityIndexEffect s) = finalModel s
  /\ finalPersonality (personalityIndexEffect s) = finalPersonality s
  /\ configLoaded (personalityIndexEffect s) = configLoaded s.
Proof.
  unfold personalityIndexEffect. destruct getPersonalityOptions; repeat split.
Qed.

Lemma settle_round (n : nat) (p : Props) (prev cur : State) :
  quiet p prev cur = false ->
  settle (S n) p prev cur
  = let next :=
      runEffects p (negb (setupStepDeps_same p prev cur))
        (negb (completeDeps_same prev cur)) cur cur in
    let rest := settle n p cur (fst next) in
    (fst (fst rest), List.app (snd next) (snd (fst rest)),
     setupStep (fst next) :: snd rest).
Proof. intros Q. cbn [settle]. now rewrite Q. Qed.

Lemma settle_quiet (n : nat) (p : Props) (prev cur : State) :
  quiet p prev cur = true -> settle n p prev cur = (cur, [], []).
Proof. destruct n; cbn [settle]; [reflexivity|]. now intros ->. Qed.

Lemma quiet_personalityIndexEffect (p : Props) (s : State) :
  quiet p s (personalityIndexEffect s) = true.
Proof.
  destruct (personalityIndexEffect_frame s) as (a & b & c & d & e).
  apply quiet_frame; congruence.
Qed.

(** Without a credential and without [reconfigure], the program reads the
    configuration file and waits on the loading screen. *)
Lemma boot_reads (p : Props) :
  otruthy (initialApiKey p) = false -> reconfigure p = false ->
  boot p = {| state := personalityIndexEffect (initialState p);
              log := [ReadConfig];
              visited := [api_key; api_key];
              pending := [ReadConfig];
              exited := false |}.
Proof.
  intros I R. unfold boot, mount. rewrite mount_effects.
  unfold loadSavedConfig_begin. rewrite I, R. cbn [fst snd app].
  unfold react. rewrite settle_quiet by apply quiet_personalityIndexEffect.
  destruct (personalityIndexEffect_frame (initialState p)) as (a & _).
  cbn [fst snd filter awaited]. now rewrite a.
Qed.

(** With [reconfigure], the program removes the configuration file and
    waits on the loading screen. *)
Lemma boot_clears (p : Props) :
  otruthy (initialApiKey p) = false -> reconfigure p = true ->
  boot p = {| state := personalityIndexEffect (initialState p);
              log := [ClearConfig];
              visited := [api_key; api_key];
              pending := [ClearConfig];
              exited := false |}.
Proof.
  intros I R. unfold boot, mount. rewrite mount_effects.
  unfold loadSavedConfig_begin. rewrite I, R. cbn [fst snd app].
  unfold react. rewrite settle_quiet by apply quiet_personalityIndexEffect.
  destruct (personalityIndexEffect_frame (initialState p)) as (a & _).
  cbn [fst snd filter awaited]. now rewrite a.
Qed.

(** **** Reconfiguring *)

Lemma setupStepEffect_reconfigure (p : Props) (snap cur : State) :
  reconfigure p = true -> setupStepEffect p snap cur = cur.
Proof.
  intros R. unfold setupStepEffect, needsSetup. rewrite R, orb_true_r.
  cbn [negb andb]. now rewrite andb_false_r.
Qed.

Lemma runEffects_reconfigure (p : Props) (f1 f2 : bool) (snap cur : State) :
  reconfigure p = true -> ready snap = false ->
  runEffects p f1 f2 snap cur = (cur, []).
Proof.
  intros R N. unfold runEffects. rewrite setupStepEffect_reconfigure by exact R.
  unfold completeEffect. unfold ready in N. rewrite N.
  destruct f1, f2; reflexivity.
Qed.

Lemma settle_reconfigure (n : nat) (p : Props) :
  reconfigure p = true ->
  forall prev cur,
    let r := settle n p prev cur in
    setupStep (fst (fst r)) = setupStep cur
    /\ finalModel (fst (fst r)) = finalModel cur
    /\ finalPersonality (fst (fst r)) = finalPersonality cur
    /\ availableModels (fst (fst r)) = availableModels cur
    /\ Forall (fun st => st = setupStep cur) (snd r).
Proof.
  intros R. induction n as [|n IH]; intros prev cur; cbn [settle].
  - cbn. auto.
  - destruct (quiet p prev cur); [cbn; auto|]. cbn [fst snd].
    set (s2 := fst (runEffects p _ _ cur cur)).
    assert (E : setupStep s2 = setupStep cur /\ finalModel s2 = finalModel cur
                /\ finalPersonality s2 = finalPersonality cur
                /\ availableModels s2 = availableModels cur).
    { subst s2. unfold runEffects. rewrite setupStepEffect_reconfigure by exact R.
      unfold completeEffect. split_ifs; cbn; auto. }
    destruct E as (Es & Em & Ep & Ea).
    destruct (IH cur s2) as (R1 & R2 & R3 & R4 & R5).
    repeat split; try congruence.
    constructor; [exact Es|]. rewrite <- Es. exact R5.
Qed.

(** **** The model listing fails *)

Lemma listModels_failure (r : Fetched Listing) :
  (exists message, r = TransportError message)
  \/ (exists status statusText body,
         r = Response status statusText body /\ ok status = false) ->
  exists e, listModels r = inl e.
Proof.
  intros [(message & ->)|(status & statusText & body & -> & O)]; simpl.
  - eauto.
  - rewrite O. simpl. eauto.
Qed.

(** What the [catch] clause of [fetchAvailableModels] does: no models,
    the fallback model, the personality step. *)
Lemma fetch_failure_fallback (r : Fetched Listing) (s : State) :
  (exists message, r = TransportError message)
  \/ (exists status statusText body,
         r = Response status statusText body /\ ok status = false) ->
  fetchAvailableModels_resume r s
  = setIsLoading false
      (setSetupStep personality_selection
         (setFinalModel "anthropic/claude-3.5-sonnet" (setAvailableModels [] s))).
Proof.
  intros F. destruct (listModels_failure r F) as [e E].
  unfold fetchAvailableModels_resume. now rewrite E.
Qed.

(** When reconfiguring, the program goes from the credential step to the
    personality step and stays there. *)
Lemma reconfigure_fetch_failure (p : Props) (sys : System) (r : Fetched Listing) :
  reconfigure p = true ->
  exited sys = false ->
  existsb isGetModels (pending sys) = true ->
  (exists message, r = TransportError message)
  \/ (exists status statusText body,
         r = Response status statusText body /\ ok status = false) ->
  let sys' := step p sys (ModelsFetched r) in
  setupStep (state sys') = personality_selection
  /\ finalModel (state sys') = "anthropic/claude-3.5-sonnet"
  /\ availableModels (state sys') = []
  /\ visited sys'
     = List.app (visited sys)
         (personality_selection :: snd (react p (state sys)
                                          (fetchAvailableModels_resume r (state sys))))
  /\ Forall (fun st => st = personality_selection)
       (snd (react p (state sys) (fetchAvailableModels_resume r (state sys)))).
Proof.
  intros R X G F. unfold step. rewrite X. unfold handle.
  assert (T : exists rest, take (answers (ModelsFetched r)) (pending sys) = Some rest).
  { clear -G. induction (pending sys) as [|a l IH]; simpl in *; [discriminate|].
    destruct a; simpl in *; eauto;
      destruct (IH G) as [rest ->]; eauto. }
  destruct T as [rest ->]. cbn [existsb isExit state visited].
  rewrite (fetch_failure_fallback r (state sys) F).
  unfold react.
  set (s' := setIsLoading false
               (setSetupStep personality_selection
                  (setFinalModel "anthropic/claude-3.5-sonnet"
                     (setAvailableModels [] (state sys))))).
  destruct (settle_reconfigure 3 p R (state sys) s') as (R1 & R2 & R3 & R4 & R5).
  replace (setupStep s') with personality_selection in * by reflexivity.
  replace (finalModel s') with "anthropic/claude-3.5-sonnet" in * by reflexivity.
  replace (availableModels s') with (@nil Model) in * by reflexivity.
  repeat split; assumption.
Qed.

(** Without [reconfigure], in a state that holds a credential and a
    personality but no model yet, the personality step that the [catch]
    clause sets is left at once: the setup-step effect finds all pieces and
    sets [complete]. *)
Lemma fetch_failure_without_reconfigure (p : Props) (sys : System) (r : Fetched Listing) :
  reconfigure p = false ->
  exited sys = false ->
  existsb isGetModels (pending sys) = true ->
  configLoaded (state sys) = true ->
  truthy (finalApiKey (state sys)) = true ->
  finalModel (state sys) = "" ->
  truthy (finalPersonality (state sys)) = true ->
  (exists message, r = TransportError message)
  \/ (exists status statusText body,
         r = Response status statusText body /\ ok status = false) ->
  let sys' := step p sys (ModelsFetched r) in
  setupStep (state sys') = complete
  /\ finalModel (state sys')
     = or_default (initialModel p) "anthropic/claude-3.5-sonnet"
  /\ finalPersonality (state sys')
     = or_default (initialPersonality p) (finalPersonality (state sys)).
Proof.
  intros R X G C K M P F. unfold step. rewrite X. unfold handle.
  assert (T : exists rest, take (answers (ModelsFetched r)) (pending sys) = Some rest).
  { clear -G. induction (pending sys) as [|a l IH]; simpl in *; [discriminate|].
    destruct a; simpl in *; eauto;
      destruct (IH G) as [rest ->]; eauto. }
  destruct T as [rest ->]. cbn [existsb isExit state visited].
  rewrite (fetch_failure_fallback r (state sys) F).
  set (s' := setIsLoading false
               (setSetupStep personality_selection
                  (setFinalModel "anthropic/claude-3.5-sonnet"
                     (setAvailableModels [] (state sys))))).
  assert (A : allPieces p s' = true).
  { unfold allPieces, needsSetup. subst s'. cbn. rewrite R, C, K, P.
    now rewrite andb_false_r. }
  assert (D : setupStepDeps_same p (state sys) s' = false).
  { unfold setupStepDeps_same. subst s'. cbn. rewrite M. cbn.
    now rewrite andb_false_r. }
  destruct (settle_allPieces 2 p (state sys) s' A D) as (R1 & _ & R3 & R4 & _).
  unfold react. repeat split; assumption.
Qed.

(** **** The reply to a chat turn *)

Lemma completion_failure (r : Fetched jsval) (s : State) (e : Thrown) :
  replyContent r = inl e ->
  sendMessage_resume r s
  = setIsLoading false (setMessages (List.app (messages s) [errorMessage e]) s).
Proof. intros E. unfold sendMessage_resume. now rewrite E. Qed.

Lemma completion_success (r : Fetched jsval) (s : State) (c : jsval) :
  replyContent r = inr c ->
  sendMessage_resume r s
  = setIsLoading false
      (setMessages (List.app (messages s) [{| role := assistant; content := c |}]) s).
Proof. intros E. unfold sendMessage_resume. now rewrite E. Qed.

(** A transport error, a status outside 200..299, a body that is not JSON
    and a body without [choices], without [choices[0]] or without
    [choices[0].message] are all thrown. *)
Lemma replyContent_thrown :
  (forall message, replyContent (TransportError message) = inl (ErrorObject message))
  /\ (forall status statusText body,
         ok status = false ->
         replyContent (Response status statusText body)
         = inl (ErrorObject
                  ("OpenRouter API error: " ++ of_Z status ++ " " ++ statusText)))
  /\ (forall status statusText message,
         ok status = true ->
         replyContent (Response status statusText (Unparsable message))
         = inl (ErrorObject message))
  /\ (forall status statusText d,
         ok status = true ->
         (get_prop d "choices" = ret JUndefined
          \/ (exists choices,
                 get_prop d "choices" = ret choices
                 /\ (get_index choices 0 = ret JUndefined
                     \/ exists choice,
                         get_index choices 0 = ret choice
                         /\ get_prop choice "message" = ret JUndefined))) ->
         exists e, replyContent (Response status statusText (Parsed d)) = inl e).
Proof.
  repeat split.
  - intros status statusText body O. simpl. now rewrite O.
  - intros status statusText message O. simpl. now rewrite O.
  - intros status statusText d O H. unfold replyContent. rewrite O.
    cbn [negb json bind ret].
    destruct H as [H|(choices & H & [H1|(choice & H1 & H2)])];
      rewrite H; cbn [bind ret]; try (rewrite H1; cbn [bind ret]);
      try (rewrite H2; cbn [bind ret]); cbn; eauto.
Qed.

(** **** The welcome message *)

(** As long as only setup events have happened, a program whose setup is
    complete shows exactly one message, the welcome message of the
    resolved personality in the role of the assistant, and input mode is
    on; the chat prompt is on screen unless the busy flag is up. *)
Lemma welcome_when_complete (p : Props) (evs : list Event) :
  forallb setupEvent evs = true ->
  setupStep (state (run p evs)) = complete ->
  messages (state (run p evs))
  = [ {| role := assistant;
         content :=
           JString
             (welcomeMessage
                (getPersonalityById
                   (sor (finalPersonality (state (run p evs))) "cheerful"))) |} ]
  /\ isInputMode (state (run p evs)) = true
  /\ chatInputShown (state (run p evs)) = negb (isLoading (state (run p evs))).
Proof.
  intros E C.
  pose proof (complete_ready p evs C) as Rd.
  destruct (run_Greeted p evs Rd) as (Hi & (turns & Hm & Ht) & _).
  rewrite E in Ht. rewrite Hm, (Ht eq_refl).
  split; [reflexivity|]. split; [exact Hi|].
  unfold chatInputShown. now rewrite C, Hi.
Qed.

(** *** The claims *)

(** C1, as the program has it.  For every saved record that holds a
    credential, read when [App] was handed no credential and
    [reconfigure] is off: a missing model is replaced by
    "meta-llama/llama-3.3-8b-instruct:free" and a missing personality by
    "cheerful" (a [--model] or [--personality] flag takes precedence), and
    the setup flow goes from its initial step straight to [complete]: it
    enters neither the model step nor the personality step. *)
Theorem saved_credential_completes_setup (p : Props) (saved : SavedConfig) :
  otruthy (initialApiKey p) = false ->
  reconfigure p = false ->
  otruthy (saved_apiKey saved) = true ->
  let sys := run p [ConfigRead (Some saved)] in
  setupStep (state sys) = complete
  /\ finalApiKey (state sys) = or_default (saved_apiKey saved) ""
  /\ finalModel (state sys)
     = or_default (initialModel p)
         (or_default (saved_model saved) "meta-llama/llama-3.3-8b-instruct:free")
  /\ finalPersonality (state sys)
     = or_default (initialPersonality p)
         (or_default (saved_personality saved) "cheerful")
  /\ Forall (fun st => st = api_key \/ st = complete) (visited sys).
Proof.
  intros I R K. unfold run. cbn [fold_left]. rewrite (boot_reads p I R).
  unfold step. cbn [exited handle take answers state pending].
  cbn [existsb isExit orb state log visited].
  set (s1 := personalityIndexEffect (initialState p)).
  set (s' := loadSavedConfig_read (Some saved) s1).
  destruct (personalityIndexEffect_frame (initialState p)) as (_ & _ & _ & _ & c1).
  fold s1 in c1. cbn in c1.
  assert (F : configLoaded s' = true
              /\ setupStep s' = complete
              /\ finalApiKey s' = or_default (saved_apiKey saved) ""
              /\ finalModel s'
                 = or_default (saved_model saved)
                     "meta-llama/llama-3.3-8b-instruct:free"
              /\ finalPersonality s'
                 = or_default (saved_personality saved) "cheerful").
  { subst s'. unfold loadSavedConfig_read. rewrite K. repeat split. }
  destruct F as (Fc & Fs & Fa & Fm & Fp).
  assert (A : allPieces p s' = true).
  { unfold allPieces, needsSetup.
    rewrite Fc, Fa, Fm, Fp, !truthy_or_default, I, R, K.
    cbn. now rewrite !orb_true_r. }
  assert (D : setupStepDeps_same p s1 s' = false).
  { unfold setupStepDeps_same. rewrite c1, Fc. cbn [Bool.eqb].
    now rewrite andb_false_r. }
  destruct (settle_allPieces 2 p s1 s' A D) as (R1 & R2 & R3 & R4 & R5).
  unfold react. cbn [state visited].
  rewrite R1, R2, R3, R4, Fa, Fm, Fp, Fs.
  rewrite (or_default_truthy _ _ I).
  repeat split.
  cbn [app]. do 3 (constructor; [auto|]).
  eapply Forall_impl; [|exact R5]. simpl. auto.
Qed.

(** C2, as the program has it.  When the credential comes from the
    [--api-key] flag or from the environment variable and [reconfigure]
    is off, the configuration is never saved, whatever happens.  When
    there is no flag and no credential in the environment, the resolved
    configuration has been saved whenever setup is complete. *)
Theorem save_only_without_given_credential
        (flags : Flags) (env : option string) (evs : list Event) :
  let sys := run (cli_props flags env) evs in
  (flag_reconfigure flags = false ->
   otruthy (or_else (flag_apiKey flags) env) = true ->
   forall c, ~ In (SaveConfig c) (log sys))
  /\ (flag_reconfigure flags = false -> otruthy (flag_apiKey flags) = false ->
      flag_model flags = None -> flag_personality flags = None ->
      otruthy env = false ->
      setupStep (state sys) = complete ->
      In (SaveConfig (resolvedConfig (state sys))) (log sys)).
Proof.
  intros sys. split.
  - intros R K. apply existsb_isSave. apply run_no_save.
    unfold cli_props. rewrite R. exact K.
  - intros R K _ _ E C. subst sys.
    pose proof (complete_ready _ evs C) as Rd.
    destruct (run_Greeted (cli_props flags env) evs Rd) as (_ & _ & S).
    apply S. unfold cli_props, or_else. rewrite R, K. exact E.
Qed.

(** C3 (the program does otherwise when only the content is missing).
    A reply with status 200 whose first choice has a message without
    [content]: nothing is thrown, and the message appended to the
    transcript has [undefined] for content; it is no error message. *)
Theorem reply_without_content_is_appended (s : State) :
  let body :=
    JObject [("choices",
              JArray [JObject [("message",
                                JObject [("role", JString "assistant")])]])] in
  let reply := {| role := assistant; content := JUndefined |} in
  replyContent (Response 200 "OK" (Parsed body)) = inr JUndefined
  /\ sendMessage_resume (Response 200 "OK" (Parsed body)) s
     = setIsLoading false (setMessages (List.app (messages s) [reply]) s)
  /\ forall e, reply <> errorMessage e.
Proof.
  repeat split. intros e. unfold errorMessage. discriminate.
Qed.

Section Catalogue.

(** [localeCompare] is a consistent comparison, as [Array.prototype.sort]
    requires of its comparator. *)
Hypothesis localeCompare_antisym :
  forall a b, Z.sgn (localeCompare b a) = - Z.sgn (localeCompare a b).
Hypothesis localeCompare_trans :
  forall a b c,
    localeCompare a b <= 0 -> localeCompare b c <= 0 -> localeCompare a c <= 0.

(** C4. For every response to the listing request, the list of models
    that [fetchAvailableModels] stores (1) holds no entry whose id
    contains "free" and no entry with a context length below 4000,
    (2) is in catalogue order: the entries of [popularModels] first, in
    the order of that list, the remaining entries in alphabetical order
    of their display names, and (3) has at most 15 entries.  For a
    successful response it is moreover made of the first 15 of the
    kept entries, rearranged. *)
Theorem catalogue_filtered_ranked_capped (r : Fetched Listing) (s : State) :
  let models := availableModels (fetchAvailableModels_resume r s) in
  Forall (fun m => includes (id m) "free" = false /\ 4000 <= context_length m)
    models
  /\ StronglySorted inCatalogueOrder models
  /\ (length models <= 15)%nat
  /\ (forall status statusText l,
         r = Response status statusText (Parsed {| data := Some l |}) ->
         ok status = true ->
         exists sorted,
           Permutation sorted (map toModel (filter keepModel l))
           /\ models = firstn 15 sorted).
Proof.
  unfold fetchAvailableModels_resume.
  destruct (listModels r) as [e|models] eqn:L;
    cbn [availableModels setIsLoading setSetupStep setSelectedModel
           setAvailableModels setFinalModel].
  - repeat split; try constructor; try (cbn; lia).
    intros status statusText l -> O. simpl in L. rewrite O in L. discriminate.
  - destruct (listModels_inr r models L) as [l0 ->].
    destruct (rankModels_spec localeCompare_antisym localeCompare_trans l0)
    as (F & S & N & _).
    repeat split; try assumption.
    intros status statusText l -> O. simpl in L. rewrite O in L.
    simpl in L. inversion L as [E].
    destruct (rankModels_spec localeCompare_antisym localeCompare_trans l)
    as (_ & _ & _ & sorted & P1 & P2).
    exists sorted. split; [exact P1 | congruence].
Qed.

End Catalogue.

(** C6. For every chat turn that is submitted, the request carries the
    resolved model and the messages: a [system] entry with the system
    prompt of the active personality, then the transcript so far, in
    order, then the new message of the user; the transcript itself gains
    that message. *)
Theorem request_body_of_turn (s : State) :
  trim (input s) <> "" -> isLoading s = false -> finalApiKey s <> "" ->
  let turn := {| role := user; content := JString (trim (input s)) |} in
  snd (sendMessage_begin s)
  = [PostCompletion (finalApiKey s)
       {| req_model := finalModel s;
          req_messages :=
            {| role := system;
               content :=
                 JString (systemPrompt
                            (getPersonalityById (sor (finalPersonality s) "cheerful"))) |}
            :: List.app (messages s) [turn] |}]
  /\ messages (fst (sendMessage_begin s)) = List.app (messages s) [turn]
  /\ isLoading (fst (sendMessage_begin s)) = true.
Proof.
  intros T L K. unfold sendMessage_begin.
  apply truthy_true in T, K. rewrite T, L, K. cbn. repeat split.
Qed.


(** C8. A submission whose trimmed text is empty, or made while a request
    is in flight, or made without a credential, does nothing: the handler
    returns the state as it is and starts no request, and the program is
    left with the same state, the same actions and the same awaited
    operations. *)
Theorem submit_without_effect (p : Props) (sys : System) :
  trim (input (state sys)) = "" \/ isLoading (state sys) = true
  \/ finalApiKey (state sys) = "" ->
  sendMessage_begin (state sys) = (state sys, [])
  /\ state (step p sys InputSubmitted) = state sys
  /\ log (step p sys InputSubmitted) = log sys
  /\ pending (step p sys InputSubmitted) = pending sys.
Proof.
  intros H.
  assert (B : sendMessage_begin (state sys) = (state sys, [])).
  { unfold sendMessage_begin. destruct H as [H|[H|H]].
    - now rewrite H.
    - rewrite H. now rewrite orb_true_r.
    - rewrite H. cbn. now rewrite orb_true_r. }
  split; [exact B|].
  unfold step. destruct (exited sys); [auto|].
  unfold handle. destruct (chatInputShown (state sys)); [|auto].
  rewrite B. cbn [existsb]. unfold react. rewrite settle_same.
  cbn. now rewrite !app_nil_r.
Qed.

(** C10. When [--reconfigure] is given, the credential of the
    [--api-key] flag or of the environment variable never reaches [App]:
    the state starts without a credential, the program removes the saved
    configuration, shows the credential prompt once that is done, having
    entered no other step; and whenever setup is complete afterwards, the
    resolved configuration has been saved. *)
Theorem reconfigure_discards_credential
        (flags : Flags) (env : option string) (evs : list Event) :
  flag_reconfigure flags = true ->
  let p := cli_props flags env in
  initialApiKey p = None
  /\ finalApiKey (initialState p) = ""
  /\ (let sys := run p [ConfigCleared] in
      setupStep (state sys) = api_key
      /\ apiKeyInputShown (state sys) = true
      /\ finalApiKey (state sys) = ""
      /\ log sys = [ClearConfig]
      /\ Forall (fun st => st = api_key) (visited sys))
  /\ (setupStep (state (run p evs)) = complete ->
      In (SaveConfig (resolvedConfig (state (run p evs)))) (log (run p evs))).
Proof.
  intros F p.
  assert (I : initialApiKey p = None) by (subst p; unfold cli_props; now rewrite F).
  assert (R : reconfigure p = true) by (subst p; unfold cli_props; now rewrite F).
  assert (I' : otruthy (initialApiKey p) = false) by now rewrite I.
  split; [exact I|].
  split; [unfold initialState; cbn [finalApiKey]; now rewrite I|].
  split.
  - unfold run. cbn [fold_left]. rewrite (boot_clears p I' R).
    unfold step. cbn [exited handle take answers state pending].
    cbn [existsb isExit orb state log visited].
    set (s1 := personalityIndexEffect (initialState p)).
    destruct (personalityIndexEffect_frame (initialState p)) as (st1 & a1 & _).
    fold s1 in st1, a1. unfold initialState in st1, a1.
    cbn [setupStep finalApiKey] in st1, a1. rewrite I in a1. cbn in a1.
    unfold react.
    destruct (settle_reconfigure 3 p R s1 (loadSavedConfig_cleared s1))
      as (R1 & _ & _ & _ & R5).
    pose proof (settle_Sound 3 p [] s1 (loadSavedConfig_cleared s1)) as Snd.
    set (r := settle 3 p s1 (loadSavedConfig_cleared s1)) in *.
    cbn [setupStep loadSavedConfig_cleared setConfigLoaded] in R1, R5.
    rewrite st1 in R1, R5.
    assert (Fr : finalApiKey (fst (fst r)) = "" /\ configLoaded (fst (fst r)) = true
                 /\ snd (fst r) = []).
    { subst r.
      destruct (quiet p s1 (loadSavedConfig_cleared s1)) eqn:Q;
        [rewrite settle_quiet by exact Q; cbn; auto|].
      rewrite settle_round by exact Q. cbv zeta.
      rewrite runEffects_reconfigure; [|exact R|].
      - cbn [fst snd]. rewrite settle_same. cbn. auto.
      - unfold ready. cbn [setupStep loadSavedConfig_cleared setConfigLoaded].
        now rewrite st1. }
    destruct Fr as (Fa & Fc & Fl).
    unfold apiKeyInputShown. rewrite R1, Fa, Fc, Fl.
    repeat split. cbn [app]. do 3 (constructor; [auto|]). exact R5.
  - intros C.
    pose proof (complete_ready p evs C) as Rd.
    destruct (run_Greeted p evs Rd) as (_ & _ & S). now apply S.
Qed.

End Facts.

Lemma byteCompare_antisym (a b : string) :
  Z.sgn (Sample.byteCompare b a) = - Z.sgn (Sample.byteCompare a b).
Proof.
  unfold Sample.byteCompare. rewrite (String.compare_antisym b a).
  destruct (String.compare a b); reflexivity.
Qed.

Lemma byteCompare_le (a b : string) :
  Sample.byteCompare a b <= 0 <-> a = b \/ String_as_OT.lt a b.
Proof.
  unfold Sample.byteCompare.
  destruct (String.compare a b) eqn:E; split; intros H; try lia.
  - left. now apply String_as_OT.cmp_eq.
  - right. now apply String_as_OT.cmp_lt.
  - exfalso. destruct H as [->|H].
    + assert (X : String.compare b b = Eq) by now apply String_as_OT.cmp_eq.
      congruence.
    + apply String_as_OT.cmp_lt in H. unfold String_as_OT.cmp in H. congruence.
Qed.

Lemma byteCompare_trans (a b c : string) :
  Sample.byteCompare a b <= 0 -> Sample.byteCompare b c <= 0 ->
  Sample.byteCompare a c <= 0.
Proof.
  rewrite !byteCompare_le. intros [->|H1] [->|H2]; auto.
  right. now apply (String_as_OT.lt_trans a b c).
Qed.

Example trim_blank : trim "   " = "" /\ trim "" = "".
Proof. split; reflexivity. Qed.

Example trim_inner : trim "  fix my loop " = "fix my loop".
Proof. reflexivity. Qed.

Example trim_no_break_space : trim (bytes [194; 160; 107; 49; 9]%nat) = "k1".
Proof. reflexivity. Qed.

Example includes_free :
  includes "meta-llama/llama-3.3-8b-instruct:free" "free" = true
  /\ includes "openai/gpt-4" "free" = false.
Proof. split; reflexivity. Qed.

Example sort_is_stable :
  sort (fun a b => fst a - fst b) [(2, "a"); (1, "b"); (2, "c"); (1, "d")]
  = [(1, "b"); (1, "d"); (2, "a"); (2, "c")].
Proof. reflexivity. Qed.

(** The scenarios of the specification. *)
Example scenario_setup :
  let sys :=
    Run.run (cli_props Run.reconfigureFlags None)
      (List.app Run.untilPersonality [KeyPress "" returnKey]) in
  setupStep (state sys) = complete
  /\ log sys
     = [ClearConfig; GetModels "k1";
        SaveConfig {| apiKey := "k1"; model := "openai/gpt-4";
                      personality := "cheerful" |}]
  /\ messages (state sys)
     = [{| role := assistant; content := JString "Quack! (cheerful)" |}].
Proof. vm_compute. repeat split. Qed.

Example scenario_status_500 :
  let sys :=
    Run.step (cli_props Sample.noFlags None)
      (Run.step (cli_props Sample.noFlags None) (Run.typing "fix my loop") InputSubmitted)
      (CompletionFetched (Response 500 "Internal Server Error" (Unparsable ""))) in
  messages (state sys)
  = [ {| role := assistant; content := JString "Quack! (sarcastic)" |};
      {| role := user; content := JString "fix my loop" |};
      errorMessage (ErrorObject "OpenRouter API error: 500 Internal Server Error") ]
  /\ isLoading (state sys) = false.
Proof. vm_compute. repeat split. Qed.

(** The [--model] flag used alone, over a saved configuration: the
    configuration is written back twice, the second time with the model of
    the flag. *)
Example model_flag_alone_is_saved :
  let flags :=
    {| flag_apiKey := None; flag_model := Some "openai/gpt-4";
       flag_personality := None; flag_reconfigure := false |} in
  let saved :=
    {| saved_apiKey := Some "k1"; saved_model := Some "anthropic/claude-3-haiku";
       saved_personality := Some "sarcastic" |} in
  log (Run.run (cli_props flags None) [ConfigRead (Some saved)])
  = [ReadConfig;
     SaveConfig {| apiKey := "k1"; model := "anthropic/claude-3-haiku";
                   personality := "sarcastic" |};
     SaveConfig {| apiKey := "k1"; model := "openai/gpt-4";
                   personality := "sarcastic" |}].
Proof. reflexivity. Qed.

(** ** The claims on concrete inputs *)

(** C5 (the program does otherwise on a first run).  No flags, nothing
    saved: the user submits the credential "k1" and the listing request
    fails.  Once the credential is in the state, the setup-step effect
    enters the model step while the request is in flight; when the failure
    arrives, the list of models is empty and the fallback model is set, but
    the personality step set by the [catch] clause is left at once, for
    [complete], by the same effect: the personality defaults to "cheerful",
    so all pieces are there, and the configuration is saved with it. *)
Theorem first_run_fetch_failure_skips_personality_choice :
  let p := cli_props Sample.noFlags None in
  let before := Run.run p [ConfigRead None; ApiKeyTyped "k1"; ApiKeySubmitted] in
  let after :=
    Run.step p before (ModelsFetched (TransportError "getaddrinfo ENOTFOUND")) in
  setupStep (state before) = model_selection
  /\ pending before = [GetModels "k1"]
  /\ availableModels (state after) = []
  /\ finalModel (state after) = "anthropic/claude-3.5-sonnet"
  /\ setupStep (state after) = complete
  /\ finalPersonality (state after) = "cheerful"
  /\ log after
     = [ReadConfig; GetModels "k1";
        SaveConfig {| apiKey := "k1";
                      model := "anthropic/claude-3.5-sonnet";
                      personality := "cheerful" |}].
Proof. vm_compute. repeat split. Qed.

(** C9 (the program does otherwise when the model comes from the flag).
    [--model] is given, no credential, nothing saved: the user submits the
    credential "k1".  With the credential in the state all pieces are
    there, so the setup-step effect sets [complete] for the first time
    while the listing request is in flight: the transcript is the welcome
    message alone and input mode is on, but the busy flag is up, so the
    chat prompt is not on screen: text typed or submitted is refused.
    When the listing arrives, the step goes back to the model step. *)
Theorem complete_during_listing_refuses_input :
  let flags :=
    {| flag_apiKey := None; flag_model := Some "openai/gpt-4";
       flag_personality := None; flag_reconfigure := false |} in
  let p := cli_props flags None in
  let entered := Run.run p [ConfigRead None; ApiKeyTyped "k1"; ApiKeySubmitted] in
  let later := Run.step p entered (ModelsFetched Run.listingOk) in
  visited entered
  = [api_key; api_key; api_key; api_key; api_key; api_key; complete; complete]
  /\ setupStep (state entered) = complete
  /\ messages (state entered)
     = [{| role := assistant; content := JString "Quack! (cheerful)" |}]
  /\ isInputMode (state entered) = true
  /\ pending entered = [GetModels "k1"]
  /\ isLoading (state entered) = true
  /\ chatInputShown (state entered) = false
  /\ Run.step p entered (InputTyped "fix my loop") = entered
  /\ Run.step p entered InputSubmitted = entered
  /\ setupStep (state later) = model_selection.
Proof. vm_compute. repeat split. Qed.

(** C1 fails as stated: a saved record with a credential and a personality
    but no model does not lead to the model step; the flow is complete at
    once, with the default model.  Likewise a record without a personality
    does not lead to the personality step. *)
Lemma saved_record_without_model_skips_model_step :
  let p := cli_props Sample.noFlags None in
  let noModel :=
    {| saved_apiKey := Some "k1"; saved_model := None;
       saved_personality := Some "sarcastic" |} in
  let noPersonality :=
    {| saved_apiKey := Some "k1"; saved_model := Some "openai/gpt-4";
       saved_personality := None |} in
  (setupStep (state (Run.run p [ConfigRead (Some noModel)])) = complete
   /\ ~ In model_selection (visited (Run.run p [ConfigRead (Some noModel)]))
   /\ finalModel (state (Run.run p [ConfigRead (Some noModel)]))
      = "meta-llama/llama-3.3-8b-instruct:free")
  /\ (setupStep (state (Run.run p [ConfigRead (Some noPersonality)])) = complete
      /\ ~ In personality_selection
             (visited (Run.run p [ConfigRead (Some noPersonality)]))
      /\ finalPersonality (state (Run.run p [ConfigRead (Some noPersonality)]))
         = "cheerful").
Proof.
  vm_compute. repeat split; try (intros H; intuition discriminate).
Qed.

(** C1, on a saved record that lacks the model. *)
Lemma saved_credential_completes_setup_witness :
  let p := cli_props Sample.noFlags None in
  let saved :=
    {| saved_apiKey := Some "k1"; saved_model := None;
       saved_personality := Some "sarcastic" |} in
  (otruthy (initialApiKey p) = false /\ reconfigure p = false
   /\ otruthy (saved_apiKey saved) = true)
  /\ setupStep (state (Run.run p [ConfigRead (Some saved)])) = complete
  /\ finalModel (state (Run.run p [ConfigRead (Some saved)]))
     = "meta-llama/llama-3.3-8b-instruct:free".
Proof.
  intros p saved. split; [repeat split|].
  destruct (saved_credential_completes_setup (host := Sample.host) p saved eq_refl eq_refl eq_refl) as (S & _ & M & _).
  split; [exact S | exact M].
Defined.

(** C2 fails as stated: a credential that comes from the environment
    variable, with no flag at all, is not saved when setup completes. *)
Lemma environment_credential_is_not_saved :
  let sys :=
    Run.run (cli_props Sample.noFlags (Some "sk-env"))
      [ModelTyped "openai/gpt-4"; ModelSubmitted] in
  setupStep (state sys) = complete
  /\ resolvedConfig (state sys)
     = {| apiKey := "sk-env"; model := "openai/gpt-4"; personality := "cheerful" |}
  /\ log sys = []
  /\ forall c, ~ In (SaveConfig c) (log sys).
Proof.
  vm_compute. repeat split. intros c H. exact H.
Qed.

(** C2, with a credential from the flag, and with no credential given. *)
Lemma save_only_without_given_credential_witness :
  (let flags :=
     {| flag_apiKey := Some "sk-flag"; flag_model := None;
        flag_personality := None; flag_reconfigure := false |} in
   let sys :=
     Run.run (cli_props flags None) [ModelTyped "openai/gpt-4"; ModelSubmitted] in
   setupStep (state sys) = complete /\ forall c, ~ In (SaveConfig c) (log sys))
  /\ (let sys :=
        Run.run (cli_props Sample.noFlags None)
          [ConfigRead None; ApiKeyTyped "k1"; ApiKeySubmitted;
           ModelsFetched Run.listingOk; ModelTyped "openai/gpt-4"; ModelSubmitted] in
      setupStep (state sys) = complete
      /\ In (SaveConfig {| apiKey := "k1"; model := "openai/gpt-4";
                           personality := "cheerful" |}) (log sys)).
Proof.
  split.
  - intros flags sys. split; [reflexivity|].
    exact (proj1 (save_only_without_given_credential (host := Sample.host) flags None
                    [ModelTyped "openai/gpt-4"; ModelSubmitted])
             eq_refl eq_refl).
  - intros sys. split; [reflexivity|].
    exact (proj2 (save_only_without_given_credential (host := Sample.host) Sample.noFlags None
                    [ConfigRead None; ApiKeyTyped "k1"; ApiKeySubmitted;
                     ModelsFetched Run.listingOk; ModelTyped "openai/gpt-4";
                     ModelSubmitted])
             eq_refl eq_refl eq_refl eq_refl eq_refl eq_refl).
Defined.

(** C4, on a listing of six models, with strings compared byte by byte. *)
Lemma catalogue_filtered_ranked_capped_witness :
  let models :=
    availableModels
      (fetchAvailableModels_resume (host := Sample.host) Run.listingMixed
         (initialState (cli_props Sample.noFlags None))) in
  map id models
  = [ "anthropic/claude-3.5-sonnet"; "openai/gpt-4";
      "google/gemini-pro"; "mistralai/mistral-large" ]
  /\ Forall (fun m => includes (id m) "free" = false /\ 4000 <= context_length m)
       models
  /\ StronglySorted (inCatalogueOrder (host := Sample.host)) models
  /\ (length models <= 15)%nat.
Proof.
  intros models. split; [reflexivity|].
  destruct (catalogue_filtered_ranked_capped (host := Sample.host)
              byteCompare_antisym byteCompare_trans Run.listingMixed
              (initialState (cli_props Sample.noFlags None))) as (F & S & N & _).
  split; [exact F|]. split; [exact S | exact N].
Defined.

(** C6, on the first turn of a chat. *)
Lemma request_body_of_turn_witness :
  let s := state (Run.typing "  fix my loop ") in
  (trim (input s) <> "" /\ isLoading s = false /\ finalApiKey s <> "")
  /\ snd (sendMessage_begin (host := Sample.host) s)
     = [PostCompletion "k1"
          {| req_model := "openai/gpt-4";
             req_messages :=
               [ {| role := system;
                    content := JString "You are a sarcastic rubber duck." |};
                 {| role := assistant; content := JString "Quack! (sarcastic)" |};
                 {| role := user; content := JString "fix my loop" |} ] |}].
Proof.
  intros s.
  assert (T : trim (input s) <> "") by (vm_compute; discriminate).
  assert (L : isLoading s = false) by reflexivity.
  assert (K : finalApiKey s <> "") by (vm_compute; discriminate).
  split; [repeat split; assumption|].
  exact (proj1 (request_body_of_turn (host := Sample.host) s T L K)).
Defined.


(** C8, on a turn made of blanks. *)
Lemma submit_without_effect_witness :
  let p := cli_props Sample.noFlags None in
  let sys := Run.typing "   " in
  trim (input (state sys)) = ""
  /\ messages (state (Run.step p sys InputSubmitted)) = messages (state sys)
  /\ log (Run.step p sys InputSubmitted) = log sys.
Proof.
  intros p sys. split; [reflexivity|].
  destruct (submit_without_effect (host := Sample.host)
              p sys (or_introl eq_refl)) as (_ & S & L & _).
  split; [exact (f_equal messages S) | exact L].
Defined.

(** C10, with a credential in the flag and another in the environment. *)
Lemma reconfigure_discards_credential_witness :
  let evs :=
    List.app Run.untilPersonality [KeyPress "" downKey; KeyPress "" returnKey] in
  let p := cli_props Run.reconfigureFlags (Some "sk-env") in
  flag_reconfigure Run.reconfigureFlags = true
  /\ initialApiKey p = None
  /\ setupStep (state (Run.run p [ConfigCleared])) = api_key
  /\ In (SaveConfig {| apiKey := "k1"; model := "openai/gpt-4";
                       personality := "sarcastic" |})
       (log (Run.run p evs)).
Proof.
  intros evs p. split; [reflexivity|].
  destruct (reconfigure_discards_credential (host := Sample.host) Run.reconfigureFlags (Some "sk-env") evs eq_refl)
    as (I & _ & (S & _) & C).
  split; [exact I|]. split; [exact S|].
  exact (C eq_refl).
Defined.

(** ** More of the program *)

(** *** Strings *)

Lemma strip_prefix_app (p r : string) : strip_prefix p (p ++ r) = Some r.
Proof.
  induction p as [|a p IH]; simpl; [reflexivity|].
  now rewrite Ascii.eqb_refl.
Qed.

Lemma strip_prefix_spec (p s r : string) : strip_prefix p s = Some r -> s = p ++ r.
Proof.
  revert s. induction p as [|a p IH]; intros s H; simpl in *.
  - now inversion H.
  - destruct s as [|b s]; [discriminate|].
    destruct (Ascii.eqb_spec a b) as [->|]; [|discriminate].
    simpl. f_equal. now apply IH.
Qed.

Lemma append_nil_r (s : string) : s ++ "" = s.
Proof. induction s as [|a s IH]; simpl; [reflexivity | now rewrite IH]. Qed.

Lemma append_assoc (a b c : string) : (a ++ b) ++ c = a ++ (b ++ c).
Proof. induction a as [|x a IH]; simpl; [reflexivity | now rewrite IH]. Qed.

Lemma length_append (a b : string) :
  String.length (a ++ b) = (String.length a + String.length b)%nat.
Proof. induction a as [|x a IH]; simpl; [reflexivity | now rewrite IH]. Qed.

Lemma cut_spec (sub s before after : string) :
  cut sub s = Some (before, after) -> s = before ++ sub ++ after.
Proof.
  revert before. induction s as [|c s IH]; intros before H; simpl in H.
  - destruct (strip_prefix sub "") as [rest|] eqn:E; [|discriminate].
    inversion H; subst. exact (strip_prefix_spec _ _ _ E).
  - destruct (strip_prefix sub (String c s)) as [rest|] eqn:E.
    + inversion H; subst. exact (strip_prefix_spec _ _ _ E).
    + destruct (cut sub s) as [[b a]|]; [|discriminate].
      inversion H; subst. simpl. f_equal. now apply IH.
Qed.

Lemma cut_prefix (sub s rest : string) :
  strip_prefix sub s = Some rest -> cut sub s = Some ("", rest).
Proof. intros H. destruct s; simpl; now rewrite H. Qed.

Lemma cut_found (sub a b : string) : cut sub (a ++ sub ++ b) <> None.
Proof.
  induction a as [|c a IH]; simpl.
  - now rewrite (cut_prefix sub (sub ++ b) b (strip_prefix_app sub b)).
  - destruct (strip_prefix sub (String c (a ++ sub ++ b))); [discriminate|].
    destruct (cut sub (a ++ sub ++ b)) as [[x y]|]; [discriminate | contradiction].
Qed.

Lemma includes_cut (s sub : string) :
  includes s sub = true <-> cut sub s <> None.
Proof.
  induction s as [|c s IH]; simpl.
  - destruct (strip_prefix sub ""); split; congruence.
  - destruct (strip_prefix sub (String c s)); [split; congruence|].
    rewrite IH. destruct (cut sub s) as [[x y]|]; split; congruence.
Qed.

(** [s.includes(sub)] holds exactly when [sub] occurs in [s]. *)
Lemma includes_spec (s sub : string) :
  includes s sub = true <-> exists a b, s = a ++ sub ++ b.
Proof.
  rewrite includes_cut. split.
  - destruct (cut sub s) as [[a b]|] eqn:E; [|congruence].
    intros _. exists a, b. now apply cut_spec.
  - intros (a & b & ->). apply cut_found.
Qed.

Lemma concat_cons (x : string) (l : list string) :
  String.concat "" (x :: l) = x ++ String.concat "" l.
Proof. destruct l; simpl; [now rewrite append_nil_r | reflexivity]. Qed.

Lemma splitLines_cons (s : string) : exists line lines, splitLines s = line :: lines.
Proof.
  induction s as [|c s (line & lines & IH)]; simpl; [eauto|].
  destruct (Ascii.eqb c (ascii_of_nat 10)); [eauto|]. rewrite IH. eauto.
Qed.

(** Joining the lines of a string gives the string back. *)
Lemma joinLines_splitLines (s : string) : joinLines (splitLines s) = s.
Proof.
  unfold joinLines. induction s as [|c s IH]; [reflexivity|].
  simpl. destruct (splitLines_cons s) as (line & lines & E).
  destruct (Ascii.eqb_spec c (ascii_of_nat 10)) as [->|N].
  - rewrite E in *. simpl. simpl in IH. now rewrite IH.
  - rewrite E in *. destruct lines as [|l2 lines]; simpl in *; now rewrite IH.
Qed.

Lemma list_ascii_of_string_app (a b : string) :
  list_ascii_of_string (a ++ b)
  = List.app (list_ascii_of_string a) (list_ascii_of_string b).
Proof. induction a as [|x a IH]; simpl; [reflexivity | now rewrite IH]. Qed.

Lemma string_of_list_ascii_app (a b : list ascii) :
  string_of_list_ascii (List.app a b)
  = string_of_list_ascii a ++ string_of_list_ascii b.
Proof. induction a as [|x a IH]; simpl; [reflexivity | now rewrite IH]. Qed.

Lemma rev_string_app (a b : string) :
  rev_string (a ++ b) = rev_string b ++ rev_string a.
Proof.
  unfold rev_string.
  now rewrite list_ascii_of_string_app, rev_app_distr, string_of_list_ascii_app.
Qed.

Lemma substring_0_app (a b : string) : substring 0 (String.length a) (a ++ b) = a.
Proof.
  induction a as [|x a IH]; simpl.
  - destruct b; reflexivity.
  - now rewrite IH.
Qed.

Lemma fenced_shape (body : string) :
  startsWith (fence ++ body ++ fence) fence = true
  /\ endsWith (fence ++ body ++ fence) fence = true
  /\ slice3 (fence ++ body ++ fence) = body.
Proof.
  split; [reflexivity|]. split.
  - unfold endsWith. rewrite !rev_string_app. reflexivity.
  - unfold slice3. rewrite !length_append. cbn [fence String.length].
    replace (3 + (String.length body + 3) - 6)%nat with (String.length body) by lia.
    cbn [fence append substring]. apply substring_0_app.
Qed.

(** *** Rendering *)

Lemma strip_prefix_extend (sub x y r : string) :
  strip_prefix sub x = Some r -> strip_prefix sub (x ++ y) = Some (r ++ y).
Proof.
  intros H. apply strip_prefix_spec in H. subst x.
  rewrite append_assoc. apply strip_prefix_app.
Qed.

(** What stands before the first occurrence holds no occurrence. *)
Lemma cut_before (sub s before after : string) :
  cut sub s = Some (before, after) -> sub <> "" -> includes before sub = false.
Proof.
  intros H N. revert before H.
  induction s as [|c s IH]; intros before H; simpl in H.
  - destruct (strip_prefix sub "") as [rest|] eqn:E; [|discriminate].
    inversion H; subst. destruct sub; [congruence | reflexivity].
  - destruct (strip_prefix sub (String c s)) as [rest|] eqn:E.
    + inversion H; subst. destruct sub; [congruence | reflexivity].
    + destruct (cut sub s) as [[b a]|] eqn:C; [|discriminate].
      inversion H; subst. simpl.
      destruct (strip_prefix sub (String c b)) as [r|] eqn:P.
      * apply (strip_prefix_extend _ _ (sub ++ after)) in P.
        apply cut_spec in C. subst s. simpl in P. congruence.
      * now apply IH.
Qed.

Lemma cut_length (sub s before after : string) :
  cut sub s = Some (before, after) ->
  String.length s
  = (String.length before + String.length sub + String.length after)%nat.
Proof.
  intros H. apply cut_spec in H. subst s. rewrite !length_append. lia.
Qed.

(** The shape of the result of [splitFences_from] when the fuel suffices:
    the parts make up the content, their number is odd, and every second
    part is a block with no fence inside. *)
Lemma splitFences_from_spec (n : nat) :
  forall content,
    (String.length content < n)%nat ->
    String.concat "" (splitFences_from n content) = content
    /\ Nat.odd (length (splitFences_from n content)) = true
    /\ forall i part,
        nth_error (splitFences_from n content) (2 * i + 1) = Some part ->
        exists body, part = fence ++ body ++ fence /\ includes body fence = false.
Proof.
  induction n as [|n IH]; intros content L; [lia|].
  cbn [splitFences_from].
  destruct (cut fence content) as [[before after]|] eqn:C1.
  2:{ split; [reflexivity|]. split; [reflexivity|].
      intros i part H. replace (2 * i + 1)%nat with (S (2 * i)) in H by lia.
      cbn [nth_error] in H. destruct (2 * i)%nat; discriminate H. }
  destruct (cut fence after) as [[body rest]|] eqn:C2.
  2:{ split; [reflexivity|]. split; [reflexivity|].
      intros i part H. replace (2 * i + 1)%nat with (S (2 * i)) in H by lia.
      cbn [nth_error] in H. destruct (2 * i)%nat; discriminate H. }
  pose proof (cut_length _ _ _ _ C1) as L1.
  pose proof (cut_length _ _ _ _ C2) as L2.
  cbn [fence String.length] in L1, L2.
  destruct (IH rest) as (R1 & R2 & R3); [lia|].
  split; [|split].
  - rewrite !concat_cons, R1.
    apply cut_spec in C1, C2. subst content after.
    now rewrite !append_assoc.
  - cbn [length]. rewrite Nat.odd_succ, Nat.even_succ. exact R2.
  - intros [|i] part H.
    + cbn in H. inversion H; subst. exists body. split; [reflexivity|].
      apply (cut_before _ _ _ _ C2). discriminate.
    + replace (2 * S i + 1)%nat with (S (S (2 * i + 1))) in H by lia.
      cbn [nth_error] in H. now apply (R3 i).
Qed.

(** More fuel changes nothing. *)
Lemma splitFences_from_fuel (k : nat) :
  forall j content,
    (String.length content < k)%nat -> (String.length content < j)%nat ->
    splitFences_from k content = splitFences_from j content.
Proof.
  induction k as [|k IH]; intros [|j] content Lk Lj; try lia.
  cbn [splitFences_from].
  destruct (cut fence content) as [[before after]|] eqn:C1; [|reflexivity].
  destruct (cut fence after) as [[body rest]|] eqn:C2; [|reflexivity].
  pose proof (cut_length _ _ _ _ C1) as L1.
  pose proof (cut_length _ _ _ _ C2) as L2.
  cbn [fence String.length] in L1, L2.
  do 2 f_equal. apply IH; lia.
Qed.

(** X1. Splitting a content at its code blocks loses nothing: the parts,
    put together again, are the content; and their number is odd, text and
    code blocks taking turns. *)
Theorem splitFences_concat (content : string) :
  String.concat "" (splitFences content) = content
  /\ Nat.odd (length (splitFences content)) = true.
Proof.
  destruct (splitFences_from_spec (S (String.length content)) content)
    as (C & O & _); [lia|].
  now split.
Qed.

(** X2. Every second part of a content is a code block: it opens and closes
    with a fence and holds no fence in between, and it is drawn as a box
    whose language is the first line of the block, trimmed and in lower
    case, and whose code is the remaining lines. *)
Theorem code_blocks_render_as_boxes
        (toLowerCase : string -> string) (content : string) (i : nat) (part : string) :
  nth_error (splitFences content) (2 * i + 1) = Some part ->
  exists body,
    part = fence ++ body ++ fence
    /\ includes body fence = false
    /\ renderPart toLowerCase part
       = let language := toLowerCase (trim (hd "" (splitLines body))) in
         CodeBox (if truthy language then "Language: " ++ language else "Code")
           (sor language "text") (joinLines (tl (splitLines body))).
Proof.
  intros H.
  destruct (splitFences_from_spec (S (String.length content)) content)
    as (_ & _ & B); [lia|].
  destruct (B i part H) as (body & -> & F).
  exists body. split; [reflexivity|]. split; [exact F|].
  destruct (fenced_shape body) as (S1 & S2 & S3).
  unfold renderPart. now rewrite S1, S2, S3.
Qed.

(** X3. A content without a fence is drawn as text alone, one line of text
    per line of the content, and the lines joined by newlines are the
    content. *)
Theorem plain_text_renders_as_lines (toLowerCase : string -> string) (content : string) :
  includes content fence = false ->
  MessageRenderer toLowerCase (JString content) = ret [TextLines (splitLines content)]
  /\ joinLines (splitLines content) = content.
Proof.
  intros F. split; [|apply joinLines_splitLines].
  assert (C : cut fence content = None).
  { destruct (cut fence content) eqn:E; [|reflexivity].
    assert (I : includes content fence = true) by (apply includes_cut; congruence).
    congruence. }
  assert (S : startsWith content fence = false).
  { unfold startsWith. destruct (strip_prefix fence content) as [rest|] eqn:E;
      [|reflexivity].
    rewrite (cut_prefix _ _ _ E) in C. discriminate. }
  cbn [MessageRenderer]. unfold splitFences. cbn [splitFences_from].
  rewrite C. cbn [map]. unfold renderPart. now rewrite S.
Qed.

Lemma renderTranscript_app (toLowerCase : string -> string) (l : list Message)
      (m : Message) (rs : list (list Rendered)) :
  renderTranscript toLowerCase l = inr rs ->
  renderTranscript toLowerCase (List.app l [m])
  = match MessageRenderer toLowerCase (content m) with
    | inr r => inr (List.app rs [r])
    | inl e => inl e
    end.
Proof.
  revert rs. induction l as [|x l IH]; intros rs H; simpl in *.
  - inversion H; subst. destruct (MessageRenderer toLowerCase (content m)); reflexivity.
  - destruct (MessageRenderer toLowerCase (content x)) as [e|r]; simpl in *;
      [discriminate|].
    destruct (renderTranscript toLowerCase l) as [e|rest]; simpl in *;
      [discriminate|].
    inversion H; subst. rewrite (IH rest eq_refl).
    destruct (MessageRenderer toLowerCase (content m)); reflexivity.
Qed.

(** The chat view can be drawn exactly when every message is [textual]. *)
Lemma renderTranscript_textual (toLowerCase : string -> string) (l : list Message) :
  forallb textual l = true <-> exists rs, renderTranscript toLowerCase l = inr rs.
Proof.
  induction l as [|m l IH]; simpl.
  - split; eauto.
  - unfold textual at 1. destruct (content m); simpl;
      try (split; [discriminate | intros [rs H]; discriminate H]).
    rewrite IH. split.
    + intros [rs ->]. simpl. eauto.
    + intros [rs H]. destruct (renderTranscript toLowerCase l); simpl in H;
        [discriminate | eauto].
Qed.

(** X4. After a reply that is taken as a success, the transcript can be
    drawn exactly when the content of the reply is a string: a string is
    drawn after the messages before it, anything else (a missing content
    for one) makes [MessageRenderer] throw. *)
Theorem reply_renders_iff_string
        (toLowerCase : string -> string) (r : Fetched jsval) (s : State)
        (c : jsval) (rs : list (list Rendered)) :
  replyContent r = inr c ->
  renderTranscript toLowerCase (messages s) = inr rs ->
  (forall text,
      c = JString text ->
      renderTranscript toLowerCase (messages (sendMessage_resume r s))
      = inr (List.app rs [map (renderPart toLowerCase) (splitFences text)]))
  /\ ((forall text, c <> JString text) ->
      exists e,
        renderTranscript toLowerCase (messages (sendMessage_resume r s)) = inl e).
Proof.
  intros R T. rewrite (completion_success r s c R).
  replace (messages _) with (List.app (messages s) [{| role := assistant; content := c |}])
    by reflexivity.
  rewrite (renderTranscript_app _ _ _ _ T). cbn [content]. split.
  - intros text ->. reflexivity.
  - intros N. destruct c; cbn; eauto. now destruct (N s0).
Qed.

(** *** The catalogue and the model prompt *)

Section Prompt.

Context {host : Host}.

Lemma In_firstn {A : Type} (n : nat) (l : list A) (x : A) :
  In x (firstn n l) -> In x l.
Proof.
  intros H. rewrite <- (firstn_skipn n l). apply in_or_app. now left.
Qed.

Lemma rankModels_kept (l : list RawModel) (m : Model) :
  In m (rankModels l) ->
  exists raw, In raw l /\ keepModel raw = true /\ m = toModel raw.
Proof.
  unfold rankModels. intros H. apply In_firstn in H.
  apply (Permutation_in _ (sort_perm compareModels _)) in H.
  apply in_map_iff in H. destruct H as (raw & <- & Hraw).
  apply filter_In in Hraw. destruct Hraw. eauto.
Qed.

(** X5. After a listing that succeeds, the model prompt is filled in with
    "meta-llama/llama-3.3-8b-instruct:free", which is none of the models of
    the list (the list leaves out every id that contains "free"); submitted
    as it is, it becomes the model all the same, and the personality step
    follows. *)
Theorem prefilled_model_is_not_listed
        (r : Fetched Listing) (s : State) (models : list Model) :
  listModels r = inr models ->
  let s' := fetchAvailableModels_resume r s in
  selectedModel s' = "meta-llama/llama-3.3-8b-instruct:free"
  /\ availableModels s' = models
  /\ Forall (fun m => id m <> selectedModel s') models
  /\ finalModel (handleModelSubmit s') = "meta-llama/llama-3.3-8b-instruct:free"
  /\ setupStep (handleModelSubmit s') = personality_selection.
Proof.
  intros L s'.
  assert (E : s' = setIsLoading false
                     (setSetupStep model_selection
                        (setSelectedModel "meta-llama/llama-3.3-8b-instruct:free"
                           (setAvailableModels models s)))).
  { subst s'. unfold fetchAvailableModels_resume. now rewrite L. }
  rewrite E. clear E s'.
  cbn [selectedModel availableModels setIsLoading setSetupStep setSelectedModel
         setAvailableModels].
  split; [reflexivity|]. split; [reflexivity|]. split.
  - destruct (listModels_inr r models L) as [l ->].
    apply Forall_forall. intros m Hm F.
    destruct (rankModels_kept l m Hm) as (raw & _ & K & ->).
    apply keepModel_spec in K. destruct K as [K _].
    rewrite F in K. vm_compute in K. discriminate K.
  - unfold handleModelSubmit.
    cbn [selectedModel availableModels setIsLoading setSetupStep setSelectedModel
           setAvailableModels].
    replace (trim "meta-llama/llama-3.3-8b-instruct:free")
      with "meta-llama/llama-3.3-8b-instruct:free" by (vm_compute; reflexivity).
    cbn [truthy String.eqb Ascii.eqb Bool.eqb negb].
    destruct (existsb _ models || _); split; reflexivity.
Qed.

Lemma indexOf_from_range (i : Z) (l : list string) (x : string) :
  indexOf_from i l x = -1 \/ i <= indexOf_from i l x.
Proof.
  revert i. induction l as [|y l IH]; intros i; simpl; [now left|].
  destruct (y =? x)%string; [right; lia|].
  destruct (IH (i + 1)); [now left | right; lia].
Qed.

Lemma indexOf_popular_first (x : string) :
  indexOf popularModels x <> -1 -> indexOf popularModels x <= 0 ->
  x = "anthropic/claude-3.5-sonnet".
Proof.
  unfold indexOf, popularModels. cbn [indexOf_from].
  destruct (String.eqb_spec "anthropic/claude-3.5-sonnet" x) as [E|E]; [now intros|].
  intros N H. exfalso.
  change (indexOf_from (0 + 1)
            ["openai/gpt-4"; "anthropic/claude-3-haiku"; "openai/gpt-3.5-turbo"] x <= 0)
    in H.
  destruct (indexOf_from_range (0 + 1)
              ["openai/gpt-4"; "anthropic/claude-3-haiku"; "openai/gpt-3.5-turbo"] x);
    [contradiction | lia].
Qed.

Section First.

Hypothesis localeCompare_antisym :
  forall a b, Z.sgn (localeCompare b a) = - Z.sgn (localeCompare a b).
Hypothesis localeCompare_trans :
  forall a b c,
    localeCompare a b <= 0 -> localeCompare b c <= 0 -> localeCompare a c <= 0.

(** X6. When the listing holds "anthropic/claude-3.5-sonnet" with a context
    length of 4000 or more, that model heads the list of models, and it is
    the first bullet of the model prompt. *)
Theorem most_popular_model_comes_first
        (status : Z) (statusText : string) (l : list RawModel) (raw : RawModel)
        (s : State) :
  ok status = true ->
  In raw l ->
  raw_id raw = "anthropic/claude-3.5-sonnet" ->
  4000 <= raw_context_length raw ->
  let s' :=
    fetchAvailableModels_resume
      (Response status statusText (Parsed {| data := Some l |})) s in
  (exists m rest,
      availableModels s' = m :: rest /\ id m = "anthropic/claude-3.5-sonnet")
  /\ hd_error (modelBullets s') = Some "anthropic/claude-3.5-sonnet".
Proof.
  intros O I E C s'.
  assert (A : availableModels s' = rankModels l).
  { subst s'. unfold fetchAvailableModels_resume. simpl. rewrite O. reflexivity. }
  assert (K : keepModel raw = true).
  { unfold keepModel. rewrite E. apply andb_true_intro. split.
    - vm_compute. reflexivity.
    - now apply Z.leb_le. }
  assert (H : exists m rest,
             rankModels l = m :: rest /\ id m = "anthropic/claude-3.5-sonnet").
  { unfold rankModels.
    set (kept := map toModel (filter keepModel l)).
    assert (Ik : In (toModel raw) kept).
    { subst kept. apply in_map. apply filter_In. now split. }
    apply (Permutation_in _ (Permutation_sym (sort_perm compareModels kept))) in Ik.
    pose proof (sort_sorted compareModels
                  (compareModels_total localeCompare_antisym)
                  (compareModels_trans localeCompare_trans) kept) as S.
    destruct (sort compareModels kept) as [|m rest]; [destruct Ik|].
    exists m, (firstn 14 rest). split; [reflexivity|].
    destruct Ik as [Em|Ik]; [rewrite Em; exact E|].
    apply StronglySorted_inv in S. destruct S as [_ F].
    rewrite Forall_forall in F. specialize (F _ Ik).
    apply compareModels_le in F.
    assert (X : indexOf popularModels (id (toModel raw)) = 0).
    { cbn [id toModel]. rewrite E. reflexivity. }
    apply indexOf_popular_first; lia. }
  destruct H as (m & rest & Hr & Hm). split.
  - exists m, rest. split; [congruence | exact Hm].
  - unfold modelBullets. rewrite A, Hr. cbn [firstn map hd_error]. now rewrite Hm.
Qed.

End First.

End Prompt.

(** *** The first render and the configuration file *)

Section Boot.

Context {host : Host}.

Lemma personalityIndexEffect_rest (s : State) :
  isLoading (personalityIndexEffect s) = isLoading s
  /\ availableModels (personalityIndexEffect s) = availableModels s
  /\ messages (personalityIndexEffect s) = messages s
  /\ isInputMode (personalityIndexEffect s) = isInputMode s.
Proof.
  unfold personalityIndexEffect. destruct getPersonalityOptions; repeat split.
Qed.

(** While setup is needed and the state is not [ready], the effects do
    nothing. *)
Lemma runEffects_idle (p : Props) (f1 f2 : bool) (snap cur : State) :
  needsSetup p snap = true -> ready snap = false ->
  runEffects p f1 f2 snap cur = (cur, []).
Proof.
  intros N R. unfold runEffects, setupStepEffect. rewrite N.
  cbn [negb andb]. rewrite andb_false_r.
  unfold completeEffect. unfold ready in R. rewrite R.
  destruct f1, f2; reflexivity.
Qed.

(** X7. A configuration file that is missing or unreadable, or whose
    record holds no credential, is ignored as a whole: whatever model and
    personality it holds, the state is the initial one with the
    configuration marked as loaded, the credential prompt is shown and
    nothing is saved. *)
Theorem saved_record_without_credential_is_ignored
        (p : Props) (r : option SavedConfig) :
  otruthy (initialApiKey p) = false ->
  reconfigure p = false ->
  (forall saved, r = Some saved -> otruthy (saved_apiKey saved) = false) ->
  let sys := run p [ConfigRead r] in
  state sys = setConfigLoaded true (personalityIndexEffect (initialState p))
  /\ apiKeyInputShown (state sys) = true
  /\ log sys = [ReadConfig]
  /\ pending sys = []
  /\ Forall (fun st => st = api_key) (visited sys).
Proof.
  intros I R U. unfold run. cbn [fold_left]. rewrite (boot_reads p I R).
  unfold step. cbn [exited handle take answers state pending].
  cbn [existsb isExit orb state log visited].
  set (s1 := personalityIndexEffect (initialState p)).
  assert (E : loadSavedConfig_read r s1 = setConfigLoaded true s1).
  { unfold loadSavedConfig_read. destruct r as [saved|]; [|reflexivity].
    now rewrite (U saved eq_refl). }
  rewrite E. set (s' := setConfigLoaded true s1).
  destruct (personalityIndexEffect_frame (initialState p)) as (st1 & a1 & _ & _ & c1).
  fold s1 in st1, a1, c1. cbn [initialState setupStep finalApiKey configLoaded] in st1, a1, c1.
  rewrite (or_default_truthy _ _ I) in a1.
  assert (N : needsSetup p s' = true).
  { unfold needsSetup. subst s'. cbn [finalApiKey setConfigLoaded].
    rewrite I, a1. reflexivity. }
  assert (Rd : ready s' = false).
  { unfold ready. subst s'. cbn [setupStep finalApiKey setConfigLoaded].
    rewrite st1. reflexivity. }
  assert (Q : quiet p s1 s' = false).
  { unfold quiet, setupStepDeps_same. subst s'. cbn [configLoaded setConfigLoaded].
    rewrite c1. cbn [Bool.eqb]. now rewrite andb_false_r. }
  unfold react. rewrite settle_round by exact Q. cbv zeta.
  rewrite (runEffects_idle p _ _ s' s' N Rd). cbn [fst snd].
  rewrite settle_same. cbn [fst snd app filter].
  split; [reflexivity|]. split.
  - unfold apiKeyInputShown. subst s'. cbn [setupStep configLoaded setConfigLoaded].
    now rewrite st1.
  - split; [reflexivity|]. split; [reflexivity|].
    subst s'. cbn [setupStep setConfigLoaded]. rewrite st1.
    repeat constructor.
Qed.

Lemma sor_truthy (s d : string) : truthy s = true -> sor s d = s.
Proof. unfold sor. now intros ->. Qed.

(** The effects leave the busy flag, the list of models and the text of
    the prompts alone. *)
Lemma runEffects_rest (p : Props) (f1 f2 : bool) (snap cur : State) :
  let s := fst (runEffects p f1 f2 snap cur) in
  isLoading s = isLoading cur /\ availableModels s = availableModels cur
  /\ input s = input cur /\ selectedModel s = selectedModel cur
  /\ tempApiKey s = tempApiKey cur
  /\ selectedPersonalityIndex s = selectedPersonalityIndex cur.
Proof.
  unfold runEffects, setupStepEffect, completeEffect.
  destruct f1, f2; split_ifs; cbn; repeat split.
Qed.

Lemma settle_rest (n : nat) (p : Props) :
  forall prev cur,
    let s := fst (fst (settle n p prev cur)) in
    isLoading s = isLoading cur /\ availableModels s = availableModels cur
    /\ input s = input cur /\ selectedModel s = selectedModel cur
    /\ tempApiKey s = tempApiKey cur
    /\ selectedPersonalityIndex s = selectedPersonalityIndex cur.
Proof.
  induction n as [|n IH]; intros prev cur; cbn [settle].
  - cbn. repeat split.
  - destruct (quiet p prev cur); [cbn; repeat split|]. cbn [fst snd].
    destruct (runEffects_rest p (negb (setupStepDeps_same p prev cur))
                (negb (completeDeps_same prev cur)) cur cur)
      as (a & b & c & d & e & f).
    destruct (IH cur (fst (runEffects p (negb (setupStepDeps_same p prev cur))
                             (negb (completeDeps_same prev cur)) cur cur)))
      as (a' & b' & c' & d' & e' & f').
    cbv zeta in *. repeat split; congruence.
Qed.

(** With a credential handed to [App], the effects start no action. *)
Lemma settle_log_given_credential (n : nat) (p : Props) :
  otruthy (initialApiKey p) = true ->
  forall prev cur, snd (fst (settle n p prev cur)) = [].
Proof.
  intros I. induction n as [|n IH]; intros prev cur; cbn [settle]; [reflexivity|].
  destruct (quiet p prev cur); [reflexivity|].
  cbn [fst snd]. rewrite IH, app_nil_r.
  unfold runEffects, completeEffect. rewrite I. cbn [negb].
  split_ifs; reflexivity.
Qed.

(** The first render with a credential: the configuration file is left
    alone, and the effects run on the initial state marked as loaded. *)
Lemma boot_given_credential (p : Props) :
  otruthy (initialApiKey p) = true ->
  let s2 := setConfigLoaded true (personalityIndexEffect (initialState p)) in
  boot p = {| state := fst (fst (react p (initialState p) s2));
              log := [];
              visited := api_key :: setupStep s2 :: snd (react p (initialState p) s2);
              pending := [];
              exited := false |}.
Proof.
  intros I s2. unfold boot, mount. rewrite mount_effects.
  unfold loadSavedConfig_begin. rewrite I. cbn [fst snd app]. fold s2.
  unfold react. rewrite (settle_log_given_credential 3 p I). reflexivity.
Qed.

(** X8. With a credential and a model handed to [App], and no
    reconfiguration, the program is in the chat at once: the resolved
    configuration is made of what was handed over (the personality
    "cheerful" when none was), the welcome message is the only message,
    the chat prompt is shown, and the configuration file is neither read
    nor written. *)
Theorem credential_and_model_start_the_chat (p : Props) :
  otruthy (initialApiKey p) = true ->
  otruthy (initialModel p) = true ->
  reconfigure p = false ->
  let sys := boot p in
  resolvedConfig (state sys)
  = {| apiKey := or_default (initialApiKey p) "";
       model := or_default (initialModel p) "";
       personality := or_default (initialPersonality p) "cheerful" |}
  /\ chatInputShown (state sys) = true
  /\ messages (state sys) = [welcome (or_default (initialPersonality p) "cheerful")]
  /\ log sys = []
  /\ pending sys = [].
Proof.
  intros I M R sys.
  pose proof (boot_Greeted p) as G. fold sys in G.
  destruct (boot_Sound p) as [[_ Sd] _]. fold sys in Sd.
  subst sys. rewrite (boot_given_credential p I) in *. cbn [state log pending] in *.
  set (s0 := initialState p) in *.
  set (s2 := setConfigLoaded true (personalityIndexEffect s0)) in *.
  destruct (personalityIndexEffect_frame s0) as (_ & a1 & m1 & p1 & _).
  destruct (personalityIndexEffect_rest s0) as (l1 & _).
  assert (A : allPieces p s2 = true).
  { unfold allPieces, needsSetup. subst s2.
    cbn [finalApiKey finalModel finalPersonality configLoaded setConfigLoaded].
    rewrite a1, m1, p1. subst s0. cbn [initialState finalApiKey finalModel finalPersonality].
    rewrite !truthy_or_default, I, M, R. cbn. now rewrite orb_true_r. }
  assert (D : setupStepDeps_same p s0 s2 = false).
  { unfold setupStepDeps_same. subst s2 s0. cbn [configLoaded setConfigLoaded initialState].
    cbn [Bool.eqb]. now rewrite andb_false_r. }
  destruct (settle_allPieces 2 p s0 s2 A D) as (R1 & R2 & R3 & R4 & _).
  destruct (settle_rest 3 p s0 s2) as (L & _).
  unfold react in *. set (s := fst (fst (settle 3 p s0 s2))) in *.
  assert (E2 : finalApiKey s = or_default (initialApiKey p) "").
  { rewrite R2. subst s2. cbn [finalApiKey setConfigLoaded]. rewrite a1.
    subst s0. cbn [initialState finalApiKey]. apply or_default_idem. }
  assert (E3 : finalModel s = or_default (initialModel p) "").
  { rewrite R3. subst s2. cbn [finalModel setConfigLoaded]. rewrite m1.
    subst s0. cbn [initialState finalModel]. apply or_default_idem. }
  assert (E4 : finalPersonality s = or_default (initialPersonality p) "cheerful").
  { rewrite R4. subst s2. cbn [finalPersonality setConfigLoaded]. rewrite p1.
    subst s0. cbn [initialState finalPersonality]. apply or_default_idem. }
  assert (N : setupStep s <> api_key) by (rewrite R1; discriminate).
  destruct (Sd N) as [K C].
  assert (Rd : ready s = true).
  { unfold ready. now rewrite R1, K, C. }
  destruct (G Rd) as (Gi & (turns & Gm & Gt) & _).
  split; [unfold resolvedConfig; now rewrite E2, E3, E4|].
  split.
  - unfold chatInputShown. rewrite R1, Gi, L. subst s2.
    cbn [isLoading setConfigLoaded]. rewrite l1. reflexivity.
  - split; [|split; reflexivity].
    rewrite Gm, (Gt eq_refl), E4. rewrite sor_truthy; [reflexivity|].
    rewrite truthy_or_default. apply orb_true_r.
Qed.

(** X9. With a credential handed to [App] but no model, and no
    reconfiguration, the program shows the model prompt without having
    asked for the list of models: the list is empty and no request was
    made.  Once a model is submitted, setup is complete at once, with the
    personality handed over or "cheerful": the personality step is left as
    soon as it is entered, and nothing is saved. *)
Theorem credential_without_model_asks_for_the_model (p : Props) :
  otruthy (initialApiKey p) = true ->
  otruthy (initialModel p) = false ->
  reconfigure p = false ->
  (let sys := boot p in
   modelInputShown (state sys) = true
   /\ availableModels (state sys) = []
   /\ selectedModel (state sys) = ""
   /\ log sys = []
   /\ pending sys = [])
  /\ (forall text,
         trim text <> "" ->
         let sys := run p [ModelTyped text; ModelSubmitted] in
         resolvedConfig (state sys)
         = {| apiKey := or_default (initialApiKey p) "";
              model := trim text;
              personality := or_default (initialPersonality p) "cheerful" |}
         /\ chatInputShown (state sys) = true
         /\ messages (state sys)
            = [welcome (or_default (initialPersonality p) "cheerful")]
         /\ log sys = []).
Proof.
  intros I M R.
  set (s0 := initialState p).
  set (s2 := setConfigLoaded true (personalityIndexEffect s0)).
  set (s3 := setSetupStep model_selection s2).
  destruct (personalityIndexEffect_frame s0) as (st1 & a1 & m1 & p1 & c1).
  destruct (personalityIndexEffect_rest s0) as (l1 & v1 & _).
  assert (Fa : finalApiKey s2 = or_default (initialApiKey p) "")
    by (subst s2; cbn [finalApiKey setConfigLoaded]; now rewrite a1).
  assert (Fm : finalModel s2 = "").
  { subst s2. cbn [finalModel setConfigLoaded]. rewrite m1. subst s0.
    cbn [initialState finalModel]. now apply or_default_truthy. }
  assert (Fp : finalPersonality s2 = or_default (initialPersonality p) "cheerful")
    by (subst s2; cbn [finalPersonality setConfigLoaded]; now rewrite p1).
  assert (Fs : setupStep s2 = api_key)
    by (subst s2; cbn [setupStep setConfigLoaded]; now rewrite st1).
  assert (Ka : truthy (finalApiKey s2) = true)
    by (rewrite Fa, truthy_or_default, I; reflexivity).
  assert (Kp : truthy (or_default (initialPersonality p) "cheerful") = true)
    by (rewrite truthy_or_default; apply orb_true_r).
  assert (N2 : forall s, needsSetup p s = false).
  { intros s. unfold needsSetup. now rewrite I, R. }
  assert (B : react p s0 s2 = (s3, [], [model_selection; model_selection])).
  { unfold react.
    assert (Q : quiet p s0 s2 = false).
    { unfold quiet, setupStepDeps_same. subst s2 s0.
      cbn [configLoaded setConfigLoaded initialState Bool.eqb].
      now rewrite andb_false_r. }
    rewrite settle_round by exact Q. cbv zeta.
    assert (D1 : setupStepDeps_same p s0 s2 = false).
    { unfold setupStepDeps_same. subst s2 s0.
      cbn [configLoaded setConfigLoaded initialState Bool.eqb].
      now rewrite andb_false_r. }
    assert (D2 : completeDeps_same s0 s2 = false).
    { unfold completeDeps_same. subst s2 s0.
      cbn [configLoaded setConfigLoaded initialState Bool.eqb].
      now rewrite andb_false_r. }
    rewrite D1, D2. cbn [negb].
    assert (E1 : runEffects p true true s2 s2 = (s3, [])).
    { unfold runEffects, setupStepEffect, completeEffect.
      rewrite (N2 s2), Ka, Fm, Fs, M.
      replace (configLoaded s2) with true by reflexivity.
      reflexivity. }
    rewrite E1. cbn [fst snd].
    assert (Q3 : quiet p s2 s3 = false).
    { unfold quiet, completeDeps_same. subst s3. cbn [setupStep setSetupStep].
      rewrite Fs. cbn [SetupStep_eqb andb]. apply andb_false_r. }
    rewrite settle_round by exact Q3. cbv zeta.
    assert (E2 : fst (runEffects p (negb (setupStepDeps_same p s2 s3))
                        (negb (completeDeps_same s2 s3)) s3 s3) = s3
                 /\ snd (runEffects p (negb (setupStepDeps_same p s2 s3))
                           (negb (completeDeps_same s2 s3)) s3 s3) = []).
    { assert (D3 : setupStepDeps_same p s2 s3 = true).
      { unfold setupStepDeps_same. rewrite !N2. subst s3.
        cbn [configLoaded finalApiKey finalModel finalPersonality setSetupStep].
        now rewrite !Bool.eqb_reflx, !String.eqb_refl. }
      rewrite D3. cbn [negb]. unfold runEffects, completeEffect.
      destruct (negb (completeDeps_same s2 s3)); split; reflexivity. }
    destruct E2 as [E2 E3]. rewrite E2, E3, settle_same. reflexivity. }
  assert (Bt : boot p = {| state := s3; log := [];
                           visited := [api_key; api_key; model_selection; model_selection];
                           pending := []; exited := false |}).
  { rewrite (boot_given_credential p I). fold s0. fold s2. rewrite B.
    cbn [fst snd]. now rewrite Fs. }
  assert (L3 : isLoading s3 = false).
  { subst s3 s2. cbn [isLoading setSetupStep setConfigLoaded]. now rewrite l1. }
  split.
  - cbv zeta. rewrite Bt. cbn [state log pending].
    split; [unfold modelInputShown; now rewrite L3|].
    split; [subst s3 s2; cbn [availableModels setSetupStep setConfigLoaded];
            now rewrite v1|].
    split; [|split; reflexivity].
    subst s3 s2. cbn [selectedModel setSetupStep setConfigLoaded].
    unfold personalityIndexEffect. destruct getPersonalityOptions; reflexivity.
  - intros text T sys.
    pose proof (run_Greeted p [ModelTyped text; ModelSubmitted]) as G.
    pose proof (run_Sound p [ModelTyped text; ModelSubmitted]) as [_ Sd].
    fold sys in G, Sd.
    assert (X : setupStep (state sys) = complete
                /\ finalApiKey (state sys) = or_default (initialApiKey p) ""
                /\ finalModel (state sys) = trim text
                /\ finalPersonality (state sys)
                   = or_default (initialPersonality p) "cheerful"
                /\ isLoading (state sys) = false
                /\ log sys = []).
    { subst sys. unfold run. cbn [fold_left]. rewrite Bt.
      (* the model is typed *)
      set (s4 := setSelectedModel text s3).
      assert (S1 : step p {| state := s3; log := [];
                             visited := [api_key; api_key; model_selection; model_selection];
                             pending := []; exited := false |} (ModelTyped text)
                   = {| state := s4; log := [];
                        visited := [api_key; api_key; model_selection; model_selection;
                                    model_selection];
                        pending := []; exited := false |}).
      { unfold step. cbn [exited handle state pending].
        unfold modelInputShown. rewrite L3. cbn [setupStep setSetupStep s3 SetupStep_eqb
                                                  andb negb existsb].
        unfold react. rewrite settle_quiet; [reflexivity|].
        apply quiet_frame; reflexivity. }
      rewrite S1.
      (* the model is submitted *)
      set (s5 := setSetupStep personality_selection (setFinalModel (trim text) s4)).
      assert (H5 : handleModelSubmit s4 = s5).
      { unfold handleModelSubmit. subst s4. cbn [selectedModel setSelectedModel].
        apply truthy_true in T. rewrite T. cbn [negb].
        destruct (existsb _ _ || _); reflexivity. }
      assert (A : allPieces p s5 = true).
      { unfold allPieces. rewrite N2. subst s5 s4 s3.
        cbn [configLoaded finalApiKey finalModel finalPersonality setSetupStep
               setFinalModel setSelectedModel].
        rewrite Ka, Fp, Kp. apply truthy_true in T. rewrite T. reflexivity. }
      assert (D : setupStepDeps_same p s4 s5 = false).
      { unfold setupStepDeps_same. subst s5 s4 s3.
        cbn [configLoaded finalApiKey finalModel finalPersonality setSetupStep
               setFinalModel setSelectedModel].
        rewrite Fm.
        assert (E : ("" =? trim text)%string = false).
        { apply String.eqb_neq. congruence. }
        rewrite E. now rewrite andb_false_r. }
      destruct (settle_allPieces 2 p s4 s5 A D) as (R1 & R2 & R3 & R4 & _).
      destruct (settle_rest 3 p s4 s5) as (L & _).
      unfold step. cbn [exited handle state pending log visited].
      unfold modelInputShown.
      replace (isLoading s4) with false by (symmetry; exact L3).
      cbn [setupStep setSelectedModel setSetupStep s4 s3 SetupStep_eqb andb negb existsb].
      rewrite H5. unfold react.
      rewrite (settle_log_given_credential 3 p I). cbn [state log app].
      rewrite R1, R2, R3, R4, L.
      subst s5 s4 s3.
      cbn [configLoaded finalApiKey finalModel finalPersonality setSetupStep
             setFinalModel setSelectedModel isLoading].
      rewrite Fa, Fp, !or_default_idem, (or_default_truthy _ _ M).
      repeat split. exact L3. }
    destruct X as (X1 & X2 & X3 & X4 & X5 & X6).
    assert (Nk : setupStep (state sys) <> api_key) by (rewrite X1; discriminate).
    destruct (Sd Nk) as [K C].
    assert (Rd : ready (state sys) = true).
    { unfold ready. now rewrite X1, K, C. }
    destruct (G Rd) as (Gi & (turns & Gm & Gt) & _).
    split; [unfold resolvedConfig; now rewrite X2, X3, X4|].
    split; [unfold chatInputShown; now rewrite X1, Gi, X5|].
    split; [|exact X6].
    rewrite Gm, (Gt eq_refl), X4. now rewrite sor_truthy.
Qed.

End Boot.

(** *** What holds of every run *)

Section Runs.

Context {host : Host}.

(** **** The save started last *)

Lemma lastSaveStarted_app (l1 l2 : list Action) :
  lastSaveStarted (List.app l1 l2)
  = match lastSaveStarted l2 with Some c => Some c | None => lastSaveStarted l1 end.
Proof.
  induction l1 as [|a l1 IH]; simpl.
  - now destruct (lastSaveStarted l2).
  - rewrite IH. destruct (lastSaveStarted l2); [reflexivity|].
    reflexivity.
Qed.

Lemma lastSaveStarted_none (l : list Action) :
  existsb isSave l = false -> lastSaveStarted l = None.
Proof.
  induction l as [|a l IH]; simpl; [reflexivity|].
  intros H. apply orb_false_elim in H. destruct H as [Ha Hl].
  rewrite (IH Hl). now destruct a.
Qed.

Lemma SaveStarted_transfer (p : Props) (s t : State) (done done' : list Action) :
  completeDeps_same s t = true ->
  lastSaveStarted done' = lastSaveStarted done ->
  SaveStarted p s done -> SaveStarted p t done'.
Proof.
  intros D L G R N.
  apply completeDeps_same_eq in D. destruct D as (Ds & Da & Dm & Dp & Dc).
  assert (Rs : ready s = true).
  { unfold ready in *. now rewrite Ds, Da, Dc. }
  rewrite L, (G Rs N). unfold resolvedConfig. now rewrite Da, Dm, Dp.
Qed.

Lemma Settles_SaveStarted (p : Props) (prev cur : State) r :
  Settles p prev cur r ->
  forall done,
    (completeDeps_same prev cur = true -> SaveStarted p cur done) ->
    SaveStarted p (fst (fst r)) (List.app done (snd (fst r))).
Proof.
  induction 1 as [prev cur Q | prev cur r Q next H IH]; intros done G; simpl.
  - rewrite app_nil_r. apply G.
    unfold quiet in Q. now apply andb_prop in Q.
  - rewrite app_assoc. apply IH. intros D.
    subst next. unfold runEffects in *.
    set (s1 := if negb (setupStepDeps_same p prev cur)
               then setupStepEffect p cur cur else cur) in *.
    destruct (completeDeps_same prev cur) eqn:C; cbn [negb] in *.
    + apply (SaveStarted_transfer p cur s1 done); auto.
      cbn [snd]. now rewrite app_nil_r.
    + intros R N.
      apply completeDeps_same_eq in D. destruct D as (Ds & Da & Dm & Dp & Dc).
      assert (Rc : ready cur = true).
      { unfold ready in *. now rewrite Ds, Da, Dc. }
      clear R. unfold completeEffect in *. unfold ready in Rc.
      rewrite Rc in *. cbn [fst snd] in *. rewrite N. cbn [negb].
      rewrite lastSaveStarted_app. cbn [lastSaveStarted].
      unfold resolvedConfig. now rewrite <- Da, <- Dm, <- Dp.
Qed.

Lemma step_SaveStarted (p : Props) (sys : System) (ev : Event) :
  SaveStarted p (state sys) (log sys) ->
  SaveStarted p (state (step p sys ev)) (log (step p sys ev)).
Proof.
  intros G. unfold step.
  destruct (exited sys); [exact G|].
  destruct (handle ev sys) as [[[s' acts] waiting]|] eqn:H; [|exact G].
  pose proof (handle_no_save ev sys _ H) as Ha. cbn [fst snd] in Ha.
  destruct (existsb isExit acts); simpl.
  - apply (SaveStarted_transfer p (state sys) (state sys) (log sys)); auto.
    + apply completeDeps_same_refl.
    + now rewrite lastSaveStarted_app, (lastSaveStarted_none _ Ha).
  - rewrite app_assoc.
    apply (Settles_SaveStarted p (state sys) s' _ (react_Settles p (state sys) s')).
    intros D.
    apply (SaveStarted_transfer p (state sys) s' (log sys)); auto.
    now rewrite lastSaveStarted_app, (lastSaveStarted_none _ Ha).
Qed.

Lemma boot_SaveStarted (p : Props) : SaveStarted p (state (boot p)) (log (boot p)).
Proof.
  unfold boot, mount. cbn [state log fst snd].
  rewrite app_assoc.
  apply (Settles_SaveStarted p _ _ _ (react_Settles p _ _)).
  intros D R. exfalso.
  apply completeDeps_same_eq in D. destruct D as (Ds & _).
  unfold ready in R. rewrite <- Ds in R. discriminate R.
Qed.

Lemma run_SaveStarted (p : Props) (evs : list Event) :
  SaveStarted p (state (run p evs)) (log (run p evs)).
Proof.
  unfold run.
  assert (A : forall sys,
             SaveStarted p (state sys) (log sys) ->
             SaveStarted p (state (fold_left (step p) evs sys))
               (log (fold_left (step p) evs sys))).
  { induction evs as [|ev evs IH]; intros sys G; simpl; [exact G|].
    apply IH. now apply step_SaveStarted. }
  apply A. apply boot_SaveStarted.
Qed.

(** X10. Whatever happens, when setup is complete and [App] was handed no
    credential, a call of [saveConfig] has been started with the
    configuration that the state holds, and no call was started after it:
    no change of the configuration in use is left without a save.  (The
    calls are not awaited; which write reaches the file last, when a run
    starts several, is not part of the statement.) *)
Theorem last_save_started_carries_the_configuration (p : Props) (evs : list Event) :
  otruthy (initialApiKey p) = false ->
  setupStep (state (run p evs)) = complete ->
  lastSaveStarted (log (run p evs)) = Some (resolvedConfig (state (run p evs))).
Proof.
  intros N C. apply run_SaveStarted; [|exact N]. now apply complete_ready.
Qed.

(** **** Models, credentials and roles *)

Lemma setupStepEffect_Chosen (p : Props) (cur : State) :
  Chosen p cur -> Chosen p (setupStepEffect p cur cur).
Proof.
  unfold Chosen, setupStepEffect. intros [A B].
  destruct (negb (needsSetup p cur) && configLoaded cur && truthy (finalApiKey cur)
            && truthy (finalModel cur) && truthy (finalPersonality cur)) eqn:E1.
  - apply andb_prop in E1. destruct E1 as [E1 _].
    apply andb_prop in E1. destruct E1 as [_ T].
    cbn [finalModel setupStep setFinalPersonality setFinalModel setFinalApiKey
           setSetupStep].
    rewrite truthy_or_default, T, orb_true_r. auto.
  - destruct (configLoaded cur && negb (needsSetup p cur)); [|auto].
    destruct (negb (truthy (finalApiKey cur)) && negb (otruthy (initialApiKey p)));
      [cbn; split; [exact A | intros [H|H]; discriminate H]|].
    destruct (negb (truthy (finalModel cur)) && negb (otruthy (initialModel p))) eqn:E2;
      [cbn; split; [exact A | intros [H|H]; discriminate H]|].
    assert (T : truthy (finalModel cur) = true).
    { destruct (truthy (finalModel cur)); [reflexivity|].
      destruct (otruthy (initialModel p)); [now apply A | discriminate E2]. }
    destruct (negb (truthy (finalPersonality cur))
              && negb (otruthy (initialPersonality p))); cbn; auto.
Qed.

Lemma onKey_Chosen (p : Props) (i : string) (k : Key) (s : State) :
  Chosen p s ->
  Chosen p (fst (onKey i k s))
  /\ messages (fst (onKey i k s)) = messages s
  /\ Forall wellFormed (snd (onKey i k s)).
Proof.
  intros [A B]. unfold onKey.
  destruct (escape k); [repeat split; auto; repeat constructor|].
  destruct (ctrl k && (i =? "c")%string); [repeat split; auto; repeat constructor|].
  destruct (setupStep s) eqn:St.
  1, 3, 4: cbn [fst snd]; repeat split; try constructor; try exact A;
    intros H; rewrite St in H; exact (B H).
  assert (T : truthy (finalModel s) = true) by (apply B; now left).
  destruct (upArrow k); [cbn; repeat split; auto; try constructor|].
  destruct (downArrow k); [cbn; repeat split; auto; try constructor|].
  destruct (return_ k); [|cbn; repeat split; auto; try constructor].
  destruct (optionAt _); cbn; repeat split; auto; try constructor.
Qed.

Lemma runEffects_Inv (p : Props) (f1 f2 : bool) (cur : State) :
  Inv p cur ->
  Inv p (fst (runEffects p f1 f2 cur cur))
  /\ Forall wellFormed (snd (runEffects p f1 f2 cur cur)).
Proof.
  intros [C M]. unfold runEffects.
  set (s1 := if f1 then setupStepEffect p cur cur else cur).
  assert (I1 : Inv p s1).
  { subst s1. destruct f1; [|now split]. split.
    - now apply setupStepEffect_Chosen.
    - destruct (setupStepEffect_frame p cur cur) as (a & _). now rewrite a. }
  destruct f2; [|split; [exact I1 | constructor]].
  destruct I1 as [C1 M1]. unfold completeEffect.
  destruct (SetupStep_eqb (setupStep cur) complete && truthy (finalApiKey cur)
            && configLoaded cur); cbn [fst snd].
  - split.
    + split; [exact C1|]. cbn [messages setIsInputMode setMessages].
      constructor; [discriminate | constructor].
    + destruct (negb (otruthy (initialApiKey p))); repeat constructor.
  - split; [now split | constructor].
Qed.

Lemma settle_Inv (n : nat) (p : Props) :
  forall prev cur,
    Inv p cur ->
    Inv p (fst (fst (settle n p prev cur)))
    /\ Forall wellFormed (snd (fst (settle n p prev cur))).
Proof.
  induction n as [|n IH]; intros prev cur I; cbn [settle].
  - split; [exact I | constructor].
  - destruct (quiet p prev cur); [split; [exact I | constructor]|].
    cbn [fst snd].
    destruct (runEffects_Inv p (negb (setupStepDeps_same p prev cur))
                (negb (completeDeps_same prev cur)) cur I) as [I1 W1].
    destruct (IH cur _ I1) as [I2 W2].
    split; [exact I2|]. apply Forall_app. now split.
Qed.

Lemma handle_Inv (p : Props) (ev : Event) (sys : System) r :
  Inv p (state sys) ->
  handle ev sys = Some r ->
  Inv p (fst (fst r)) /\ Forall wellFormed (snd (fst r)).
Proof.
  intros [[A B] M] H. unfold handle in H.
  destruct ev as [i k|v| |v| |v| | |r0|r0|r0]; simpl in H.
  1-7: match type of H with
       | (if ?c then _ else _) = _ => destruct c eqn:Shown; [|discriminate]
       end; inversion H; subst; clear H; cbn [fst snd].
  8-11: destruct (take _ (pending sys)) as [rest|] eqn:T; [|discriminate];
    inversion H; subst; clear H; cbn [fst snd].
  - (* key press *)
    destruct (onKey_Chosen p i k (state sys) (conj A B)) as (C' & M' & W').
    split; [split; [exact C' | now rewrite M'] | exact W'].
  - unfold Inv, Chosen. cbn. repeat split; auto; try constructor.
  - unfold Inv, Chosen, handleApiKeySubmit, fetchAvailableModels_begin.
    destruct (truthy (trim (tempApiKey (state sys)))) eqn:Et; cbn [negb].
    + cbn. repeat split; auto. constructor; [|constructor].
      cbn. now apply truthy_true.
    + repeat split; auto; try constructor.
  - unfold Inv, Chosen. cbn. repeat split; auto; try constructor.
  - unfold Inv, Chosen, handleModelSubmit.
    destruct (truthy (trim (selectedModel (state sys)))) eqn:Et; cbn [negb];
      [|repeat split; auto; try constructor].
    destruct (existsb _ _ || _); cbn; repeat split; auto; try constructor.
  - unfold Inv, Chosen. cbn. repeat split; auto; try constructor.
  - (* a chat turn is submitted *)
    unfold chatInputShown in Shown.
    apply andb_prop in Shown. destruct Shown as [Shown _].
    apply andb_prop in Shown. destruct Shown as [Shown _].
    apply SetupStep_eqb_eq in Shown.
    unfold Inv, Chosen, sendMessage_begin.
    destruct (truthy (trim (input (state sys)))) eqn:Et; cbn [negb orb];
      [|repeat split; auto; try constructor].
    destruct (isLoading (state sys)); cbn [orb];
      [repeat split; auto; try constructor|].
    destruct (truthy (finalApiKey (state sys))) eqn:Ek; cbn [negb];
      [|repeat split; auto; try constructor].
    cbn [fst snd messages finalModel setupStep setIsLoading setInput setMessages].
    assert (U : Forall (fun m => role m <> system)
                  (List.app (messages (state sys)) [userMessage (state sys)])).
    { apply Forall_app. split; [exact M|]. constructor; [discriminate | constructor]. }
    repeat split; auto.
    constructor; [|constructor].
    cbn. split; [now apply truthy_true|]. split; [apply truthy_true; auto|].
    eexists. eexists. split; [reflexivity | exact U].
  - unfold Inv, Chosen, loadSavedConfig_cleared. cbn. auto.
  - unfold Inv, Chosen, loadSavedConfig_read.
    destruct r0 as [saved|]; [destruct (otruthy (saved_apiKey saved))|];
      cbn; rewrite ?truthy_or_default, ?orb_true_r; repeat split; auto; try constructor.
  - unfold Inv, Chosen, fetchAvailableModels_resume.
    destruct (listModels r0); cbn; repeat split; auto; try constructor;
      intros [H|H]; discriminate H.
  - unfold Inv, Chosen, sendMessage_resume.
    destruct (replyContent r0); cbn; repeat split; auto; try constructor;
      apply Forall_app; (split; [exact M|]);
      (constructor; [discriminate | constructor]).
Qed.

Lemma step_Inv (p : Props) (sys : System) (ev : Event) :
  Inv p (state sys) -> Forall wellFormed (log sys) ->
  Inv p (state (step p sys ev)) /\ Forall wellFormed (log (step p sys ev)).
Proof.
  intros I W. unfold step.
  destruct (exited sys); [now split|].
  destruct (handle ev sys) as [[[s' acts] waiting]|] eqn:H; [|now split].
  destruct (handle_Inv p ev sys _ I H) as [I' W']. cbn [fst snd] in I', W'.
  destruct (existsb isExit acts); cbn [state log].
  - split; [exact I|]. apply Forall_app. now split.
  - unfold react. destruct (settle_Inv 3 p (state sys) s' I') as [I2 W2].
    split; [exact I2|]. apply Forall_app. split; [exact W|].
    apply Forall_app. now split.
Qed.

Lemma boot_Inv (p : Props) :
  Inv p (state (boot p)) /\ Forall wellFormed (log (boot p)).
Proof.
  unfold boot, mount. rewrite mount_effects. cbn [fst snd state log app].
  set (s1 := fst (loadSavedConfig_begin p (personalityIndexEffect (initialState p)))).
  assert (I1 : Inv p s1).
  { subst s1. unfold Inv, Chosen, loadSavedConfig_begin, personalityIndexEffect.
    split_ifs_eqn; cbn; rewrite ?truthy_or_default, ?orb_false_r;
      repeat split; auto; try constructor; intros [H|H]; discriminate H. }
  unfold react. destruct (settle_Inv 3 p (initialState p) s1 I1) as [I2 W2].
  split; [exact I2|]. apply Forall_app. split; [|exact W2].
  unfold loadSavedConfig_begin. split_ifs; repeat constructor.
Qed.

Lemma run_Inv (p : Props) (evs : list Event) :
  Inv p (state (run p evs)) /\ Forall wellFormed (log (run p evs)).
Proof.
  unfold run.
  assert (A : forall sys,
             Inv p (state sys) -> Forall wellFormed (log sys) ->
             Inv p (state (fold_left (step p) evs sys))
             /\ Forall wellFormed (log (fold_left (step p) evs sys))).
  { induction evs as [|ev evs IH]; intros sys I W; simpl; [now split|].
    destruct (step_Inv p sys ev I W) as [I' W']. now apply IH. }
  destruct (boot_Inv p) as [I W]. now apply A.
Qed.

(** X11. Setup never completes without a model: whatever happens, once
    the setup step is [complete] (or the personality step is shown) the
    state holds a model that is not empty. *)
Theorem setup_completes_with_a_model (p : Props) (evs : list Event) :
  setupStep (state (run p evs)) = personality_selection
  \/ setupStep (state (run p evs)) = complete ->
  finalModel (state (run p evs)) <> "".
Proof.
  intros H. destruct (run_Inv p evs) as [[[_ B] _] _].
  apply truthy_true. now apply B.
Qed.

(** X12. Every request that the program makes carries a credential that
    is not empty; a completion request moreover names a model that is not
    empty, and its messages are one [system] message followed by messages
    that are none. *)
Theorem requests_carry_credential_and_model (p : Props) (evs : list Event) :
  (forall bearer,
      In (GetModels bearer) (log (run p evs)) -> bearer <> "")
  /\ (forall bearer body,
         In (PostCompletion bearer body) (log (run p evs)) ->
         bearer <> "" /\ req_model body <> ""
         /\ exists prompt turns,
             req_messages body
             = {| role := system; content := JString prompt |} :: turns
             /\ Forall (fun m => role m <> system) turns).
Proof.
  destruct (run_Inv p evs) as [_ W]. rewrite Forall_forall in W. split.
  - intros bearer H. exact (W _ H).
  - intros bearer body H. exact (W _ H).
Qed.

(** X13. The transcript never holds a [system] message: the system prompt
    is sent with every request and shown nowhere. *)
Theorem transcript_holds_no_system_message
        (p : Props) (evs : list Event) (m : Message) :
  In m (messages (state (run p evs))) -> role m <> system.
Proof.
  destruct (run_Inv p evs) as [[_ M] _]. rewrite Forall_forall in M. apply M.
Qed.

(** **** The busy flag *)

Lemma take_config (ev : Event) (l rest : list Action) :
  take (answers ev) l = Some rest ->
  ev = ConfigCleared \/ (exists r, ev = ConfigRead r) ->
  existsb isRequest rest = existsb isRequest l.
Proof.
  intros T E. revert rest T.
  induction l as [|a l IH]; intros rest T; simpl in T; [discriminate|].
  destruct (answers ev a) eqn:A.
  - inversion T; subst. simpl.
    destruct E as [->|[r ->]]; destruct a; try discriminate A; reflexivity.
  - destruct (take (answers ev) l) as [rest'|]; [|discriminate].
    inversion T; subst. simpl. now rewrite (IH rest' eq_refl).
Qed.

Lemma handle_Busy (ev : Event) (sys : System) (s' : State) (acts waiting : list Action) :
  Busy sys ->
  handle ev sys = Some (s', acts, waiting) ->
  (existsb isExit acts = true -> isLoading (state sys) = true ->
   existsb isRequest waiting = true)
  /\ (isLoading s' = true ->
      existsb isRequest (List.app waiting (filter awaited acts)) = true).
Proof.
  unfold Busy. intros B H. unfold handle in H.
  destruct ev as [i k|v| |v| |v| | |r0|r0|r0]; simpl in H.
  1-7: match type of H with
       | (if ?c then _ else _) = _ => destruct c; [|discriminate]
       end; inversion H; subst; clear H.
  8-11: destruct (take _ (pending sys)) as [rest|] eqn:T; [|discriminate];
    inversion H; subst; clear H.
  - split; [intros _; exact B|]. rewrite existsb_app.
    assert (L : isLoading (fst (onKey i k (state sys))) = isLoading (state sys)).
    { unfold onKey. split_ifs; reflexivity. }
    intros Hl. rewrite H1 in L. cbn [fst] in L. rewrite L in Hl.
    now rewrite (B Hl).
  - split; [discriminate|]. cbn. rewrite app_nil_r. exact B.
  - unfold handleApiKeySubmit, fetchAvailableModels_begin in H1.
    destruct (negb (truthy (trim (tempApiKey (state sys))))); inversion H1; subst.
    + split; [discriminate|]. cbn. rewrite app_nil_r. exact B.
    + split; [discriminate|]. intros _. rewrite existsb_app. cbn.
      apply orb_true_r.
  - split; [discriminate|]. cbn. rewrite app_nil_r. exact B.
  - split; [discriminate|]. cbn [filter]. rewrite app_nil_r.
    unfold handleModelSubmit. split_ifs; cbn; exact B.
  - split; [discriminate|]. cbn. rewrite app_nil_r. exact B.
  - unfold sendMessage_begin in H1.
    destruct (negb (truthy (trim (input (state sys)))) || isLoading (state sys)
              || negb (truthy (finalApiKey (state sys)))); inversion H1; subst.
    + split; [discriminate|]. cbn. rewrite app_nil_r. exact B.
    + split; [discriminate|]. intros _. rewrite existsb_app. cbn.
      apply orb_true_r.
  - split; [discriminate|]. cbn [filter]. rewrite app_nil_r.
    rewrite (take_config _ _ _ T (or_introl eq_refl)). exact B.
  - split; [discriminate|]. cbn [filter]. rewrite app_nil_r.
    rewrite (take_config _ _ _ T (or_intror (ex_intro _ r0 eq_refl))).
    unfold loadSavedConfig_read. split_ifs; cbn; exact B.
  - split; [discriminate|]. unfold fetchAvailableModels_resume.
    split_ifs; cbn; discriminate.
  - split; [discriminate|]. unfold sendMessage_resume.
    split_ifs; cbn; discriminate.
Qed.

Lemma step_Busy (p : Props) (sys : System) (ev : Event) :
  Busy sys -> Busy (step p sys ev).
Proof.
  intros B. unfold step.
  destruct (exited sys); [exact B|].
  destruct (handle ev sys) as [[[s' acts] waiting]|] eqn:H; [|exact B].
  destruct (handle_Busy ev sys s' acts waiting B H) as [H1 H2].
  destruct (existsb isExit acts) eqn:X; unfold Busy; cbn [state pending].
  - now apply H1.
  - unfold react. destruct (settle_rest 3 p (state sys) s') as (L & _).
    rewrite L. intros Hl. specialize (H2 Hl).
    rewrite filter_app, app_assoc, existsb_app, H2. reflexivity.
Qed.

Lemma boot_Busy (p : Props) : Busy (boot p).
Proof.
  unfold Busy, boot, mount. rewrite mount_effects. cbn [fst snd state pending].
  unfold react.
  destruct (settle_rest 3 p (initialState p)
              (fst (loadSavedConfig_begin p (personalityIndexEffect (initialState p)))))
    as (L & _).
  rewrite L. unfold loadSavedConfig_begin.
  destruct (personalityIndexEffect_rest (initialState p)) as (l1 & _).
  split_ifs; cbn [fst isLoading setConfigLoaded]; rewrite l1; discriminate.
Qed.

Lemma run_Busy (p : Props) (evs : list Event) : Busy (run p evs).
Proof.
  unfold run.
  assert (A : forall sys, Busy sys -> Busy (fold_left (step p) evs sys)).
  { induction evs as [|ev evs IH]; intros sys B; simpl; [exact B|].
    apply IH. now apply step_Busy. }
  apply A. apply boot_Busy.
Qed.

(** As long as only setup events have happened, a program whose setup is
    complete and that awaits no request shows the welcome message alone
    and has the chat prompt on screen. *)
Lemma complete_and_idle_accepts_input (p : Props) (evs : list Event) :
  forallb setupEvent evs = true ->
  setupStep (state (run p evs)) = complete ->
  existsb isRequest (pending (run p evs)) = false ->
  messages (state (run p evs))
  = [welcome (sor (finalPersonality (state (run p evs))) "cheerful")]
  /\ chatInputShown (state (run p evs)) = true.
Proof.
  intros E C I.
  destruct (welcome_when_complete p evs E C) as (M & _ & S).
  split; [exact M|]. rewrite S.
  destruct (isLoading (state (run p evs))) eqn:L; [|reflexivity].
  pose proof (run_Busy p evs L). congruence.
Qed.

End Runs.

(** *** Starting again, chatting, leaving *)

Section Session.

Context {host : Host}.

(** Reading a saved record that holds a credential. *)
Lemma read_saved_record (p : Props) (saved : SavedConfig) :
  otruthy (initialApiKey p) = false ->
  reconfigure p = false ->
  otruthy (saved_apiKey saved) = true ->
  let sys := run p [ConfigRead (Some saved)] in
  setupStep (state sys) = complete
  /\ finalApiKey (state sys) = or_default (saved_apiKey saved) ""
  /\ finalModel (state sys)
     = or_default (initialModel p)
         (or_default (saved_model saved) "meta-llama/llama-3.3-8b-instruct:free")
  /\ finalPersonality (state sys)
     = or_default (initialPersonality p)
         (or_default (saved_personality saved) "cheerful").
Proof.
  intros I R K. unfold run. cbn [fold_left]. rewrite (boot_reads p I R).
  unfold step. cbn [exited handle take answers state pending].
  cbn [existsb isExit orb state log visited].
  set (s1 := personalityIndexEffect (initialState p)).
  set (s' := loadSavedConfig_read (Some saved) s1).
  destruct (personalityIndexEffect_frame (initialState p)) as (_ & _ & _ & _ & c1).
  fold s1 in c1. cbn in c1.
  assert (F : configLoaded s' = true
              /\ finalApiKey s' = or_default (saved_apiKey saved) ""
              /\ finalModel s'
                 = or_default (saved_model saved)
                     "meta-llama/llama-3.3-8b-instruct:free"
              /\ finalPersonality s'
                 = or_default (saved_personality saved) "cheerful").
  { subst s'. unfold loadSavedConfig_read. rewrite K. repeat split. }
  destruct F as (Fc & Fa & Fm & Fp).
  assert (A : allPieces p s' = true).
  { unfold allPieces, needsSetup.
    rewrite Fc, Fa, Fm, Fp, !truthy_or_default, I, R, K.
    cbn. now rewrite !orb_true_r. }
  assert (D : setupStepDeps_same p s1 s' = false).
  { unfold setupStepDeps_same. rewrite c1, Fc. cbn [Bool.eqb].
    now rewrite andb_false_r. }
  destruct (settle_allPieces 2 p s1 s' A D) as (R1 & R2 & R3 & R4 & _).
  unfold react. cbn [state].
  rewrite R1, R2, R3, R4, Fa, Fm, Fp.
  rewrite (or_default_truthy _ _ I). repeat split.
Qed.

Lemma saves_single (l : list Action) (c : Config) :
  saves l = [c] -> lastSaveStarted l = Some c.
Proof.
  assert (E : forall l', saves l' = [] -> lastSaveStarted l' = None).
  { induction l' as [|a l' IH]; simpl; [reflexivity|].
    destruct a; try discriminate; intros H; now rewrite (IH H). }
  induction l as [|a l IH]; simpl; [discriminate|].
  destruct a; try (intros H; now rewrite (IH H)).
  intros H. inversion H; subst. now rewrite (E l).
Qed.

(** X14. Stopping and starting again.  When a session without a given
    credential has completed setup and has started a single save, so that
    no two writes race for the file, that save carries the configuration
    of the state; a new session that reads its record back (no credential
    given, no reconfiguration) is complete at once with the same
    credential, with the same model unless the [--model] flag gives
    another, and with the same personality ("cheerful" if it was empty)
    unless the [--personality] flag gives another. *)
Theorem restart_restores_the_configuration
        (p again : Props) (evs : list Event) (c : Config) :
  otruthy (initialApiKey p) = false ->
  setupStep (state (run p evs)) = complete ->
  saves (log (run p evs)) = [c] ->
  otruthy (initialApiKey again) = false ->
  reconfigure again = false ->
  c = resolvedConfig (state (run p evs))
  /\ let sys := run again [ConfigRead (Some (asSaved c))] in
     setupStep (state sys) = complete
     /\ finalApiKey (state sys) = finalApiKey (state (run p evs))
     /\ finalModel (state sys)
        = or_default (initialModel again) (finalModel (state (run p evs)))
     /\ finalPersonality (state sys)
        = or_default (initialPersonality again)
            (sor (finalPersonality (state (run p evs))) "cheerful").
Proof.
  intros N C One N' R'.
  pose proof (complete_ready p evs C) as Rd.
  pose proof (run_SaveStarted p evs Rd N) as L.
  rewrite (saves_single _ _ One) in L. inversion L as [Ec]. clear L.
  split; [reflexivity|].
  destruct (run_Inv p evs) as [[[_ B] _] _].
  assert (M : truthy (finalModel (state (run p evs))) = true) by (apply B; now right).
  assert (K : truthy (finalApiKey (state (run p evs))) = true).
  { unfold ready in Rd. apply andb_prop in Rd. destruct Rd as [Rd _].
    now apply andb_prop in Rd. }
  destruct (read_saved_record again (asSaved (resolvedConfig (state (run p evs)))) N' R')
    as (S1 & S2 & S3 & S4).
  { cbn. exact K. }
  cbv zeta. rewrite S1, S2, S3, S4. cbn [asSaved resolvedConfig saved_apiKey saved_model
                   saved_personality apiKey model personality or_default].
  rewrite K, M. repeat split.
Qed.

Lemma take_last (ev : Event) (l : list Action) (a : Action) :
  answers ev a = true -> exists rest, take (answers ev) (List.app l [a]) = Some rest.
Proof.
  intros H. induction l as [|b l IH]; simpl.
  - rewrite H. eauto.
  - destruct (answers ev b); [eauto|].
    destruct IH as [rest ->]. eauto.
Qed.

(** X15. A chat turn.  With the chat prompt on screen over a transcript
    that can be drawn, a text that is not blank and a credential in the
    state, submitting starts one completion request, empties the prompt and
    hides it; when the request settles, the transcript has gained two
    messages, the text of the user and then the reply, or the error message
    if the request failed.  When the reply can be drawn (an error message
    always can), so can the new transcript, and the prompt is back; a reply
    whose content is no string leaves a transcript that the chat view
    cannot draw. *)
Theorem chat_turn_appends_two_messages
        (p : Props) (sys : System) (r : Fetched jsval) :
  exited sys = false ->
  chatInputShown (state sys) = true ->
  forallb textual (messages (state sys)) = true ->
  trim (input (state sys)) <> "" ->
  finalApiKey (state sys) <> "" ->
  let asked := step p sys InputSubmitted in
  let answered := step p asked (CompletionFetched r) in
  let reply :=
    match replyContent r with
    | inr c => {| role := assistant; content := c |}
    | inl e => errorMessage e
    end in
  log asked
  = List.app (log sys)
      [PostCompletion (finalApiKey (state sys)) (requestBody (state sys))]
  /\ chatInputShown (state asked) = false
  /\ messages (state answered)
     = List.app (messages (state sys)) [userMessage (state sys); reply]
  /\ input (state answered) = ""
  /\ log answered = log asked
  /\ (textual reply = true ->
      forallb textual (messages (state answered)) = true
      /\ chatInputShown (state answered) = true)
  /\ (textual reply = false ->
      forallb textual (messages (state answered)) = false).
Proof.
  intros X Sh Tm T K asked answered reply.
  set (s := state sys) in *.
  set (s1 := setIsLoading true
               (setInput "" (setMessages (List.app (messages s) [userMessage s]) s))).
  assert (B : sendMessage_begin s = (s1, [PostCompletion (finalApiKey s) (requestBody s)])).
  { unfold sendMessage_begin. apply truthy_true in T, K. rewrite T, K.
    unfold chatInputShown in Sh. apply andb_prop in Sh. destruct Sh as [_ Sh].
    apply negb_true_iff in Sh. rewrite Sh. reflexivity. }
  assert (A : asked = {| state := s1;
                         log := List.app (log sys)
                                  [PostCompletion (finalApiKey s) (requestBody s)];
                         visited := List.app (visited sys) [setupStep s1];
                         pending := List.app (pending sys)
                                      [PostCompletion (finalApiKey s) (requestBody s)];
                         exited := false |}).
  { subst asked. unfold step. rewrite X. unfold handle. fold s. rewrite Sh, B.
    cbn [existsb isExit orb]. unfold react.
    rewrite settle_quiet by (apply quiet_frame; reflexivity).
    reflexivity. }
  set (s2 := sendMessage_resume r s1).
  destruct (take_last (CompletionFetched r) (pending sys)
              (PostCompletion (finalApiKey s) (requestBody s)) eq_refl) as [rest Tk].
  assert (E : state answered = s2 /\ log answered = log asked).
  { subst answered. rewrite A. unfold step. cbn [exited handle state pending log].
    rewrite Tk. cbn [existsb]. unfold react. fold s2.
    rewrite settle_quiet.
    - cbn [fst snd state log app]. now rewrite !app_nil_r.
    - subst s2. unfold sendMessage_resume.
      apply quiet_frame; destruct (replyContent r); reflexivity. }
  destruct E as [E1 E2]. rewrite E1.
  assert (M2 : messages s2 = List.app (messages s) [userMessage s; reply]).
  { subst s2 s1 reply. unfold sendMessage_resume.
    destruct (replyContent r); cbn [messages setIsLoading setInput setMessages];
      rewrite <- app_assoc; reflexivity. }
  assert (F2 : input s2 = "" /\ setupStep s2 = setupStep s
               /\ isInputMode s2 = isInputMode s /\ isLoading s2 = false).
  { subst s2 s1. unfold sendMessage_resume.
    destruct (replyContent r); repeat split. }
  destruct F2 as (I2 & St2 & Im2 & L2).
  assert (U : textual (userMessage s) = true) by reflexivity.
  split; [rewrite A; reflexivity|].
  split; [rewrite A; cbn [state]; subst s1; unfold chatInputShown; cbn;
          now rewrite andb_false_r|].
  split; [exact M2|]. split; [exact I2|]. split; [exact E2|]. split.
  - intros Tr. split.
    + rewrite M2, forallb_app, Tm. cbn [forallb]. now rewrite U, Tr.
    + unfold chatInputShown in *. rewrite St2, Im2, L2.
      apply andb_prop in Sh. destruct Sh as [Sh _]. now rewrite Sh.
  - intros Tr. rewrite M2, forallb_app. cbn [forallb]. rewrite U, Tr.
    cbn. apply andb_false_r.
Qed.

(** X16. Leaving.  Ctrl+C ends the program with exit code 0 in every
    step, and so does Esc during setup: the state is left as it is, nothing
    is saved, and whatever comes next has no effect.  Once setup is
    complete the key handler of the component is switched off: any other
    key press, Esc included, changes nothing. *)
Theorem escape_leaves_during_setup_only
        (p : Props) (sys : System) (i : string) (k : Key) (evs : list Event) :
  exited sys = false ->
  ((ctrl k = true /\ i = "c")
   \/ (escape k = true /\ setupStep (state sys) <> complete) ->
   let left := step p sys (KeyPress i k) in
   exited left = true
   /\ state left = state sys
   /\ log left = List.app (log sys) [Exit 0]
   /\ fold_left (step p) evs left = left)
  /\ (setupStep (state sys) = complete ->
      ctrl k && (i =? "c")%string = false ->
      step p sys (KeyPress i k) = sys).
Proof.
  intros X. split.
  - intros Hk left.
    assert (O : onKey i k (state sys) = (state sys, [Exit 0])).
    { unfold onKey. destruct Hk as [[Hc ->]|[-> _]]; [|reflexivity].
      rewrite Hc. now destruct (escape k). }
    assert (A : negb (SetupStep_eqb (setupStep (state sys)) complete)
                || (ctrl k && (i =? "c")%string) = true).
    { destruct Hk as [[Hc ->]|[_ N]].
      - rewrite Hc. cbn. apply orb_true_r.
      - destruct (SetupStep_eqb _ _) eqn:E; [|reflexivity].
        apply SetupStep_eqb_eq in E. contradiction. }
    assert (L : left = {| state := state sys;
                          log := List.app (log sys) [Exit 0];
                          visited := visited sys;
                          pending := pending sys;
                          exited := true |}).
    { subst left. unfold step. rewrite X. unfold handle. rewrite A, O. reflexivity. }
    rewrite L. cbn [exited state log]. repeat split.
    induction evs as [|ev evs IH]; [reflexivity|]. exact IH.
  - intros C N. unfold step. rewrite X. unfold handle. rewrite C, N. reflexivity.
Qed.

(** X17. Submitting a blank in a setup prompt does nothing: a credential
    made of white space starts no request, a model made of white space is
    not taken, and the program is left with the same state, the same
    actions and the same awaited operations. *)
Theorem blank_setup_submissions_do_nothing (p : Props) (sys : System) :
  (trim (tempApiKey (state sys)) = "" ->
   state (step p sys ApiKeySubmitted) = state sys
   /\ log (step p sys ApiKeySubmitted) = log sys
   /\ pending (step p sys ApiKeySubmitted) = pending sys)
  /\ (trim (selectedModel (state sys)) = "" ->
      state (step p sys ModelSubmitted) = state sys
      /\ log (step p sys ModelSubmitted) = log sys
      /\ pending (step p sys ModelSubmitted) = pending sys).
Proof.
  split; intros T; unfold step; (destruct (exited sys); [auto|]);
    unfold handle.
  - destruct (apiKeyInputShown (state sys)); [|auto].
    unfold handleApiKeySubmit. rewrite T. cbn [truthy String.eqb negb existsb].
    unfold react. rewrite settle_same. cbn. now rewrite !app_nil_r.
  - destruct (modelInputShown (state sys)); [|auto].
    unfold handleModelSubmit. rewrite T. cbn [truthy String.eqb negb existsb].
    unfold react. rewrite settle_same. cbn. now rewrite !app_nil_r.
Qed.

(** X18. The effects come to rest: after any change of the state, the
    setup-step effect and the completion effect run for at most two
    rounds before no dependency changes any more, so that more rounds
    would change nothing; they start at most two saves on the way. *)
Theorem effects_come_to_rest (p : Props) (prev cur : State) :
  (length (snd (react p prev cur)) <= 2)%nat
  /\ (length (snd (fst (react p prev cur))) <= 2)%nat
  /\ forall n, settle (3 + n) p prev cur = react p prev cur.
Proof.
  assert (A : forall f1 f2 snap s,
             (length (snd (runEffects p f1 f2 snap s)) <= 1)%nat).
  { intros f1 f2 snap s. unfold runEffects, completeEffect.
    destruct f2; split_ifs; cbn; lia. }
  split; [|split].
  - unfold react. cbn [settle].
    destruct (quiet p prev cur); [cbn; lia|].
    set (s2 := fst (runEffects p _ _ cur cur)).
    destruct (quiet p cur s2); [cbn; lia|].
    set (s3 := fst (runEffects p _ _ s2 s2)).
    assert (Q3 : quiet p s2 s3 = true) by apply second_round_quiet.
    rewrite Q3. cbn. lia.
  - unfold react. cbn [settle].
    destruct (quiet p prev cur); [cbn; lia|].
    set (s2 := fst (runEffects p _ _ cur cur)).
    destruct (quiet p cur s2); [cbn [fst snd]; rewrite app_nil_r; etransitivity; [apply A | lia]|].
    set (s3 := fst (runEffects p _ _ s2 s2)).
    assert (Q3 : quiet p s2 s3 = true) by apply second_round_quiet.
    rewrite Q3. cbn [fst snd]. rewrite app_nil_r, length_app.
    pose proof (A (negb (setupStepDeps_same p prev cur))
                  (negb (completeDeps_same prev cur)) cur cur).
    pose proof (A (negb (setupStepDeps_same p cur s2))
                  (negb (completeDeps_same cur s2)) s2 s2).
    lia.
  - intros n. apply settle_fuel.
Qed.

End Session.

(** *** The last steps of setup *)

Section Steps.

Context {host : Host}.

(** X19. After the model prompt.  When reconfiguring, a model that is
    submitted is taken (trimmed) and the personality menu is shown and
    stays.  Otherwise, in a state that is loaded and holds a credential and
    a personality (it holds "cheerful" from the start), a new model makes
    all pieces present: the personality step is left at once and setup is
    complete, the personality menu never being used. *)
Theorem model_choice_awaits_personality_only_when_reconfiguring
        (p : Props) (sys : System) :
  exited sys = false ->
  modelInputShown (state sys) = true ->
  trim (selectedModel (state sys)) <> "" ->
  let chosen := trim (selectedModel (state sys)) in
  let sys' := step p sys ModelSubmitted in
  (reconfigure p = true ->
   setupStep (state sys') = personality_selection
   /\ finalModel (state sys') = chosen)
  /\ (reconfigure p = false ->
      configLoaded (state sys) = true ->
      truthy (finalApiKey (state sys)) = true ->
      truthy (finalPersonality (state sys)) = true ->
      finalModel (state sys) <> chosen ->
      setupStep (state sys') = complete
      /\ finalModel (state sys') = or_default (initialModel p) chosen
      /\ finalPersonality (state sys')
         = or_default (initialPersonality p) (finalPersonality (state sys))
      /\ In personality_selection (visited sys')).
Proof.
  intros X Sh T chosen sys'.
  set (s := state sys) in *.
  set (s' := setSetupStep personality_selection (setFinalModel chosen s)).
  assert (H : handleModelSubmit s = s').
  { unfold handleModelSubmit. apply truthy_true in T. rewrite T. cbn [negb].
    destruct (existsb _ _ || _); reflexivity. }
  assert (E : sys' = {| state := fst (fst (react p s s'));
                        log := List.app (log sys) (snd (fst (react p s s')));
                        visited := List.app (visited sys)
                                     (personality_selection :: snd (react p s s'));
                        pending := List.app (pending sys)
                                     (filter awaited (snd (fst (react p s s'))));
                        exited := false |}).
  { subst sys'. unfold step. rewrite X. unfold handle. fold s. rewrite Sh, H.
    reflexivity. }
  rewrite E. cbn [state visited]. split.
  - intros R. unfold react.
    destruct (settle_reconfigure 3 p R s s') as (R1 & R2 & _).
    split; [exact R1 | exact R2].
  - intros R C K P M.
    assert (A : allPieces p s' = true).
    { unfold allPieces, needsSetup. subst s'. cbn. rewrite R, C, K, P.
      apply truthy_true in T. fold chosen in T. rewrite T.
      now rewrite andb_false_r. }
    assert (D : setupStepDeps_same p s s' = false).
    { unfold setupStepDeps_same. subst s'. cbn.
      assert (N : (finalModel s =? chosen)%string = false)
        by now apply String.eqb_neq.
      rewrite N. now rewrite andb_false_r. }
    destruct (settle_allPieces 2 p s s' A D) as (R1 & _ & R3 & R4 & _).
    unfold react. split; [exact R1|]. split; [exact R3|]. split; [exact R4|].
    apply in_or_app. right. now left.
Qed.

(** X20. The end of a setup by hand.  When reconfiguring, Return on the
    personality menu completes setup: the configuration is saved with the
    credential and the model of the state and the personality under the
    cursor, and the transcript is the welcome message of that
    personality. *)
Theorem chosen_personality_is_saved_and_greets
        (p : Props) (evs : list Event) (o : PersonalityOption) :
  reconfigure p = true ->
  otruthy (initialApiKey p) = false ->
  let sys := run p evs in
  exited sys = false ->
  setupStep (state sys) = personality_selection ->
  0 <= selectedPersonalityIndex (state sys) ->
  nth_error getPersonalityOptions (Z.to_nat (selectedPersonalityIndex (state sys)))
  = Some o ->
  let sys' := step p sys (KeyPress "" returnKey) in
  setupStep (state sys') = complete
  /\ resolvedConfig (state sys')
     = {| apiKey := finalApiKey (state sys);
          model := finalModel (state sys);
          personality := value o |}
  /\ log sys' = List.app (log sys) [SaveConfig (resolvedConfig (state sys'))]
  /\ messages (state sys') = [welcome (sor (value o) "cheerful")]
  /\ isInputMode (state sys') = true.
Proof.
  intros R N sys X St I O sys'.
  destruct (run_Sound p evs) as [_ Sd]. fold sys in Sd.
  destruct Sd as [K C]; [rewrite St; discriminate|].
  set (s := state sys) in *.
  set (s' := setSetupStep complete (setFinalPersonality (value o) s)).
  assert (H : onKey "" returnKey s = (s', [])).
  { unfold onKey, optionAt. rewrite St. cbn.
    destruct (Z.ltb_spec (selectedPersonalityIndex s) 0); [lia|]. now rewrite O. }
  assert (Q : quiet p s s' = false).
  { unfold quiet, completeDeps_same. subst s'. cbn [setupStep setSetupStep].
    rewrite St. cbn [SetupStep_eqb andb]. apply andb_false_r. }
  assert (F1 : setupStepEffect p s' s' = s') by now apply setupStepEffect_reconfigure.
  assert (D2 : completeDeps_same s s' = false).
  { unfold completeDeps_same. subst s'. cbn [setupStep setSetupStep].
    rewrite St. reflexivity. }
  set (s2 := setIsInputMode true (setMessages [welcome (sor (value o) "cheerful")] s')).
  assert (E1 : runEffects p (negb (setupStepDeps_same p s s'))
                 (negb (completeDeps_same s s')) s' s'
               = (s2, [SaveConfig (resolvedConfig s')])).
  { unfold runEffects. rewrite D2. cbn [negb].
    assert (S1 : (if negb (setupStepDeps_same p s s')
                  then setupStepEffect p s' s' else s') = s')
      by (destruct (negb (setupStepDeps_same p s s')); [exact F1 | reflexivity]).
    rewrite S1. unfold completeEffect. subst s'.
    cbn [setupStep finalApiKey configLoaded finalModel finalPersonality
           setSetupStep setFinalPersonality SetupStep_eqb].
    rewrite K, C, N. reflexivity. }
  assert (Rr : react p s s' = (s2, [SaveConfig (resolvedConfig s')], [complete])).
  { unfold react. rewrite settle_round by exact Q. cbv zeta. rewrite E1.
    cbn [fst snd]. rewrite settle_quiet; [reflexivity|].
    apply quiet_frame; reflexivity. }
  assert (E : sys' = {| state := s2;
                        log := List.app (log sys) [SaveConfig (resolvedConfig s')];
                        visited := List.app (visited sys) [complete; complete];
                        pending := List.app (pending sys) [];
                        exited := false |}).
  { subst sys'. unfold step. rewrite X. unfold handle. fold s. rewrite St.
    cbn [SetupStep_eqb negb orb]. rewrite H. cbn [existsb]. rewrite Rr. reflexivity. }
  rewrite E. cbn [state log]. subst s2 s'. repeat split.
Qed.

End Steps.

(** ** More of the program, on concrete inputs *)

(** X2, on a line of text followed by a block in JavaScript. *)
Lemma code_blocks_render_as_boxes_witness :
  let block := "```JS" ++ LF ++ "x = 1;" ++ LF ++ "y = 2;```" in
  let content := "Try this: " ++ block in
  nth_error (splitFences content) 1 = Some block
  /\ renderPart lowerCase block
     = CodeBox "Language: js" "js" ("x = 1;" ++ LF ++ "y = 2;")
  /\ exists body,
      block = fence ++ body ++ fence /\ includes body fence = false
      /\ renderPart lowerCase block
         = let language := lowerCase (trim (hd "" (splitLines body))) in
           CodeBox (if truthy language then "Language: " ++ language else "Code")
             (sor language "text") (joinLines (tl (splitLines body))).
Proof.
  intros block content. split; [reflexivity|]. split; [reflexivity|].
  exact (code_blocks_render_as_boxes lowerCase content 0 block eq_refl).
Defined.

(** X3, on two lines of text. *)
Lemma plain_text_renders_as_lines_witness :
  let content := "No code here," ++ LF ++ "just `quotes`." in
  includes content fence = false
  /\ MessageRenderer lowerCase (JString content)
     = ret [TextLines ["No code here,"; "just `quotes`."]]
  /\ joinLines (splitLines content) = content.
Proof.
  intros content. split; [reflexivity|].
  exact (plain_text_renders_as_lines lowerCase content eq_refl).
Defined.

(** X4, on a reply whose content is a string, after the welcome message. *)
Lemma reply_renders_iff_string_witness :
  let s := state (Run.typing "fix my loop") in
  let body :=
    JObject [("choices",
              JArray [JObject [("message",
                                JObject [("content", JString "Quack?")])]])] in
  let r := Response 200 "OK" (Parsed body) in
  (replyContent r = inr (JString "Quack?")
   /\ renderTranscript lowerCase (messages s) = inr [[TextLines ["Quack! (sarcastic)"]]])
  /\ renderTranscript lowerCase (messages (sendMessage_resume r s))
     = inr [[TextLines ["Quack! (sarcastic)"]]; [TextLines ["Quack?"]]].
Proof.
  intros s body r. split; [split; reflexivity|].
  exact (proj1 (reply_renders_iff_string lowerCase r s (JString "Quack?")
                  [[TextLines ["Quack! (sarcastic)"]]] eq_refl eq_refl)
           "Quack?" eq_refl).
Defined.

(** X5, on the listing of the end-to-end scenario. *)
Lemma prefilled_model_is_not_listed_witness :
  let s := initialState (cli_props Sample.noFlags None) in
  let s' := fetchAvailableModels_resume (host := Sample.host) Run.listingOk s in
  listModels (host := Sample.host) Run.listingOk = inr [toModel Run.gpt4]
  /\ map id (availableModels s') = ["openai/gpt-4"]
  /\ selectedModel s' = "meta-llama/llama-3.3-8b-instruct:free"
  /\ finalModel (handleModelSubmit s') = "meta-llama/llama-3.3-8b-instruct:free".
Proof.
  intros s s'. split; [reflexivity|]. split; [reflexivity|].
  destruct (prefilled_model_is_not_listed (host := Sample.host) Run.listingOk s
              [toModel Run.gpt4] eq_refl) as (S & _ & _ & M & _).
  split; [exact S | exact M].
Defined.

(** X6, on a listing of six models, with strings compared byte by byte. *)
Lemma most_popular_model_comes_first_witness :
  let sonnet :=
    {| raw_id := "anthropic/claude-3.5-sonnet"; raw_name := Some "Claude 3.5 Sonnet";
       raw_context_length := 200000; raw_pricing := None |} in
  let l :=
    [ {| raw_id := "mistralai/mistral-large"; raw_name := Some "Mistral Large";
         raw_context_length := 32000; raw_pricing := None |};
      {| raw_id := "openai/gpt-4"; raw_name := Some "GPT-4";
         raw_context_length := 8000; raw_pricing := None |};
      sonnet ] in
  let s' :=
    fetchAvailableModels_resume (host := Sample.host)
      (Response 200 "OK" (Parsed {| data := Some l |}))
      (initialState (cli_props Sample.noFlags None)) in
  (ok 200 = true /\ In sonnet l /\ 4000 <= raw_context_length sonnet)
  /\ modelBullets s'
     = ["anthropic/claude-3.5-sonnet"; "openai/gpt-4"; "mistralai/mistral-large"]
  /\ hd_error (modelBullets s') = Some "anthropic/claude-3.5-sonnet".
Proof.
  intros sonnet l s'.
  assert (I : In sonnet l) by (right; right; left; reflexivity).
  assert (C : 4000 <= raw_context_length sonnet) by (cbn; lia).
  split; [split; [reflexivity | split; assumption]|]. split; [reflexivity|].
  exact (proj2 (most_popular_model_comes_first (host := Sample.host)
                  byteCompare_antisym byteCompare_trans 200 "OK" l sonnet
                  (initialState (cli_props Sample.noFlags None))
                  eq_refl I eq_refl C)).
Defined.

(** X7, on a saved record that holds a model and a personality but no
    credential. *)
Lemma saved_record_without_credential_is_ignored_witness :
  let p := cli_props Sample.noFlags None in
  let saved :=
    {| saved_apiKey := None; saved_model := Some "openai/gpt-4";
       saved_personality := Some "sarcastic" |} in
  let sys := Run.run p [ConfigRead (Some saved)] in
  (otruthy (initialApiKey p) = false /\ reconfigure p = false
   /\ otruthy (saved_apiKey saved) = false)
  /\ apiKeyInputShown (state sys) = true
  /\ finalModel (state sys) = ""
  /\ finalPersonality (state sys) = "cheerful"
  /\ log sys = [ReadConfig].
Proof.
  intros p saved sys. split; [repeat split|].
  assert (U : forall x, Some saved = Some x -> otruthy (saved_apiKey x) = false).
  { intros x E. inversion E. reflexivity. }
  destruct (saved_record_without_credential_is_ignored (host := Sample.host)
              p (Some saved) eq_refl eq_refl U) as (_ & A & L & _).
  split; [exact A|]. split; [reflexivity|]. split; [reflexivity | exact L].
Defined.

(** X8, with the credential and the model in the flags. *)
Lemma credential_and_model_start_the_chat_witness :
  let flags :=
    {| flag_apiKey := Some "sk-flag"; flag_model := Some "openai/gpt-4";
       flag_personality := None; flag_reconfigure := false |} in
  let p := cli_props flags None in
  (otruthy (initialApiKey p) = true /\ otruthy (initialModel p) = true
   /\ reconfigure p = false)
  /\ resolvedConfig (state (boot (host := Sample.host) p))
     = {| apiKey := "sk-flag"; model := "openai/gpt-4"; personality := "cheerful" |}
  /\ chatInputShown (state (boot (host := Sample.host) p)) = true
  /\ log (boot (host := Sample.host) p) = [].
Proof.
  intros flags p. split; [repeat split|].
  destruct (credential_and_model_start_the_chat (host := Sample.host)
              p eq_refl eq_refl eq_refl) as (C & S & _ & L & _).
  split; [exact C|]. split; [exact S | exact L].
Defined.

(** X9, with the credential in the environment variable. *)
Lemma credential_without_model_asks_for_the_model_witness :
  let p := cli_props Sample.noFlags (Some "sk-env") in
  let sys := Run.run p [ModelTyped " openai/gpt-4 "; ModelSubmitted] in
  (otruthy (initialApiKey p) = true /\ otruthy (initialModel p) = false
   /\ reconfigure p = false /\ trim " openai/gpt-4 " <> "")
  /\ modelInputShown (state (boot (host := Sample.host) p)) = true
  /\ resolvedConfig (state sys)
     = {| apiKey := "sk-env"; model := "openai/gpt-4"; personality := "cheerful" |}
  /\ chatInputShown (state sys) = true
  /\ log sys = [].
Proof.
  intros p sys.
  assert (T : trim " openai/gpt-4 " <> "") by (vm_compute; discriminate).
  split; [repeat split; exact T|].
  destruct (credential_without_model_asks_for_the_model (host := Sample.host)
              p eq_refl eq_refl eq_refl) as ((M & _) & A).
  split; [exact M|].
  destruct (A " openai/gpt-4 " T) as (C & S & _ & L).
  split; [exact C|]. split; [exact S | exact L].
Defined.

(** X10, after a first run: a credential is typed, the models are listed,
    a model is typed. *)
Lemma last_save_started_carries_the_configuration_witness :
  let p := cli_props Sample.noFlags None in
  let evs :=
    [ ConfigRead None; ApiKeyTyped "k1"; ApiKeySubmitted;
      ModelsFetched Run.listingOk; ModelTyped "openai/gpt-4"; ModelSubmitted ] in
  (otruthy (initialApiKey p) = false
   /\ setupStep (state (Run.run p evs)) = complete)
  /\ lastSaveStarted (log (Run.run p evs))
     = Some {| apiKey := "k1"; model := "openai/gpt-4"; personality := "cheerful" |}.
Proof.
  intros p evs. split; [split; reflexivity|].
  exact (last_save_started_carries_the_configuration (host := Sample.host)
           p evs eq_refl eq_refl).
Defined.

(** X11, after the same first run. *)
Lemma setup_completes_with_a_model_witness :
  let p := cli_props Sample.noFlags None in
  let evs :=
    [ ConfigRead None; ApiKeyTyped "k1"; ApiKeySubmitted;
      ModelsFetched (TransportError "getaddrinfo ENOTFOUND") ] in
  setupStep (state (Run.run p evs)) = complete
  /\ finalModel (state (Run.run p evs)) <> "".
Proof.
  intros p evs. split; [reflexivity|].
  exact (setup_completes_with_a_model (host := Sample.host)
           p evs (or_intror eq_refl)).
Defined.

(** X12, on the request of the first turn of a chat. *)
Lemma requests_carry_credential_and_model_witness :
  let p := cli_props Sample.noFlags None in
  let evs :=
    [ConfigRead (Some Run.savedConfig); InputTyped "fix my loop"; InputSubmitted] in
  let body :=
    {| req_model := "openai/gpt-4";
       req_messages :=
         [ {| role := system; content := JString "You are a sarcastic rubber duck." |};
           {| role := assistant; content := JString "Quack! (sarcastic)" |};
           {| role := user; content := JString "fix my loop" |} ] |} in
  In (PostCompletion "k1" body) (log (run (host := Sample.host) p evs))
  /\ "k1" <> "" /\ req_model body <> "".
Proof.
  intros p evs body.
  assert (I : In (PostCompletion "k1" body) (log (run (host := Sample.host) p evs)))
    by (vm_compute; right; right; left; reflexivity).
  split; [exact I|].
  destruct (proj2 (requests_carry_credential_and_model (host := Sample.host) p evs)
              "k1" body I) as (K & M & _).
  split; [exact K | exact M].
Defined.

(** X13, on the transcript after a turn and its reply. *)
Lemma transcript_holds_no_system_message_witness :
  let p := cli_props Sample.noFlags None in
  let evs :=
    [ ConfigRead (Some Run.savedConfig); InputTyped "fix my loop"; InputSubmitted;
      CompletionFetched (Response 500 "Internal Server Error" (Unparsable "")) ] in
  let m := {| role := user; content := JString "fix my loop" |} in
  In m (messages (state (run (host := Sample.host) p evs))) /\ role m <> system.
Proof.
  intros p evs m.
  assert (I : In m (messages (state (run (host := Sample.host) p evs))))
    by (vm_compute; right; left; reflexivity).
  split; [exact I|].
  exact (transcript_holds_no_system_message (host := Sample.host) p evs m I).
Defined.

(** X14, after the same first run, started again with a [--model] flag. *)
Lemma restart_restores_the_configuration_witness :
  let p := cli_props Sample.noFlags None in
  let evs :=
    [ ConfigRead None; ApiKeyTyped "k1"; ApiKeySubmitted;
      ModelsFetched Run.listingOk; ModelTyped "openai/gpt-4"; ModelSubmitted ] in
  let c := {| apiKey := "k1"; model := "openai/gpt-4"; personality := "cheerful" |} in
  let again :=
    cli_props {| flag_apiKey := None; flag_model := Some "anthropic/claude-3-haiku";
                 flag_personality := None; flag_reconfigure := false |} None in
  let sys := run (host := Sample.host) again [ConfigRead (Some (asSaved c))] in
  (otruthy (initialApiKey p) = false
   /\ setupStep (state (run (host := Sample.host) p evs)) = complete
   /\ saves (log (run (host := Sample.host) p evs)) = [c]
   /\ otruthy (initialApiKey again) = false /\ reconfigure again = false)
  /\ setupStep (state sys) = complete
  /\ finalApiKey (state sys) = "k1"
  /\ finalModel (state sys) = "anthropic/claude-3-haiku"
  /\ finalPersonality (state sys) = "cheerful".
Proof.
  intros p evs c again sys. split; [repeat split|].
  destruct (restart_restores_the_configuration (host := Sample.host)
              p again evs c eq_refl eq_refl eq_refl eq_refl eq_refl)
    as (_ & S & K & M & P).
  split; [exact S|]. split; [exact K|]. split; [exact M | exact P].
Defined.

(** X15, on a turn whose request fails with status 500, and on a turn
    whose reply has no content. *)
Lemma chat_turn_appends_two_messages_witness :
  let p := cli_props Sample.noFlags None in
  let sys := Run.typing "  fix my loop " in
  let failed := Response 500 "Internal Server Error" (Unparsable "") in
  let empty :=
    Response 200 "OK"
      (Parsed (JObject [("choices",
                         JArray [JObject [("message",
                                           JObject [("role", JString "assistant")])]])])) in
  let answered r := Run.step p (Run.step p sys InputSubmitted) (CompletionFetched r) in
  (exited sys = false /\ chatInputShown (state sys) = true
   /\ trim (input (state sys)) <> "" /\ finalApiKey (state sys) <> ""
   /\ forallb textual (messages (state sys)) = true)
  /\ messages (state (answered failed))
     = [ {| role := assistant; content := JString "Quack! (sarcastic)" |};
         {| role := user; content := JString "fix my loop" |};
         errorMessage (ErrorObject "OpenRouter API error: 500 Internal Server Error") ]
  /\ chatInputShown (state (answered failed)) = true
  /\ forallb textual (messages (state (answered empty))) = false.
Proof.
  intros p sys failed empty answered.
  assert (T : trim (input (state sys)) <> "") by (vm_compute; discriminate).
  assert (K : finalApiKey (state sys) <> "") by (vm_compute; discriminate).
  split; [repeat split; assumption|].
  destruct (chat_turn_appends_two_messages (host := Sample.host)
              p sys failed eq_refl eq_refl eq_refl T K) as (_ & _ & M & _ & _ & R & _).
  destruct (chat_turn_appends_two_messages (host := Sample.host)
              p sys empty eq_refl eq_refl eq_refl T K) as (_ & _ & _ & _ & _ & _ & N).
  split; [exact M|]. split; [exact (proj2 (R eq_refl))|].
  exact (N eq_refl).
Defined.

(** X16, on the credential prompt of a first run, and in the chat. *)
Lemma escape_leaves_during_setup_only_witness :
  let p := cli_props Sample.noFlags None in
  let setup := Run.run p [ConfigRead None; ApiKeyTyped "k1"] in
  let chat := Run.typing "fix my loop" in
  (exited setup = false /\ setupStep (state setup) <> complete
   /\ exited chat = false /\ setupStep (state chat) = complete)
  /\ log (Run.step p setup (KeyPress "" escapeKey)) = [ReadConfig; Exit 0]
  /\ Run.step p (Run.step p setup (KeyPress "" escapeKey)) ApiKeySubmitted
     = Run.step p setup (KeyPress "" escapeKey)
  /\ Run.step p chat (KeyPress "" escapeKey) = chat
  /\ exited (Run.step p chat (KeyPress "c" ctrlKey)) = true.
Proof.
  intros p setup chat.
  assert (N : setupStep (state setup) <> complete) by (vm_compute; discriminate).
  split; [repeat split; exact N|].
  destruct (proj1 (escape_leaves_during_setup_only (host := Sample.host)
                     p setup "" escapeKey [ApiKeySubmitted] eq_refl)
              (or_intror (conj eq_refl N))) as (_ & _ & L & F).
  split; [exact L|]. split; [exact F|]. split.
  - exact (proj2 (escape_leaves_during_setup_only (host := Sample.host)
                    p chat "" escapeKey [] eq_refl) eq_refl eq_refl).
  - exact (proj1 (proj1 (escape_leaves_during_setup_only (host := Sample.host)
                           p chat "c" ctrlKey [] eq_refl)
                    (or_introl (conj eq_refl eq_refl)))).
Defined.

(** X17, on a credential made of blanks. *)
Lemma blank_setup_submissions_do_nothing_witness :
  let p := cli_props Sample.noFlags None in
  let sys := Run.run p [ConfigRead None; ApiKeyTyped "   "] in
  (apiKeyInputShown (state sys) = true /\ trim (tempApiKey (state sys)) = "")
  /\ state (Run.step p sys ApiKeySubmitted) = state sys
  /\ log (Run.step p sys ApiKeySubmitted) = [ReadConfig].
Proof.
  intros p sys. split; [split; reflexivity|].
  destruct (proj1 (blank_setup_submissions_do_nothing (host := Sample.host) p sys)
              eq_refl) as (S & L & _).
  split; [exact S | exact L].
Defined.

(** X19, on a first run, and on a run that reconfigures. *)
Lemma model_choice_awaits_personality_only_when_reconfiguring_witness :
  let first := cli_props Sample.noFlags None in
  let again := cli_props Run.reconfigureFlags None in
  let typed :=
    [ ApiKeyTyped "k1"; ApiKeySubmitted; ModelsFetched Run.listingOk;
      ModelTyped "openai/gpt-4" ] in
  let sys1 := run (host := Sample.host) first (ConfigRead None :: typed) in
  let sys2 := run (host := Sample.host) again (ConfigCleared :: typed) in
  (exited sys1 = false /\ modelInputShown (state sys1) = true
   /\ trim (selectedModel (state sys1)) <> "" /\ reconfigure first = false
   /\ exited sys2 = false /\ modelInputShown (state sys2) = true
   /\ trim (selectedModel (state sys2)) <> "" /\ reconfigure again = true)
  /\ setupStep (state (step (host := Sample.host) first sys1 ModelSubmitted)) = complete
  /\ finalPersonality (state (step (host := Sample.host) first sys1 ModelSubmitted))
     = "cheerful"
  /\ setupStep (state (step (host := Sample.host) again sys2 ModelSubmitted))
     = personality_selection.
Proof.
  intros first again typed sys1 sys2.
  assert (T1 : trim (selectedModel (state sys1)) <> "") by (vm_compute; discriminate).
  assert (T2 : trim (selectedModel (state sys2)) <> "") by (vm_compute; discriminate).
  assert (M : finalModel (state sys1) <> trim (selectedModel (state sys1)))
    by (vm_compute; discriminate).
  split; [repeat split; assumption|].
  destruct (proj2 (model_choice_awaits_personality_only_when_reconfiguring
                     (host := Sample.host) first sys1 eq_refl eq_refl T1)
              eq_refl eq_refl eq_refl eq_refl M) as (S1 & _ & P1 & _).
  destruct (proj1 (model_choice_awaits_personality_only_when_reconfiguring
                     (host := Sample.host) again sys2 eq_refl eq_refl T2)
              eq_refl) as (S2 & _).
  split; [exact S1|]. split; [exact P1 | exact S2].
Defined.

(** X20, with the cursor moved to the second personality. *)
Lemma chosen_personality_is_saved_and_greets_witness :
  let p := cli_props Run.reconfigureFlags None in
  let evs := List.app Run.untilPersonality [KeyPress "" downKey] in
  let sys := run (host := Sample.host) p evs in
  let sys' := step (host := Sample.host) p sys (KeyPress "" returnKey) in
  (reconfigure p = true /\ otruthy (initialApiKey p) = false /\ exited sys = false
   /\ setupStep (state sys) = personality_selection
   /\ selectedPersonalityIndex (state sys) = 1)
  /\ log sys'
     = [ ClearConfig; GetModels "k1";
         SaveConfig {| apiKey := "k1"; model := "openai/gpt-4";
                       personality := "sarcastic" |} ]
  /\ messages (state sys')
     = [{| role := assistant; content := JString "Quack! (sarcastic)" |}].
Proof.
  intros p evs sys sys'. split; [repeat split|].
  assert (I : 0 <= selectedPersonalityIndex (state sys)) by (vm_compute; discriminate).
  destruct (chosen_personality_is_saved_and_greets (host := Sample.host) p evs
              {| value := "sarcastic"; label := "Sarcastic";
                 description := "Witty, sharp-tongued, but ultimately helpful" |}
              eq_refl eq_refl eq_refl eq_refl I eq_refl) as (_ & _ & L & M & _).
  split; [exact L | exact M].
Defined.
